(** * Reely backend: the job-oriented video-processing pipeline

    A shallow embedding of the pipeline code of [backend/job_manager.py],
    [backend/utils.py], [backend/utils_optimized.py],
    [backend/async_processor.py] and [backend/quick_timeout_fix.py].

    Conventions of the embedding:
    - Python [float] and [int] timestamps are rationals ([Q]); every
      finite double is one. The arithmetic of the transcriber (window
      bounds, chunk starts, time offsets) and the milliseconds of an SRT
      time are rounded to the nearest double ([Float]); the comparisons,
      [max], [min] and the window subtractions of the subtitle formatter
      and of the transform commands are taken without rounding.
    - Python [str] is [string]; a character is one [ascii].
    - a dictionary keyed by strings is a [gmap string _]; a [dict] that came
      out of [json.loads] is an association list (document order, the last
      binding of a key wins).
    - external collaborators (ffmpeg, ffprobe, yt_dlp, the speech and LLM
      services) are oracles: their outcome is an argument of the function
      that calls them.
    - an exception is a value; every class that appears derives from
      Python's [Exception]. *)

From Stdlib Require Import ZArith QArith Qminmax Qround Qpower Qabs Lqa Lia.
From Stdlib Require Import String Ascii DecimalString List Sorted.
From stdpp Require Import base option gmap strings list.
Import ListNotations.

#[local] Open Scope Z_scope.
#[local] Open Scope string_scope.

(** ** Exceptions and outcomes *)

Module Py.

(** The exception classes the pipeline raises or catches.
    [CalledProcessError] carries [e.stderr]. *)
Inductive exn_class : Type :=
| Exception
| ValueError
| TypeError
| KeyError
| OSError
| OverflowError
| JSONDecodeError
| CalledProcessError (stderr : string)
| TimeoutExpired
| ProcessingTimeoutError
| Retry.

(** [exn_str] is [str(e)]. *)
Record exn : Type := Exn { exn_cls : exn_class; exn_str : string }.

Inductive outcome (A : Type) : Type :=
| Return (a : A)
| Raise (e : exn).
Arguments Return {A} a.
Arguments Raise {A} e.

Definition is_return {A} (o : outcome A) : bool :=
  match o with Return _ => true | Raise _ => false end.

Definition raised_class {A} (o : outcome A) : option exn_class :=
  match o with Return _ => None | Raise e => Some (exn_cls e) end.

(** Truthiness of a [str]: the empty string is falsy. *)
Definition truthy (s : string) : bool :=
  match s with EmptyString => false | String _ _ => true end.

(** A state-and-exception monad: the state a computation has reached is
    kept when it raises, as Python keeps the heap and the file system. *)
Definition M (S A : Type) : Type := S -> outcome A * S.

Definition ret {S A} (a : A) : M S A := fun s => (Return a, s).
Definition raise {S A} (e : exn) : M S A := fun s => (Raise e, s).
Definition bind {S A B} (m : M S A) (k : A -> M S B) : M S B :=
  fun s => match m s with
           | (Return a, s') => k a s'
           | (Raise e, s') => (Raise e, s')
           end.
(** [try: body except Exception as e: handler(e)] *)
Definition try_except {S A} (body : M S A) (handler : exn -> M S A) : M S A :=
  fun s => match body s with
           | (Return a, s') => (Return a, s')
           | (Raise e, s') => handler e s'
           end.
(** [try: body finally: fin] *)
Definition try_finally {S A} (body : M S A) (fin : M S unit) : M S A :=
  fun s => match body s with
           | (o, s') => match fin s' with
                        | (Return _, s'') => (o, s'')
                        | (Raise e, s'') => (Raise e, s'')
                        end
           end.
(** The outcome of [m] as a value: what a [try] block hands to the code
    after it. *)
Definition attempt {S A} (m : M S A) : M S (outcome A) :=
  fun s => match m s with (o, s') => (Return o, s') end.
Definition get {S} : M S S := fun s => (Return s, s).
Definition modify {S} (f : S -> S) : M S unit := fun s => (Return tt, f s).
Definition lift {S A} (o : outcome A) : M S A := fun s => (o, s).

End Py.

Declare Scope py_scope.
Delimit Scope py_scope with py.
Notation "x <- m ;; k" := (Py.bind m (fun x => k))
  (at level 100, m at next level, right associativity) : py_scope.
Notation "m ;;; k" := (Py.bind m (fun _ => k))
  (at level 100, right associativity) : py_scope.

(** ** Python floats

    A finite [float] is the rational it stands for. An arithmetic
    operation on floats gives the double nearest to the exact result,
    ties going to the even significand (IEEE 754 binary64, the rounding
    CPython's [+], [-], [*] and [/] have). Results beyond the largest
    double, where Python gives [inf], are not represented. *)

Module Float.

(** The exponent of [x]: [2 ^ ilog2 x <= x < 2 ^ (ilog2 x + 1)] for
    [0 < x]. *)
Definition ilog2 (x : Q) : Z :=
  let e := (Z.log2 (Qnum x) - Z.log2 (Zpos (Qden x)))%Z in
  if Qle_bool (2 ^ e)%Q x then e else (e - 1)%Z.

(** The nearest integer, a tie going to the even one. *)
Definition rne (q : Q) : Z :=
  let n := Qfloor q in
  match (q - inject_Z n ?= 1 # 2)%Q with
  | Lt => n
  | Gt => (n + 1)%Z
  | Eq => if Z.even n then n else (n + 1)%Z
  end.

(** The gap between the doubles around [x]: 52 bits below its exponent,
    the exponent never taken below that of the subnormal numbers. *)
Definition ulp (x : Q) : Q := (2 ^ (Z.max (ilog2 x) (-1022) - 52))%Q.

Definition round_pos (x : Q) : Q :=
  Qred (inject_Z (rne (x / ulp x)) * ulp x).

(** The double nearest to [x]. *)
Definition round (x : Q) : Q :=
  match (x ?= 0)%Q with
  | Eq => 0%Q
  | Gt => round_pos x
  | Lt => Qred (- round_pos (- x))
  end.

(** [a + b], [a - b], [a * b] and [a / b] on floats ([b] not zero). *)
Definition add (a b : Q) : Q := round (a + b).
Definition sub (a b : Q) : Q := round (a - b).
Definition mul (a b : Q) : Q := round (a * b).
Definition div (a b : Q) : Q := round (a / b).

End Float.

(** ** The job record store ([job_manager.py]) *)

Module Jobs.

Inductive JobStatus : Type :=
| QUEUED | DOWNLOADING | PROCESSING | TRANSCRIBING | TRIMMING | COMPLETED | FAILED.

#[export] Instance JobStatus_eq_dec : EqDecision JobStatus.
Proof. solve_decision. Defined.

(** One hook of a result payload, as the analyzer returns it. *)
Record Hook : Type := mkHook {
  hook_start : Z;
  hook_end : Z;
  hook_title : string;
  hook_reason : string
}.

(** The two result dictionaries the orchestrator builds. Both are
    non-empty dictionaries, hence truthy. *)
Inductive JobResult : Type :=
| TrimResult (download_id : string) (original_duration : option Q)
             (trimmed_duration : Q) (file_path : string)
| HooksResult (hooks : list Hook) (total_hooks : nat) (video_duration : option Q).

Record Job : Type := mkJob {
  id : string;
  status : JobStatus;
  progress : Z;
  message : string;
  created_at : Q;
  updated_at : Q;
  result : option JobResult;
  error : option string;
  job_type : string;
  url : string;
  start_time : Q;
  end_time : Q;
  vertical_format : bool;
  add_subtitles : bool;
  ai_provider : string;
  temp_dir : option string;
  file_paths : list string
}.

Definition set_status (v : JobStatus) (j : Job) : Job :=
  mkJob (id j) v (progress j) (message j) (created_at j) (updated_at j)
        (result j) (error j) (job_type j) (url j) (start_time j) (end_time j)
        (vertical_format j) (add_subtitles j) (ai_provider j) (temp_dir j)
        (file_paths j).
Definition set_progress (v : Z) (j : Job) : Job :=
  mkJob (id j) (status j) v (message j) (created_at j) (updated_at j)
        (result j) (error j) (job_type j) (url j) (start_time j) (end_time j)
        (vertical_format j) (add_subtitles j) (ai_provider j) (temp_dir j)
        (file_paths j).
Definition set_message (v : string) (j : Job) : Job :=
  mkJob (id j) (status j) (progress j) v (created_at j) (updated_at j)
        (result j) (error j) (job_type j) (url j) (start_time j) (end_time j)
        (vertical_format j) (add_subtitles j) (ai_provider j) (temp_dir j)
        (file_paths j).
Definition set_updated_at (v : Q) (j : Job) : Job :=
  mkJob (id j) (status j) (progress j) (message j) (created_at j) v
        (result j) (error j) (job_type j) (url j) (start_time j) (end_time j)
        (vertical_format j) (add_subtitles j) (ai_provider j) (temp_dir j)
        (file_paths j).
Definition set_result (v : option JobResult) (j : Job) : Job :=
  mkJob (id j) (status j) (progress j) (message j) (created_at j) (updated_at j)
        v (error j) (job_type j) (url j) (start_time j) (end_time j)
        (vertical_format j) (add_subtitles j) (ai_provider j) (temp_dir j)
        (file_paths j).
Definition set_error (v : option string) (j : Job) : Job :=
  mkJob (id j) (status j) (progress j) (message j) (created_at j) (updated_at j)
        (result j) v (job_type j) (url j) (start_time j) (end_time j)
        (vertical_format j) (add_subtitles j) (ai_provider j) (temp_dir j)
        (file_paths j).
Definition set_temp_dir (v : option string) (j : Job) : Job :=
  mkJob (id j) (status j) (progress j) (message j) (created_at j) (updated_at j)
        (result j) (error j) (job_type j) (url j) (start_time j) (end_time j)
        (vertical_format j) (add_subtitles j) (ai_provider j) v
        (file_paths j).
Definition set_file_paths (v : list string) (j : Job) : Job :=
  mkJob (id j) (status j) (progress j) (message j) (created_at j) (updated_at j)
        (result j) (error j) (job_type j) (url j) (start_time j) (end_time j)
        (vertical_format j) (add_subtitles j) (ai_provider j) (temp_dir j)
        v.

(** [JobManager.update_job]: the body after [job = self.jobs[job_id]],
    one assignment per [if]. [now] is the reading of [time.time()]. *)
Definition update_fields (now : Q) (st : option JobStatus) (pr : option Z)
           (msg : option string) (res : option JobResult)
           (err : option string) (job : Job) : Job :=
  let job := set_updated_at now job in
  let job := match st with Some s => set_status s job | None => job end in
  let job := match pr with Some p => set_progress p job | None => job end in
  let job := match msg with
             | Some m => if Py.truthy m then set_message m job else job
             | None => job
             end in
  let job := match res with Some r => set_result (Some r) job | None => job end in
  match err with
  | Some e => if Py.truthy e then set_status FAILED (set_error (Some e) job)
              else job
  | None => job
  end.

(** [JobManager.update_job] on the store [self.jobs]; an unknown id
    returns at once. *)
Definition update_job (jobs : gmap string Job) (now : Q) (job_id : string)
           (st : option JobStatus) (pr : option Z) (msg : option string)
           (res : option JobResult) (err : option string)
  : gmap string Job :=
  match jobs !! job_id with
  | None => jobs
  | Some job => <[job_id := update_fields now st pr msg res err job]> jobs
  end.

(** [JobManager.create_job] with the keyword arguments the callers pass;
    [job_id] is the fresh [uuid4] string. *)
Definition create_job (jobs : gmap string Job) (now : Q) (job_id : string)
           (jtype url : string) (start_t end_t : Q)
           (vertical subtitles : bool) (provider : string)
  : gmap string Job :=
  <[job_id := mkJob job_id QUEUED 0 "Job created, waiting to start..."
                    now now None None jtype url start_t end_t
                    vertical subtitles provider None []]> jobs.

End Jobs.

(** ** The file system seen by the pipeline *)

Module FS.

(** A path names a regular file of some size in bytes, or a directory. *)
Inductive node : Type :=
| File (size : N)
| Dir.

Abbreviation fs := (gmap string node).

(** [os.path.exists] *)
Definition exists_ (f : fs) (p : string) : bool :=
  match f !! p with Some _ => true | None => false end.

(** [os.path.getsize]; [OSError] for a missing path. A directory has a
    size too (that of its inode), taken as 4096. *)
Definition getsize (p : string) : Py.M fs N :=
  fun f => match f !! p with
           | Some (File n) => (Py.Return n, f)
           | Some Dir => (Py.Return 4096%N, f)
           | None => (Py.Raise (Py.Exn Py.OSError "No such file or directory"), f)
           end.

(** [os.remove]: unlinks a regular file; on a directory it raises
    [IsADirectoryError] (or [PermissionError]), on a missing path
    [FileNotFoundError], all of them [OSError]s. *)
Definition os_remove (p : string) : Py.M fs unit :=
  fun f => match f !! p with
           | Some (File _) => (Py.Return tt, delete p f)
           | Some Dir => (Py.Raise (Py.Exn Py.OSError "Is a directory"), f)
           | None => (Py.Raise (Py.Exn Py.OSError "No such file or directory"), f)
           end.

(** [os.path.join(a, b)] *)
Definition ends_with_slash (a : string) : bool :=
  match String.get (String.length a - 1) a with
  | Some c => Ascii.eqb c "/"%char
  | None => false
  end.

Definition path_join (a b : string) : string :=
  if String.prefix "/" b then b
  else if negb (Py.truthy a) || ends_with_slash a then a +:+ b
  else a +:+ "/" +:+ b.

(** [os.path.dirname(p)]: the text before the last slash, without its
    trailing slashes unless it is made of slashes only. *)
Fixpoint head_upto_slash (p : string) : string :=
  match p with
  | EmptyString => EmptyString
  | String c r =>
      match head_upto_slash r with
      | EmptyString => if Ascii.eqb c "/"%char then String c EmptyString
                       else EmptyString
      | h => String c h
      end
  end.

Fixpoint rstrip_slash (p : string) : string :=
  match p with
  | EmptyString => EmptyString
  | String c r =>
      match rstrip_slash r with
      | EmptyString => if Ascii.eqb c "/"%char then EmptyString
                       else String c EmptyString
      | r' => String c r'
      end
  end.

Definition dirname (p : string) : string :=
  let head := head_upto_slash p in
  match rstrip_slash head with
  | EmptyString => head
  | h => h
  end.

(** [p] lies below the directory [d]. *)
Definition below (d p : string) : bool := String.prefix (d +:+ "/") p.

(** [shutil.rmtree]: removes the directory and everything below it. *)
Definition rmtree (d : string) : Py.M fs unit :=
  fun f => match f !! d with
           | Some Dir =>
               (Py.Return tt,
                filter (fun kv => negb (below d (fst kv)) = true) (delete d f))
           | Some (File _) => (Py.Raise (Py.Exn Py.OSError "Not a directory"), f)
           | None => (Py.Raise (Py.Exn Py.OSError "No such file or directory"), f)
           end.

(** [tempfile.mkdtemp]: the fresh directory is created and its path
    returned. *)
Definition mkdtemp (fresh : Py.outcome string) : Py.M fs string :=
  fun f => match fresh with
           | Py.Return d => (Py.Return d, <[d := Dir]> f)
           | Py.Raise e => (Py.Raise e, f)
           end.

(** The directory [p] lies in is there: the working directory and the
    root always are. *)
Definition parent_exists (f : fs) (p : string) : bool :=
  match rstrip_slash (dirname p) with
  | EmptyString => true
  | _ => match f !! dirname p with
         | Some Dir => true
         | _ => false
         end
  end.

(** Writing a file of [n] bytes at [p] ([open(p, 'w')] then [write]):
    [open] raises [IsADirectoryError] on a directory and
    [FileNotFoundError] (or [NotADirectoryError]) when the directory of
    [p] is missing, all of them [OSError]s. *)
Definition write_file (p : string) (n : N) : Py.M fs unit :=
  fun f => match f !! p with
           | Some Dir => (Py.Raise (Py.Exn Py.OSError "Is a directory"), f)
           | _ =>
               if parent_exists f p
               then (Py.Return tt, <[p := File n]> f)
               else (Py.Raise (Py.Exn Py.OSError "No such file or directory"), f)
           end.

(** [utils.cleanup_files] on its argument tuple: each path is removed with
    [os.remove] when it is truthy and exists; whatever [os.remove] raises
    is logged and dropped. *)
Definition cleanup_one (file_path : option string) : Py.M fs unit :=
  Py.try_except
    (match file_path with
     | Some p => if Py.truthy p
                 then fun f => if exists_ f p then os_remove p f else (Py.Return tt, f)
                 else Py.ret tt
     | None => Py.ret tt
     end)
    (fun _ => Py.ret tt).

Fixpoint cleanup_files (file_paths : list (option string)) : Py.M fs unit :=
  match file_paths with
  | [] => Py.ret tt
  | p :: rest => Py.bind (cleanup_one p) (fun _ => cleanup_files rest)
  end.

End FS.

(** ** External processes ([subprocess.run]) *)

Module Proc.

(** What one invocation of an external tool does: the wall-clock
    seconds it needs, its exit status and output, and the files it has
    on disk when it stops, whether it ran to its end or was killed. *)
Record run : Type := mkRun {
  elapsed : N;
  returncode : Z;
  stdout : string;
  stderr : string;
  writes : list (string * N)
}.

(** The executable may be missing: [subprocess.run] then raises an
    [OSError] before anything runs. *)
Inductive behaviour : Type :=
| CannotStart (msg : string)
| Runs (r : run).

Record CompletedProcess : Type := mkCompleted {
  cp_returncode : Z;
  cp_stdout : string;
  cp_stderr : string
}.

Definition apply_writes (ws : list (string * N)) (f : FS.fs) : FS.fs :=
  foldl (fun acc w => <[fst w := FS.File (snd w)]> acc) f ws.

(** [timeout=t]: the child is killed once [t] seconds have passed. *)
Definition timed_out (timeout : option N) (r : run) : bool :=
  match timeout with
  | Some t => (t <? elapsed r)%N
  | None => false
  end.

(** [subprocess.run(cmd, capture_output=True, timeout=..., check=...)].
    The texts of [str(e)] name the command line and are kept schematic. *)
Definition subprocess_run (b : behaviour) (timeout : option N) (check : bool)
  : Py.M FS.fs CompletedProcess :=
  fun f =>
    match b with
    | CannotStart msg => (Py.Raise (Py.Exn Py.OSError msg), f)
    | Runs r =>
        let f' := apply_writes (writes r) f in
        if timed_out timeout r
        then (Py.Raise (Py.Exn Py.TimeoutExpired "Command timed out"), f')
        else if check && negb (returncode r =? 0)%Z
             then (Py.Raise (Py.Exn (Py.CalledProcessError (stderr r))
                                    "Command returned non-zero exit status"), f')
             else (Py.Return (mkCompleted (returncode r) (stdout r) (stderr r)), f')
    end.

(** The command lines the pipeline builds, by what they ask for. The
    overlay geometry of the vertical filter graph (scaled size and
    offsets, computed from the target and the input size) is part of the
    filter string only and is not represented. *)
Inductive command : Type :=
| FfmpegTrimCopy (input output : string) (ss t : Q)
| FfmpegVertical (input output : string) (ss t : Q)
                 (target_width target_height : Z) (is_horizontal : bool)
                 (subtitle_file : option string)
| FfmpegVerticalOptimized (input output : string) (ss t : Q)
                 (target_width target_height : Z) (is_horizontal : bool)
                 (subtitle_file : option string)
| FfmpegSegmentAudio (input output : string) (ss t : Q)
| FfmpegFullAudio (input output : string)
| FfmpegChunk (input output : string) (ss t : Q)
| FfmpegSample (input output : string) (ss t : Q).

(** The answer of [ffprobe -show_entries format=duration -of csv=p=0]. *)
Inductive probe : Type :=
| ProbeFailed
| ProbeUnparsable
| ProbeDuration (d : Q).

End Proc.

(** ** Transcripts *)

Module Transcript.

(** A segment dictionary; a field is [None] when the key is absent
    (the code reads the three of them with [.get] and a default). *)
Record Segment : Type := mkSegment {
  seg_start : option Q;
  seg_end : option Q;
  seg_text : option string
}.

(** The transcript dictionary: ["text"], ["segments"] and the
    ["sampled"] tag (present and [True], or absent). *)
Record Data : Type := mkData {
  td_text : option string;
  td_segments : option (list Segment);
  td_sampled : bool
}.

(** Truthiness of the dictionary: it has a key. *)
Definition truthy (d : Data) : bool :=
  match td_text d, td_segments d with
  | None, None => td_sampled d
  | _, _ => true
  end.

(** What the speech service answers for one file: [transcript.text], and
    [transcript.segments] when the attribute exists. *)
Record Whisper : Type := mkWhisper {
  w_text : string;
  w_segments : option (list (Q * Q * string))
}.

End Transcript.

(** ** The world: every external collaborator of the pipeline *)

Record World : Type := mkWorld {
  (** [time.time()] *)
  now : Q;
  (** the fresh path [tempfile.mkdtemp()] returns, or what it raises *)
  fresh_dir : Py.outcome string;
  (** [os.getenv('OPENAI_API_KEY')] is set and non-empty *)
  openai_api_key : bool;
  (** [utils.download_youtube_video(url, output_dir, for_hooks)] *)
  download : string -> string -> bool -> Py.M FS.fs string;
  (** [utils.get_video_duration(path)]: [None] on any failure *)
  video_duration : string -> option Q;
  (** [get_video_dimensions(path)] and its [_fast] variant *)
  video_dimensions : string -> option Z * option Z;
  (** the external media tool, by command *)
  ffmpeg : Proc.command -> Proc.behaviour;
  (** [ffprobe] asked for the duration of a file *)
  ffprobe_duration : string -> Proc.probe;
  (** [client.audio.transcriptions.create] on the file at a path *)
  whisper : string -> Py.outcome Transcript.Whisper;
  (** [utils.process_video_for_hooks(url, temp_dir, ai_provider)] *)
  hooks_pipeline : string -> string -> string -> Py.M FS.fs (list Jobs.Hook);
  (** [next(get_db_session())] in the queue worker. As [database.py]
      stands ([get_db_session] is a [@contextmanager]) the call raises
      [TypeError]; the other outcome is kept to follow the task beyond
      it. *)
  db_session : Py.outcome unit
}.

(** ** Python string helpers *)

Module Str.

(** [c.isspace()] for the characters below 128. *)
Definition isspace (c : ascii) : bool :=
  let n := nat_of_ascii c in
  ((9 <=? n)%nat && (n <=? 13)%nat) || ((28 <=? n)%nat && (n <=? 32)%nat).

Fixpoint lstrip (s : string) : string :=
  match s with
  | EmptyString => EmptyString
  | String c r => if isspace c then lstrip r else s
  end.

Fixpoint rstrip (s : string) : string :=
  match s with
  | EmptyString => EmptyString
  | String c r =>
      match rstrip r with
      | EmptyString => if isspace c then EmptyString else String c EmptyString
      | r' => String c r'
      end
  end.

(** [s.strip()] *)
Definition strip (s : string) : string := rstrip (lstrip s).

(** [s[:n]] *)
Definition slice_to (n : nat) (s : string) : string := String.substring 0 n s.

Fixpoint words (cur : string) (s : string) : list string :=
  match s with
  | EmptyString => if Py.truthy cur then [cur] else []
  | String c r =>
      if isspace c
      then (if Py.truthy cur then cur :: words EmptyString r
            else words EmptyString r)
      else words (cur +:+ String c EmptyString) r
  end.

(** [s.split()] *)
Definition split (s : string) : list string := words EmptyString s.

(** [sep.join(l)] *)
Definition join (sep : string) (l : list string) : string := String.concat sep l.

Definition digits (n : N) : string :=
  DecimalString.NilEmpty.string_of_uint (N.to_uint n).

Fixpoint zeros (n : nat) : string :=
  match n with
  | O => EmptyString
  | S k => String "0"%char (zeros k)
  end.

Definition zfill (width : nat) (s : string) : string :=
  zeros (width - String.length s) +:+ s.

(** [f"{z:0{width}d}"] *)
Definition fmt_d (width : nat) (z : Z) : string :=
  if (z <? 0)%Z
  then String "-"%char (zfill (width - 1) (digits (Z.to_N (- z))))
  else zfill width (digits (Z.to_N z)).

(** [str(z)] of an [int] *)
Definition of_Z (z : Z) : string := fmt_d 0 z.

(** [s.lower()] on the letters below 128 *)
Definition lower_char (c : ascii) : ascii :=
  let n := nat_of_ascii c in
  if (65 <=? n)%nat && (n <=? 90)%nat then ascii_of_nat (n + 32) else c.

Fixpoint lower (s : string) : string :=
  match s with
  | EmptyString => EmptyString
  | String c r => String (lower_char c) (lower r)
  end.

(** [sub in s] *)
Definition contains (sub s : string) : bool :=
  match String.index 0 sub s with
  | Some _ => true
  | None => false
  end.

End Str.

(** ** Subtitle Formatter ([utils.py], [utils_optimized.py]) *)

Module Subtitles.

Import Transcript.

(** [x % m] for [0 < m] *)
Definition qmod (x m : Q) : Q := (x - m * inject_Z (Qfloor (x / m)))%Q.

(** [seconds_to_srt_time]: the four numbers, then the string. [//] and
    [%] are exact on doubles; the product [(seconds % 1) * 1000] is
    rounded. *)
Definition srt_fields (seconds : Q) : Z * Z * Z * Z :=
  let hours := Qfloor (seconds / 3600) in
  let minutes := Qfloor (qmod seconds 3600 / 60) in
  let secs := Qfloor (qmod seconds 60) in
  let millisecs := Qfloor (Float.mul (qmod seconds 1) 1000) in
  (hours, minutes, secs, millisecs).

Definition seconds_to_srt_time (seconds : Q) : string :=
  match srt_fields seconds with
  | (hours, minutes, secs, millisecs) =>
      Str.fmt_d 2 hours +:+ ":" +:+ Str.fmt_d 2 minutes +:+ ":"
      +:+ Str.fmt_d 2 secs +:+ "," +:+ Str.fmt_d 3 millisecs
  end.

(** One entry of [subtitle_lines], before it is formatted. *)
Record Caption : Type := mkCaption {
  cap_index : nat;
  adjusted_start : Q;
  adjusted_end : Q;
  cap_text : string
}.

(** [f"{subtitle_index}\n{start_srt} --> {end_srt}\n{text}\n"] *)
Definition render (c : Caption) : string :=
  Str.digits (N.of_nat (cap_index c)) +:+ "
" +:+ seconds_to_srt_time (adjusted_start c) +:+ " --> "
    +:+ seconds_to_srt_time (adjusted_end c) +:+ "
" +:+ cap_text c +:+ "
".

Definition get_start (s : Segment) : Q := default 0%Q (seg_start s).
Definition get_end (s : Segment) : Q := default 0%Q (seg_end s).
Definition get_text (s : Segment) : string := default EmptyString (seg_text s).

(** [seg_end >= start_time and seg_start <= end_time] *)
Definition in_range (start_time end_time : Q) (s : Segment) : bool :=
  Qle_bool start_time (get_end s) && Qle_bool (get_start s) end_time.

(** The loop of [create_subtitle_file] over the segments;
    [subtitle_index] is the number the next caption gets. *)
Fixpoint subtitle_lines (start_time end_time : Q) (subtitle_index : nat)
         (segments : list Segment) : list Caption :=
  match segments with
  | [] => []
  | segment :: rest =>
      if in_range start_time end_time segment
      then
        let adjusted_start := Qmax 0 (get_start segment - start_time) in
        let adjusted_end :=
          Qmin (end_time - start_time) (get_end segment - start_time) in
        let text := Str.strip (get_text segment) in
        if Py.truthy text
        then mkCaption subtitle_index adjusted_start adjusted_end text
               :: subtitle_lines start_time end_time (S subtitle_index) rest
        else subtitle_lines start_time end_time subtitle_index rest
      else subtitle_lines start_time end_time subtitle_index rest
  end.

(** The captions [create_subtitle_file] puts in the file: the single
    ten-second caption built from the text when there are no segments,
    the loop's captions otherwise. *)
Definition captions (transcript_data : Data) (start_time end_time : Q)
  : list Caption :=
  match default [] (td_segments transcript_data) with
  | [] => [mkCaption 1 0 10
             (Str.slice_to 100 (default EmptyString (td_text transcript_data))
              +:+ "...")]
  | segments => subtitle_lines start_time end_time 1 segments
  end.

Definition subtitle_content (transcript_data : Data) (start_time end_time : Q)
  : string :=
  match default [] (td_segments transcript_data) with
  | [] => "1
00:00:00,000 --> 00:00:10,000
" +:+ Str.slice_to 100 (default EmptyString (td_text transcript_data)) +:+ "...

"
  | segments =>
      Str.join "
" (map render (subtitle_lines start_time end_time 1 segments))
  end.

(** [utils.create_subtitle_file]: whatever the body raises comes out as
    the formatter's own [Exception]. *)
Definition create_subtitle_file (transcript_data : Data) (output_path : string)
           (start_time end_time : Q) : Py.M FS.fs string :=
  Py.try_except
    (Py.bind
       (FS.write_file output_path
          (N.of_nat (String.length
                       (subtitle_content transcript_data start_time end_time))))
       (fun _ => Py.ret output_path))
    (fun e => Py.raise (Py.Exn Py.Exception
                          ("Failed to create subtitle file: " +:+ Py.exn_str e))).

(** The line breaking of [create_optimized_subtitle_file]: one step of
    the loop over the words, on [(lines, current_line)]. *)
Definition wrap_step (acc : list string * list string) (word : string)
  : list string * list string :=
  let current_line := (snd acc ++ [word])%list in
  if (35 <? String.length (Str.join " " current_line))%nat
  then ((fst acc ++ [Str.join " " (removelast current_line)])%list, [word])
  else (fst acc, current_line).

Definition wrap (text : string) : string :=
  if (40 <? String.length text)%nat
  then
    let '(lines, current_line) := foldl wrap_step ([], []) (Str.split text) in
    let lines := match current_line with
                 | [] => lines
                 | _ => (lines ++ [Str.join " " current_line])%list
                 end in
    Str.join "
" lines
  else text.

(** The loop of [create_optimized_subtitle_file]. *)
Fixpoint optimized_lines (start_time end_time : Q) (subtitle_index : nat)
         (segments : list Segment) : list Caption :=
  match segments with
  | [] => []
  | segment :: rest =>
      if in_range start_time end_time segment
      then
        let adjusted_start := Qmax 0 (get_start segment - start_time) in
        let adjusted_end :=
          Qmin (end_time - start_time) (get_end segment - start_time) in
        let text := Str.strip (get_text segment) in
        if Py.truthy text && (3 <? String.length text)%nat
        then mkCaption subtitle_index adjusted_start adjusted_end (wrap text)
               :: optimized_lines start_time end_time (S subtitle_index) rest
        else optimized_lines start_time end_time subtitle_index rest
      else optimized_lines start_time end_time subtitle_index rest
  end.

(** The captions [create_optimized_subtitle_file] writes; none means
    that no file is written and [None] is returned. *)
Definition optimized_captions (transcript_data : Data) (start_time end_time : Q)
  : list Caption :=
  match default [] (td_segments transcript_data) with
  | [] =>
      let text := Str.slice_to 200 (default EmptyString (td_text transcript_data)) in
      if Py.truthy text
      then [mkCaption 1 0 (end_time - start_time) text]
      else []
  | segments => optimized_lines start_time end_time 1 segments
  end.

Definition optimized_content (transcript_data : Data) (start_time end_time : Q)
  : string :=
  match default [] (td_segments transcript_data) with
  | [] =>
      "1
00:00:00,000 --> " +:+ seconds_to_srt_time (end_time - start_time) +:+ "
" +:+ Str.slice_to 200 (default EmptyString (td_text transcript_data)) +:+ "

"
  | segments =>
      Str.join "
" (map render (optimized_lines start_time end_time 1 segments))
  end.

(** [utils_optimized.create_optimized_subtitle_file]: whatever the body
    raises is logged, and [None] returned. *)
Definition create_optimized_subtitle_file (transcript_data : Data)
           (temp_dir : string) (start_time end_time : Q)
  : Py.M FS.fs (option string) :=
  Py.try_except
    (let subtitle_path := FS.path_join temp_dir "optimized_subtitles.srt" in
     match optimized_captions transcript_data start_time end_time with
     | [] => Py.ret None
     | _ =>
         Py.bind
           (FS.write_file subtitle_path
              (N.of_nat (String.length
                           (optimized_content transcript_data start_time end_time))))
           (fun _ => Py.ret (Some subtitle_path))
     end)
    (fun _ => Py.ret None).

End Subtitles.

(** ** Video Transform Engine ([utils.py], [utils_optimized.py]) *)

Module Transform.

#[local] Open Scope py_scope.

(** [not width or not height] on what the prober returned *)
Definition usable_dimensions (d : option Z * option Z) : option (Z * Z) :=
  match d with
  | (Some width, Some height) =>
      if (width =? 0)%Z || (height =? 0)%Z then None else Some (width, height)
  | _ => None
  end.

(** [add_subtitles and transcript_data] *)
Definition wants_subtitles (add_subtitles : bool)
           (transcript_data : option Transcript.Data) : option Transcript.Data :=
  match transcript_data with
  | Some d => if add_subtitles && Transcript.truthy d then Some d else None
  | None => None
  end.

(** [utils.trim_video] *)
Definition trim_video (W : World) (input_path output_path : string)
           (start_time end_time : Q) : Py.M FS.fs string :=
  Py.try_except
    (let duration := (end_time - start_time)%Q in
     _ <- Proc.subprocess_run
            (ffmpeg W (Proc.FfmpegTrimCopy input_path output_path start_time duration))
            None true ;;
     f <- Py.get ;;
     if FS.exists_ f output_path
     then Py.ret output_path
     else Py.raise (Py.Exn Py.Exception "Trimmed video file was not created"))
    (fun e =>
       match Py.exn_cls e with
       | Py.CalledProcessError stderr =>
           Py.raise (Py.Exn Py.Exception ("Failed to trim video: " +:+ stderr))
       | _ =>
           Py.raise (Py.Exn Py.Exception ("Failed to trim video: " +:+ Py.exn_str e))
       end).

(** The fixed target of [utils.trim_video_vertical]. *)
Definition target_resolution : Z * Z := (1080, 1920).

(** The command [utils.trim_video_vertical] builds for an input of
    [width] by [height]. *)
Definition vertical_command (input_path output_path : string)
           (start_time end_time : Q) (width height : Z)
           (subtitle_file : option string) : Proc.command :=
  let duration := (end_time - start_time)%Q in
  let '(target_width, target_height) := target_resolution in
  let is_horizontal := (height <? width)%Z in
  Proc.FfmpegVertical input_path output_path start_time duration
                      target_width target_height is_horizontal subtitle_file.

(** [utils.trim_video_vertical] *)
Definition trim_video_vertical (W : World) (input_path output_path : string)
           (start_time end_time : Q)
           (transcript_data : option Transcript.Data) (add_subtitles : bool)
  : Py.M FS.fs string :=
  Py.try_except
    (let temp_dir := FS.dirname output_path in
     match usable_dimensions (video_dimensions W input_path) with
     | None => Py.raise (Py.Exn Py.Exception "Could not determine video dimensions")
     | Some (width, height) =>
         let subs := wants_subtitles add_subtitles transcript_data in
         let subtitle_file := FS.path_join temp_dir "subtitles.srt" in
         _ <- match subs with
              | Some d =>
                  Subtitles.create_subtitle_file d subtitle_file start_time end_time
              | None => Py.ret subtitle_file
              end ;;
         _ <- Proc.subprocess_run
                (ffmpeg W (vertical_command input_path output_path start_time
                             end_time width height
                             (match subs with
                              | Some _ => Some subtitle_file
                              | None => None
                              end)))
                None true ;;
         f <- Py.get ;;
         if FS.exists_ f output_path
         then
           _ <- match subs with
                | Some _ => Py.try_except (FS.os_remove subtitle_file)
                                          (fun _ => Py.ret tt)
                | None => Py.ret tt
                end ;;
           Py.ret output_path
         else Py.raise (Py.Exn Py.Exception "Processed video file was not created")
     end)
    (fun e =>
       match Py.exn_cls e with
       | Py.CalledProcessError stderr =>
           Py.raise (Py.Exn Py.Exception ("Failed to process video: " +:+ stderr))
       | _ =>
           Py.raise (Py.Exn Py.Exception ("Failed to process video: " +:+ Py.exn_str e))
       end).

(** [utils_optimized.trim_video_vertical_optimized]: the target chosen
    from the input width. *)
Definition optimized_target_resolution (width : Z) : Z * Z :=
  if (width <=? 720)%Z then (720, 1280) else (1080, 1920).

Definition optimized_vertical_command (input_path output_path : string)
           (start_time end_time : Q) (width height : Z)
           (subtitle_file : option string) : Proc.command :=
  let duration := (end_time - start_time)%Q in
  let '(target_width, target_height) := optimized_target_resolution width in
  let is_horizontal := (height <? width)%Z in
  Proc.FfmpegVerticalOptimized input_path output_path start_time duration
                               target_width target_height is_horizontal
                               subtitle_file.

(** [utils_optimized.trim_video_vertical_optimized] *)
Definition trim_video_vertical_optimized (W : World)
           (input_path output_path : string) (start_time end_time : Q)
           (transcript_data : option Transcript.Data) (add_subtitles : bool)
           (processing_timeout : N) : Py.M FS.fs string :=
  Py.try_except
    (let temp_dir := FS.dirname output_path in
     match usable_dimensions (video_dimensions W input_path) with
     | None => Py.raise (Py.Exn Py.Exception "Could not determine video dimensions")
     | Some (width, height) =>
         subtitle_file <-
           match wants_subtitles add_subtitles transcript_data with
           | Some d =>
               Subtitles.create_optimized_subtitle_file d temp_dir
                                                        start_time end_time
           | None => Py.ret None
           end ;;
         _ <- Proc.subprocess_run
                (ffmpeg W (optimized_vertical_command input_path output_path
                             start_time end_time width height subtitle_file))
                (Some processing_timeout) true ;;
         f <- Py.get ;;
         if FS.exists_ f output_path
         then
           output_size <- FS.getsize output_path ;;
           if (output_size <? 1024 * 100)%N
           then Py.raise (Py.Exn Py.Exception
                            "Output file is too small, processing may have failed")
           else Py.ret output_path
         else Py.raise (Py.Exn Py.Exception "Processed video file was not created")
     end)
    (fun e =>
       match Py.exn_cls e with
       | Py.TimeoutExpired =>
           f <- Py.get ;;
           _ <- (if FS.exists_ f output_path then FS.os_remove output_path
                 else Py.ret tt) ;;
           Py.raise (Py.Exn Py.ProcessingTimeoutError
                       ("Video processing timed out after "
                        +:+ Str.digits processing_timeout +:+ " seconds"))
       | Py.CalledProcessError stderr =>
           Py.raise (Py.Exn Py.Exception ("Failed to process video: " +:+ stderr))
       | _ =>
           Py.raise (Py.Exn Py.Exception
                       ("Failed to process video: " +:+ Py.exn_str e))
       end).

End Transform.

(** ** Transcriber ([utils.py]) *)

Module Transcribe.

Import Transcript.
#[local] Open Scope py_scope.

(** [open(path, "rb")] followed by the speech request. *)
Definition transcribe_file (W : World) (path : string)
  : Py.M FS.fs Whisper :=
  fun f => match f !! path with
           | Some (FS.File _) => (whisper W path, f)
           | Some FS.Dir => (Py.Raise (Py.Exn Py.OSError "Is a directory"), f)
           | None => (Py.Raise (Py.Exn Py.OSError "No such file or directory"), f)
           end.

(** The segment dictionaries built from an answer; no [segments]
    attribute gives none. *)
Definition segments_of (t : Whisper) : list Segment :=
  map (fun s : Q * Q * string =>
         mkSegment (Some (fst (fst s))) (Some (snd (fst s))) (Some (snd s)))
      (default [] (w_segments t)).

(** The same with [segment.start + offset] and [segment.end + offset],
    float additions. *)
Definition rebased (offset : Q) (t : Whisper) : list Segment :=
  map (fun s : Q * Q * string =>
         mkSegment (Some (Float.add (fst (fst s)) offset))
                   (Some (Float.add (snd (fst s)) offset))
                   (Some (snd s)))
      (default [] (w_segments t)).

(** [transcribe_single_audio] *)
Definition transcribe_single_audio (W : World) (audio_path : string)
  : Py.M FS.fs Data :=
  t <- transcribe_file W audio_path ;;
  Py.ret (mkData (Some (w_text t)) (Some (segments_of t)) false).

(** *** Chunking *)

Definition max_size_bytes : N := 20 * 1024 * 1024.

(** [max(2, int((file_size / max_size_bytes) * 1.2))] *)
Definition num_chunks (file_size : N) : Z :=
  Z.max 2 (Qfloor (Float.mul (Float.div (inject_Z (Z.of_N file_size))
                                        (inject_Z (Z.of_N max_size_bytes)))
                             (Float.round (12 # 10)))).

(** [f"audio_chunk_{i:03d}.wav"] below [temp_dir] *)
Definition chunk_name (temp_dir : string) (i : nat) : string :=
  FS.path_join temp_dir ("audio_chunk_" +:+ Str.fmt_d 3 (Z.of_nat i) +:+ ".wav").

(** The chunks [split_audio_for_transcription] cuts: file, start
    ([i * chunk_duration]) and length of each, for [i] in
    [range(num_chunks)]; [chunk_duration = total_duration / num_chunks]. *)
Definition chunk_plan (temp_dir : string) (total_duration : Q) (n : Z)
  : list (string * Q * Q) :=
  let chunk_duration := Float.div total_duration (inject_Z n) in
  map (fun i : nat =>
         (chunk_name temp_dir i, Float.mul (inject_Z (Z.of_nat i)) chunk_duration,
          chunk_duration))
      (seq 0 (Z.to_nat n)).

Fixpoint cut_chunks (W : World) (audio_path : string)
         (plan : list (string * Q * Q)) : Py.M FS.fs (list string) :=
  match plan with
  | [] => Py.ret []
  | (chunk_file, start_time, chunk_duration) :: rest =>
      _ <- Proc.subprocess_run
             (ffmpeg W (Proc.FfmpegChunk audio_path chunk_file start_time
                                         chunk_duration))
             None true ;;
      files <- cut_chunks W audio_path rest ;;
      Py.ret (chunk_file :: files)
  end.

(** [split_audio_for_transcription] with [max_size_mb = 20] *)
Definition split_audio_for_transcription (W : World)
           (audio_path temp_dir : string) : Py.M FS.fs (list string) :=
  Py.try_except
    (file_size <- FS.getsize audio_path ;;
     if (file_size <=? max_size_bytes)%N
     then Py.ret [audio_path]
     else
       match ffprobe_duration W audio_path with
       | Proc.ProbeFailed =>
           Py.raise (Py.Exn (Py.CalledProcessError "")
                            "Command returned non-zero exit status")
       | Proc.ProbeUnparsable =>
           Py.raise (Py.Exn Py.ValueError "could not convert string to float")
       | Proc.ProbeDuration total_duration =>
           cut_chunks W audio_path
                      (chunk_plan temp_dir total_duration (num_chunks file_size))
       end)
    (fun e => Py.raise (Py.Exn Py.Exception
                          ("Failed to split audio: " +:+ Py.exn_str e))).

(** The loop of [transcribe_large_audio_with_chunks]: the texts and the
    segments gathered from [chunk_files] on, starting with
    [cumulative_time]. A chunk that is not the last one is probed for its
    duration; an exit status other than zero leaves [cumulative_time] as
    it is. *)
Fixpoint chunk_loop (W : World) (chunk_files : list string)
         (cumulative_time : Q) : Py.M FS.fs (list string * list Segment) :=
  match chunk_files with
  | [] => Py.ret ([], [])
  | chunk_file :: rest =>
      t <- transcribe_file W chunk_file ;;
      let segments := rebased cumulative_time t in
      cumulative_time' <-
        match rest with
        | [] => Py.ret cumulative_time
        | _ :: _ =>
            match ffprobe_duration W chunk_file with
            | Proc.ProbeFailed => Py.ret cumulative_time
            | Proc.ProbeUnparsable =>
                Py.raise (Py.Exn Py.ValueError "could not convert string to float")
            | Proc.ProbeDuration chunk_duration =>
                Py.ret (Float.add cumulative_time chunk_duration)
            end
        end ;;
      r <- chunk_loop W rest cumulative_time' ;;
      Py.ret (w_text t :: fst r, (segments ++ snd r)%list)
  end.

(** The [finally] block: every chunk file other than the original is
    removed, errors ignored. *)
Fixpoint remove_chunks (audio_path : string) (chunk_files : list string)
  : Py.M FS.fs unit :=
  match chunk_files with
  | [] => Py.ret tt
  | chunk_file :: rest =>
      _ <- Py.try_except
             (if String.eqb chunk_file audio_path then Py.ret tt
              else FS.os_remove chunk_file)
             (fun _ => Py.ret tt) ;;
      remove_chunks audio_path rest
  end.

(** [transcribe_large_audio_with_chunks] *)
Definition transcribe_large_audio_with_chunks (W : World) (audio_path : string)
  : Py.M FS.fs Data :=
  let temp_dir := FS.dirname audio_path in
  chunk_files <- split_audio_for_transcription W audio_path temp_dir ;;
  Py.try_finally
    (r <- chunk_loop W chunk_files 0 ;;
     Py.ret (mkData (Some (Str.join " " (fst r))) (Some (snd r)) false))
    (remove_chunks audio_path chunk_files).

(** *** Strategic sampling *)

(** [segments_to_sample]: the windows, as (start, end). The factors
    are the doubles of the literals [0.3], [0.5], [0.7] and [0.8]. *)
Definition middle_window (video_duration factor : Q) : Q * Q :=
  let middle_start := Float.mul video_duration (Float.round factor) in
  (middle_start, Float.add middle_start 60).

Definition segments_to_sample (video_duration : Q) : list (Q * Q) :=
  ([(0%Q, Qmin 120 video_duration)]
   ++ (if negb (Qle_bool video_duration 600)
       then [ middle_window video_duration (3 # 10);
              middle_window video_duration (5 # 10);
              middle_window video_duration (7 # 10) ]
       else [])
   ++ (if negb (Qle_bool video_duration 300)
       then [ (Qmax (Float.sub video_duration 120)
                    (Float.mul video_duration (Float.round (8 # 10))),
               video_duration) ]
       else []))%list.

(** [f"{x:.0f}"]: the integer nearest to the double, ties to even (for
    [0 <= x]). *)
Definition fmt_0f (x : Q) : string := Str.of_Z (Float.rne x).

(** The loop over [enumerate(segments_to_sample)], from index [i] on. *)
Fixpoint sample_loop (W : World) (audio_path temp_dir : string) (i : nat)
         (windows : list (Q * Q)) : Py.M FS.fs (list string * list Segment) :=
  match windows with
  | [] => Py.ret ([], [])
  | (start_time, end_time) :: rest =>
      let segment_path :=
        FS.path_join temp_dir ("segment_" +:+ Str.of_Z (Z.of_nat i) +:+ ".wav") in
      result <- Proc.subprocess_run
                  (ffmpeg W (Proc.FfmpegSample audio_path segment_path start_time
                                               (Float.sub end_time start_time)))
                  None false ;;
      here <-
        (if negb (Proc.cp_returncode result =? 0)%Z
         then Py.ret ([], [])
         else
           let tidy :=
             (f <- Py.get ;;
              if FS.exists_ f segment_path then FS.os_remove segment_path
              else Py.ret tt) in
           o <- Py.attempt (transcribe_file W segment_path) ;;
           match o with
           | Py.Raise _ => _ <- tidy ;; Py.ret ([], [])
           | Py.Return t =>
               let got :=
                 (["[Segment " +:+ fmt_0f start_time +:+ "s-"
                   +:+ fmt_0f end_time +:+ "s] " +:+ w_text t],
                  rebased start_time t) in
               o' <- Py.attempt (FS.os_remove segment_path) ;;
               match o' with
               | Py.Return _ => Py.ret got
               | Py.Raise _ => _ <- tidy ;; Py.ret got
               end
           end) ;;
      r <- sample_loop W audio_path temp_dir (S i) rest ;;
      Py.ret ((fst here ++ fst r)%list, (snd here ++ snd r)%list)
  end.

(** [transcribe_sampled_segments_for_hooks] *)
Definition transcribe_sampled_segments_for_hooks (W : World)
           (audio_path : string) (video_duration : Q) : Py.M FS.fs Data :=
  let temp_dir := FS.dirname audio_path in
  Py.try_except
    (r <- sample_loop W audio_path temp_dir 0 (segments_to_sample video_duration) ;;
     Py.ret (mkData (Some (Str.join " " (fst r))) (Some (snd r)) true))
    (fun e => Py.raise (Py.Exn Py.Exception
                          ("Failed to transcribe segments: " +:+ Py.exn_str e))).

(** [transcribe_audio_with_openai]. The log line formats the duration
    with [:.1f], a [TypeError] when the prober returned [None]. *)
Definition transcribe_audio_with_openai (W : World) (audio_path : string)
           (for_hooks : bool) : Py.M FS.fs Data :=
  Py.try_except
    (if negb (openai_api_key W)
     then Py.raise (Py.Exn Py.Exception
            "OpenAI API key not found. Please set OPENAI_API_KEY environment variable.")
     else
       file_size <- FS.getsize audio_path ;;
       match video_duration W audio_path with
       | None => Py.raise (Py.Exn Py.TypeError
                   "unsupported format string passed to NoneType.__format__")
       | Some duration =>
           if for_hooks && negb (Qle_bool duration 600)
           then transcribe_sampled_segments_for_hooks W audio_path duration
           else if (max_size_bytes <? file_size)%N
                then transcribe_large_audio_with_chunks W audio_path
                else transcribe_single_audio W audio_path
       end)
    (fun e => Py.raise (Py.Exn Py.Exception
                          ("Failed to transcribe audio: " +:+ Py.exn_str e))).

End Transcribe.

(** ** Hook Analyzer ([utils.py]) *)

Module Hooks.

#[local] Open Scope py_scope.

#[local] Set Warnings "-register-all".

(** A double: a rational, [nan], or one of [inf] and [-inf]. *)
Inductive pyfloat : Type :=
| Finite (q : Q)
| NaN
| Infinity.

(** What [json.loads] returns. *)
Inductive json : Type :=
| JNull
| JBool (b : bool)
| JInt (z : Z)
| JFloat (x : pyfloat)
| JStr (s : string)
| JArr (items : list json)
| JObj (members : list (string * json)).

(** [d.get(key)] on a parsed object: the last binding of the key. *)
Fixpoint lookup (key : string) (members : list (string * json)) : option json :=
  match members with
  | [] => None
  | (k, v) :: rest =>
      match lookup key rest with
      | Some v' => Some v'
      | None => if String.eqb key k then Some v else None
      end
  end.

(** [text.find(c)] and [text.rfind(c)]; [None] is Python's [-1]. *)
Fixpoint find (c : ascii) (text : string) : option nat :=
  match text with
  | EmptyString => None
  | String a rest =>
      if Ascii.eqb a c then Some O
      else match find c rest with
           | Some i => Some (S i)
           | None => None
           end
  end.

Fixpoint rfind (c : ascii) (text : string) : option nat :=
  match text with
  | EmptyString => None
  | String a rest =>
      match rfind c rest with
      | Some i => Some (S i)
      | None => if Ascii.eqb a c then Some O else None
      end
  end.

(** [result_text[start:end] if start != -1 and end > start else
    result_text], with [end = result_text.rfind(']') + 1]. *)
Definition json_text (result_text : string) : string :=
  let end_ := match rfind "]"%char result_text with
              | Some i => S i
              | None => O
              end in
  match find "["%char result_text with
  | Some start =>
      if (start <? end_)%nat
      then String.substring start (end_ - start) result_text
      else result_text
  | None => result_text
  end.

Section Builtins.

(** Three library functions stay parameters: the JSON parser ([None]
    for a [JSONDecodeError]), [str] of a value that is not a [str], and
    [int] of a [str] ([None] for a [ValueError]). *)
Variable json_loads : string -> option json.
Variable py_repr : json -> string.
Variable int_of_str : string -> option Z.

(** [str(v)] *)
Definition py_str (v : json) : string :=
  match v with
  | JStr s => s
  | _ => py_repr v
  end.

(** [int(v)]: a [float] is truncated towards zero. *)
Definition py_int (v : json) : Py.outcome Z :=
  match v with
  | JInt z => Py.Return z
  | JBool b => Py.Return (if b then 1 else 0)%Z
  | JFloat (Finite q) =>
      Py.Return (if Qle_bool 0 q then Qfloor q else Qceiling q)
  | JFloat NaN =>
      Py.Raise (Py.Exn Py.ValueError "cannot convert float NaN to integer")
  | JFloat Infinity =>
      Py.Raise (Py.Exn Py.OverflowError "cannot convert float infinity to integer")
  | JStr s =>
      match int_of_str s with
      | Some z => Py.Return z
      | None => Py.Raise (Py.Exn Py.ValueError "invalid literal for int()")
      end
  | JNull | JArr _ | JObj _ =>
      Py.Raise (Py.Exn Py.TypeError "int() argument must be a string or a number")
  end.

(** One iteration of [for hook in hooks]: the entry appended to
    [validated_hooks], if any. *)
Definition validate_hook (hook : json) : Py.outcome (option Jobs.Hook) :=
  match hook with
  | JObj members =>
      match lookup "start" members, lookup "end" members,
            lookup "title" members with
      | Some s, Some e, Some t =>
          match py_int s with
          | Py.Raise x => Py.Raise x
          | Py.Return start =>
              match py_int e with
              | Py.Raise x => Py.Raise x
              | Py.Return end_ =>
                  Py.Return
                    (Some (Jobs.mkHook start end_
                             (Str.slice_to 100 (py_str t))
                             (Str.slice_to 200
                                (py_str (default (JStr EmptyString)
                                                 (lookup "reason" members))))))
              end
          end
      | _, _, _ => Py.Return None
      end
  | _ => Py.Return None
  end.

Fixpoint validated_hooks (items : list json) : Py.outcome (list Jobs.Hook) :=
  match items with
  | [] => Py.Return []
  | hook :: rest =>
      match validate_hook hook with
      | Py.Raise x => Py.Raise x
      | Py.Return h =>
          match validated_hooks rest with
          | Py.Raise x => Py.Raise x
          | Py.Return hs =>
              Py.Return (match h with Some h' => h' :: hs | None => hs end)
          end
      end
  end.

(** What [for hook in hooks] iterates over: the items of an array; the
    keys of an object and the characters of a string, none of which is
    a [dict]; anything else is not iterable. *)
Definition iterate (hooks : json) : Py.outcome (list json) :=
  match hooks with
  | JArr items => Py.Return items
  | JObj members => Py.Return (map (fun kv => JStr (fst kv)) members)
  | JStr s => Py.Return (map (fun c => JStr (String c EmptyString))
                             (list_ascii_of_string s))
  | _ => Py.Raise (Py.Exn Py.TypeError "object is not iterable")
  end.

(** The parsing block shared, line for line, by [_analyze_with_openai]
    and [_analyze_with_anthropic]: only a [JSONDecodeError] is turned
    into the analyzer's own error. *)
Definition parse_hooks (result_text : string) : Py.outcome (list Jobs.Hook) :=
  match json_loads (json_text result_text) with
  | None => Py.Raise (Py.Exn Py.Exception "AI returned invalid JSON response")
  | Some hooks =>
      match iterate hooks with
      | Py.Raise x => Py.Raise x
      | Py.Return items =>
          match validated_hooks items with
          | Py.Raise x => Py.Raise x
          | Py.Return hs => Py.Return (take 5 hs)
          end
      end
  end.

(** [_analyze_with_openai]: [api_key] tells whether [OPENAI_API_KEY] is
    set, [response] is what the chat completion returned or raised. *)
Definition _analyze_with_openai (api_key : bool) (response : Py.outcome string)
  : Py.outcome (list Jobs.Hook) :=
  if negb api_key
  then Py.Raise (Py.Exn Py.Exception
         "OpenAI API key not found. Please set OPENAI_API_KEY environment variable.")
  else match response with
       | Py.Raise x => Py.Raise x
       | Py.Return result_text => parse_hooks result_text
       end.

(** [_analyze_with_anthropic] *)
Definition _analyze_with_anthropic (api_key : bool) (response : Py.outcome string)
  : Py.outcome (list Jobs.Hook) :=
  if negb api_key
  then Py.Raise (Py.Exn Py.Exception
         "Anthropic API key not found. Please set ANTHROPIC_API_KEY environment variable.")
  else match response with
       | Py.Raise x => Py.Raise x
       | Py.Return result_text => parse_hooks result_text
       end.

End Builtins.

End Hooks.

(** ** Job Orchestrator ([job_manager.py]) *)

Module Orchestrator.

Import Jobs.
#[local] Open Scope py_scope.

(** The job store and the file system the routines work on. *)
Record State : Type := mkState {
  jobs : gmap string Job;
  files : FS.fs
}.

Definition lift_fs {A} (m : Py.M FS.fs A) : Py.M State A :=
  fun s => match m (files s) with
           | (o, f') => (o, mkState (jobs s) f')
           end.

(** [self.update_job(job_id, ...)] *)
Definition update_job (W : World) (job_id : string) (st : option JobStatus)
           (pr : option Z) (msg : option string) (res : option JobResult)
           (err : option string) : Py.M State unit :=
  Py.modify (fun s => mkState (Jobs.update_job (jobs s) (now W) job_id st pr msg res err)
                              (files s)).

(** An assignment to a field of the [job] object, which the store holds
    by reference. *)
Definition modify_job (job_id : string) (f : Job -> Job) : Py.M State unit :=
  Py.modify (fun s => mkState (alter f job_id (jobs s)) (files s)).

Definition append_file_path (job_id path : string) : Py.M State unit :=
  modify_job job_id (fun j => set_file_paths (file_paths j ++ [path])%list j).

(** [job.temp_dir] read through the reference. *)
Definition job_temp_dir (job_id : string) (s : State) : option string :=
  match jobs s !! job_id with
  | Some j => temp_dir j
  | None => None
  end.

(** The [try] block of [_process_trim_job]; [job] is the object read at
    entry, whose request fields the routine never assigns. The message
    of the [ValueError] also names the two times; it is kept schematic. *)
Definition trim_job_body (W : World) (job_id : string) (job : Job)
  : Py.M State unit :=
  _ <- update_job W job_id (Some DOWNLOADING) (Some 10)
                  (Some "Downloading video...") None None ;;
  temp_dir <- lift_fs (FS.mkdtemp (fresh_dir W)) ;;
  _ <- modify_job job_id (set_temp_dir (Some temp_dir)) ;;
  downloaded_file <- lift_fs (download W (url job) temp_dir false) ;;
  _ <- append_file_path job_id downloaded_file ;;
  _ <- update_job W job_id None (Some 30)
                  (Some "Video downloaded, getting duration...") None None ;;
  let original_duration := video_duration W downloaded_file in
  _ <- match original_duration with
       | Some d =>
           if negb (Qeq_bool d 0) && negb (Qle_bool (end_time job) d)
           then Py.raise (Py.Exn Py.ValueError "End time exceeds video duration")
           else Py.ret tt
       | None => Py.ret tt
       end ;;
  _ <- update_job W job_id (Some PROCESSING) (Some 50)
                  (Some "Processing video...") None None ;;
  transcript_data <-
    (if add_subtitles job
     then
       _ <- update_job W job_id (Some TRANSCRIBING) (Some 60)
                       (Some "Generating subtitles...") None None ;;
       let segment_audio := temp_dir +:+ "/segment_audio.wav" in
       _ <- lift_fs (Proc.subprocess_run
                       (ffmpeg W (Proc.FfmpegSegmentAudio
                                    downloaded_file segment_audio (start_time job)
                                    (end_time job - start_time job)))
                       None true) ;;
       td <- lift_fs (Transcribe.transcribe_audio_with_openai W segment_audio true) ;;
       _ <- append_file_path job_id segment_audio ;;
       Py.ret (Some td)
     else Py.ret None) ;;
  _ <- update_job W job_id (Some TRIMMING) (Some 80)
                  (Some "Trimming video...") None None ;;
  let output_path := temp_dir +:+ "/trimmed_" +:+ job_id +:+ ".mp4" in
  trimmed_file <-
    lift_fs (if vertical_format job
             then Transform.trim_video_vertical W downloaded_file output_path
                    (start_time job) (end_time job) transcript_data
                    (add_subtitles job)
             else Transform.trim_video W downloaded_file output_path
                    (start_time job) (end_time job)) ;;
  _ <- append_file_path job_id trimmed_file ;;
  update_job W job_id (Some COMPLETED) (Some 100)
             (Some "Video ready for download!")
             (Some (TrimResult job_id original_duration
                               (end_time job - start_time job) trimmed_file))
             None.

(** The [except Exception as e] block, the same in both routines but for
    the prefix of the message. *)
Definition on_failure (W : World) (job_id prefix : string) (e : Py.exn)
  : Py.M State unit :=
  let error_msg := prefix +:+ Py.exn_str e in
  _ <- update_job W job_id None None (Some error_msg) None (Some error_msg) ;;
  s <- Py.get ;;
  match job_temp_dir job_id s with
  | Some d => if Py.truthy d then lift_fs (FS.cleanup_files [Some d]) else Py.ret tt
  | None => Py.ret tt
  end.

(** [JobManager._process_trim_job]; [self.jobs[job_id]] is a [KeyError]
    for an unknown id. *)
Definition _process_trim_job (W : World) (job_id : string) : Py.M State unit :=
  fun s =>
    match jobs s !! job_id with
    | None => (Py.Raise (Py.Exn Py.KeyError job_id), s)
    | Some job =>
        Py.try_except (trim_job_body W job_id job)
                      (on_failure W job_id "Processing failed: ") s
    end.

(** [max([hook.get('end', 300) for hook in hooks_data], default=300)] *)
Definition latest_end (hooks_data : list Hook) : Z :=
  match map hook_end hooks_data with
  | [] => 300
  | e :: rest => fold_left Z.max rest e
  end.

(** The [try] block of [_process_hooks_job]. *)
Definition hooks_job_body (W : World) (job_id : string) (job : Job)
  : Py.M State unit :=
  _ <- update_job W job_id (Some DOWNLOADING) (Some 20)
                  (Some "Downloading video for analysis...") None None ;;
  temp_dir <- lift_fs (FS.mkdtemp (fresh_dir W)) ;;
  _ <- modify_job job_id (set_temp_dir (Some temp_dir)) ;;
  _ <- update_job W job_id (Some PROCESSING) (Some 50)
                  (Some "AI analyzing video content...") None None ;;
  hooks_data <- lift_fs (hooks_pipeline W (url job) temp_dir (ai_provider job)) ;;
  video_duration <-
    Py.try_except
      (video_path <- lift_fs (download W (url job) temp_dir true) ;;
       Py.ret (video_duration W video_path))
      (fun _ => Py.ret (Some (inject_Z (latest_end hooks_data)))) ;;
  update_job W job_id (Some COMPLETED) (Some 100)
             (Some "Hook analysis complete!")
             (Some (HooksResult hooks_data (length hooks_data) video_duration))
             None.

(** [JobManager._process_hooks_job] *)
Definition _process_hooks_job (W : World) (job_id : string) : Py.M State unit :=
  fun s =>
    match jobs s !! job_id with
    | None => (Py.Raise (Py.Exn Py.KeyError job_id), s)
    | Some job =>
        Py.try_except (hooks_job_body W job_id job)
                      (on_failure W job_id "Hook analysis failed: ") s
    end.

(** The file clean-up of [JobManager.cleanup_job]: every recorded path
    through [cleanup_files], then the scratch directory through
    [shutil.rmtree], each failure printed and dropped; the job leaves the
    store. *)
Definition cleanup_job (job_id : string) : Py.M State unit :=
  fun s =>
    match jobs s !! job_id with
    | None => (Py.Return tt, s)
    | Some job =>
        (_ <- lift_fs (FS.cleanup_files (map Some (file_paths job))) ;;
         _ <- match temp_dir job with
              | Some d =>
                  if Py.truthy d
                  then Py.try_except (lift_fs (FS.rmtree d)) (fun _ => Py.ret tt)
                  else Py.ret tt
              | None => Py.ret tt
              end ;;
         Py.modify (fun s' => mkState (delete job_id (jobs s')) (files s'))) s
    end.

End Orchestrator.

(** ** The queue worker's task ([async_processor.py]) *)

Module AsyncProcessor.

#[local] Open Scope py_scope.

Inductive ProcessingStatus : Type := PENDING | PROCESSING | COMPLETED | FAILED.

(** The attributes of a [VideoJob] row object the task assigns. The
    last one, [file_path], is no column of the model ([models.py]): the
    assignment sets a plain attribute on the object. *)
Record VideoJob : Type := mkVideoJob {
  vj_status : ProcessingStatus;
  vj_error_message : option string;
  vj_original_duration : option Q;
  vj_trimmed_duration : option Q;
  vj_file_path : option string
}.

(** The table, the file system, the progress last published with
    [self.update_state], and the task's three locals that its [except]
    and [finally] blocks read: [db], [video_job] and [temp_dir]. *)
Record State : Type := mkState {
  rows : gmap string VideoJob;
  files : FS.fs;
  task_meta : option (string * Z);
  db : bool;
  video_job : bool;
  temp_dir : option string;
  db_closed : bool
}.

Definition lift_fs {A} (m : Py.M FS.fs A) : Py.M State A :=
  fun s => match m (files s) with
           | (o, f') => (o, mkState (rows s) f' (task_meta s) (db s)
                                    (video_job s) (temp_dir s) (db_closed s))
           end.

Definition set_row (job_id : string) (f : VideoJob -> VideoJob) : Py.M State unit :=
  Py.modify (fun s => mkState (alter f job_id (rows s)) (files s) (task_meta s)
                              (db s) (video_job s) (temp_dir s) (db_closed s)).

Definition update_state (step : string) (progress : Z) : Py.M State unit :=
  Py.modify (fun s => mkState (rows s) (files s) (Some (step, progress))
                              (db s) (video_job s) (temp_dir s) (db_closed s)).

Definition bind_db : Py.M State unit :=
  Py.modify (fun s => mkState (rows s) (files s) (task_meta s)
                              true (video_job s) (temp_dir s) (db_closed s)).

Definition bind_video_job (found : bool) : Py.M State unit :=
  Py.modify (fun s => mkState (rows s) (files s) (task_meta s)
                              (db s) found (temp_dir s) (db_closed s)).

Definition bind_temp_dir (d : string) : Py.M State unit :=
  Py.modify (fun s => mkState (rows s) (files s) (task_meta s)
                              (db s) (video_job s) (Some d) (db_closed s)).

Definition close_db : Py.M State unit :=
  Py.modify (fun s => if db s
                      then mkState (rows s) (files s) (task_meta s)
                                   (db s) (video_job s) (temp_dir s) true
                      else s).

Record TaskResult : Type := mkTaskResult {
  tr_job_id : string;
  tr_file_path : string;
  tr_temp_dir : string;
  tr_original_file : string;
  tr_original_duration : option Q;
  tr_trimmed_duration : Q
}.

(** [extract_segment_audio] *)
Definition extract_segment_audio (W : World) (video_path temp_dir : string)
           (start_time end_time : Q) : Py.M FS.fs string :=
  let segment_audio_path := FS.path_join temp_dir "segment_audio.wav" in
  let duration := (end_time - start_time)%Q in
  _ <- Proc.subprocess_run
         (ffmpeg W (Proc.FfmpegSegmentAudio video_path segment_audio_path
                                            start_time duration))
         None true ;;
  f <- Py.get ;;
  if FS.exists_ f segment_audio_path
  then Py.ret segment_audio_path
  else Py.raise (Py.Exn Py.Exception "Audio segment extraction failed").

(** The [try] block of [process_video_trim_async]. [db.query] and
    [db.commit] are taken to succeed once the session is there. *)
Definition trim_task_body (W : World) (job_id url : string)
           (start_time end_time : Q) (vertical_format add_subtitles : bool)
  : Py.M State TaskResult :=
  _ <- Py.lift (db_session W) ;;
  _ <- bind_db ;;
  s <- Py.get ;;
  match rows s !! job_id with
  | None =>
      _ <- bind_video_job false ;;
      Py.raise (Py.Exn Py.Exception ("Job " +:+ job_id +:+ " not found"))
  | Some _ =>
      _ <- bind_video_job true ;;
      _ <- set_row job_id (fun r => mkVideoJob PROCESSING (vj_error_message r)
                             (vj_original_duration r) (vj_trimmed_duration r)
                             (vj_file_path r)) ;;
      d <- lift_fs (FS.mkdtemp (fresh_dir W)) ;;
      _ <- bind_temp_dir d ;;
      _ <- update_state "downloading" 10 ;;
      downloaded_file <- lift_fs (download W url d false) ;;
      let original_duration := video_duration W downloaded_file in
      _ <- set_row job_id (fun r => mkVideoJob (vj_status r) (vj_error_message r)
                             original_duration (vj_trimmed_duration r)
                             (vj_file_path r)) ;;
      transcript_data <-
        (if add_subtitles
         then
           _ <- update_state "transcribing" 30 ;;
           segment_audio_path <-
             lift_fs (extract_segment_audio W downloaded_file d start_time end_time) ;;
           td <- lift_fs (Transcribe.transcribe_audio_with_openai
                            W segment_audio_path false) ;;
           Py.ret (Some td)
         else Py.ret None) ;;
      _ <- update_state "processing" 70 ;;
      let output_path := FS.path_join d ("trimmed_" +:+ job_id +:+ ".mp4") in
      trimmed_file <-
        lift_fs (if vertical_format
                 then Transform.trim_video_vertical W downloaded_file output_path
                        start_time end_time transcript_data add_subtitles
                 else Transform.trim_video W downloaded_file output_path
                        start_time end_time) ;;
      _ <- update_state "finalizing" 90 ;;
      _ <- set_row job_id (fun r => mkVideoJob COMPLETED (vj_error_message r)
                             (vj_original_duration r)
                             (Some (end_time - start_time)%Q)
                             (Some trimmed_file)) ;;
      Py.ret (mkTaskResult job_id trimmed_file d downloaded_file
                           original_duration (end_time - start_time)%Q)
  end.

(** The [except Exception as e] block: the row is marked failed when the
    task holds a session and a row, the scratch path goes through
    [cleanup_files], and the exception leaves the task: as a retry
    request for a network or timeout message while retries remain, as
    [Exception] otherwise. *)
Definition trim_task_failed (job_id : string) (retries max_retries : nat)
           (e : Py.exn) : Py.M State TaskResult :=
  s <- Py.get ;;
  _ <- (if db s && video_job s
        then set_row job_id (fun r => mkVideoJob FAILED (Some (Py.exn_str e))
                               (vj_original_duration r) (vj_trimmed_duration r)
                               (vj_file_path r))
        else Py.ret tt) ;;
  _ <- match temp_dir s with
       | Some d => if Py.truthy d then lift_fs (FS.cleanup_files [Some d])
                   else Py.ret tt
       | None => Py.ret tt
       end ;;
  if (retries <? max_retries)%nat
     && (Str.contains "network" (Str.lower (Py.exn_str e))
         || Str.contains "timeout" (Str.lower (Py.exn_str e)))
  then Py.raise (Py.Exn Py.Retry "Retry")
  else Py.raise (Py.Exn Py.Exception
                   ("Video processing failed: " +:+ Py.exn_str e)).

(** [process_video_trim_async]; [retries] is [self.request.retries]. *)
Definition process_video_trim_async (W : World) (retries max_retries : nat)
           (job_id url : string) (start_time end_time : Q)
           (vertical_format add_subtitles : bool) : Py.M State TaskResult :=
  Py.try_finally
    (Py.try_except
       (trim_task_body W job_id url start_time end_time vertical_format
                       add_subtitles)
       (trim_task_failed job_id retries max_retries))
    close_db.

End AsyncProcessor.

(** ** Vocabulary of the statements, and the concrete inputs they use *)

Module Spec.

(** A store in which an error always comes with status [failed]. *)
Definition error_implies_failed (jobs : gmap string Jobs.Job) : Prop :=
  forall job_id job,
    jobs !! job_id = Some job ->
    Jobs.error job <> None -> Jobs.status job = Jobs.FAILED.

(** The scenario job of the specification: a trim of [30, 60]. *)
Definition store0 : gmap string Jobs.Job :=
  Jobs.create_job ∅ 0 "job-1" "trim" "https://youtube.com/watch?v=abc123"
                  30 60 false false "openai".

(** The target resolution a vertical command asks for. *)
Definition command_target (c : Proc.command) : option (Z * Z) :=
  match c with
  | Proc.FfmpegVertical _ _ _ _ w h _ _ => Some (w, h)
  | Proc.FfmpegVerticalOptimized _ _ _ _ w h _ _ => Some (w, h)
  | _ => None
  end.

(** A world in which nothing external works; the worlds below differ
    from it in the collaborators they name. *)
Definition nothing_works : World :=
  mkWorld 0 (Py.Raise (Py.Exn Py.OSError "No space left on device")) false
          (fun _ _ _ => Py.raise (Py.Exn Py.Exception "Failed to download video: unavailable"))
          (fun _ => None)
          (fun _ => (None, None))
          (fun _ => Proc.CannotStart "No such file or directory: 'ffmpeg'")
          (fun _ => Proc.ProbeFailed)
          (fun _ => Py.Raise (Py.Exn Py.Exception "Connection error."))
          (fun _ _ _ => Py.raise (Py.Exn Py.Exception "Hook detection failed: unavailable"))
          (Py.Raise (Py.Exn Py.TypeError
                       "'_GeneratorContextManager' object is not an iterator")).

(** A world whose media tool needs [seconds] of wall-clock time for any
    command, exits with status 0 and leaves [size] bytes at every path in
    [outputs]; the prober sees a [width] by [height] video. *)
Definition encoder_world (seconds : N) (outputs : list string) (size : N)
           (width height : Z) : World :=
  mkWorld 0 (Py.Return "/tmp/tmpjob1") true
          (fun _ _ _ => Py.raise (Py.Exn Py.Exception "Failed to download video: unavailable"))
          (fun _ => None)
          (fun _ => (Some width, Some height))
          (fun _ => Proc.Runs (Proc.mkRun seconds 0 "" ""
                                 (map (fun p => (p, size)) outputs)))
          (fun _ => Proc.ProbeFailed)
          (fun _ => Py.Raise (Py.Exn Py.Exception "Connection error."))
          (fun _ _ _ => Py.raise (Py.Exn Py.Exception "Hook detection failed: unavailable"))
          (Py.Raise (Py.Exn Py.TypeError
                       "'_GeneratorContextManager' object is not an iterator")).

(** A file system holding one downloaded source below a scratch
    directory. *)
Definition scratch_fs : FS.fs :=
  <["/tmp/tmpjob1/source.mp4" := FS.File 5000000]> (<["/tmp/tmpjob1" := FS.Dir]> ∅).

(** The caption [c] is the segment [s] clipped to the window and
    re-based on its start; [s] reaches into the window, its ends
    included. *)
Definition clipped_from (start_time end_time : Q) (s : Transcript.Segment)
           (c : Subtitles.Caption) : Prop :=
  (start_time <= Subtitles.get_end s)%Q
  /\ (Subtitles.get_start s <= end_time)%Q
  /\ Subtitles.adjusted_start c
     = Qmax 0 (Subtitles.get_start s - start_time)
  /\ Subtitles.adjusted_end c
     = Qmin (end_time - start_time) (Subtitles.get_end s - start_time).

(** A transcript of one segment that ends where the window [10, 20]
    starts. *)
Definition edge_transcript : Transcript.Data :=
  Transcript.mkData (Some "Welcome back")
    (Some [Transcript.mkSegment (Some 0%Q) (Some 10%Q) (Some "Welcome back")])
    false.

(** A transcript of two segments, the second inside the window
    [10, 20]. *)
Definition two_segments : Transcript.Data :=
  Transcript.mkData (Some "Welcome back. Today we cook.")
    (Some [Transcript.mkSegment (Some 0%Q) (Some 4%Q) (Some "Welcome back.");
           Transcript.mkSegment (Some 12%Q) (Some 15%Q) (Some " Today we cook.")])
    false.

(** The lengths the analyzer promises for one hook. *)
Definition bounded_hook (h : Jobs.Hook) : Prop :=
  (String.length (Jobs.hook_title h) <= 100)%nat
  /\ (String.length (Jobs.hook_reason h) <= 200)%nat.

(** The hook [h] is the entry [members] of the answer: its start and
    end are the entry's, converted by [int()]; its title and reason are
    the entry's texts, cut to 100 and 200 characters. *)
Definition hook_from_entry (py_repr : Hooks.json -> string)
           (int_of_str : string -> option Z)
           (members : list (string * Hooks.json)) (h : Jobs.Hook) : Prop :=
  exists s e t,
    Hooks.lookup "start" members = Some s
    /\ Hooks.lookup "end" members = Some e
    /\ Hooks.lookup "title" members = Some t
    /\ Hooks.py_int int_of_str s = Py.Return (Jobs.hook_start h)
    /\ Hooks.py_int int_of_str e = Py.Return (Jobs.hook_end h)
    /\ Jobs.hook_title h = Str.slice_to 100 (Hooks.py_str py_repr t)
    /\ Jobs.hook_reason h
       = Str.slice_to 200
           (Hooks.py_str py_repr
              (default (Hooks.JStr EmptyString) (Hooks.lookup "reason" members))).

(** The double quote, and a quoted word. *)
Definition dq : string := String (ascii_of_nat 34) EmptyString.
Definition quoted (s : string) : string := dq +:+ s +:+ dq.

(** A parser that knows one document. *)
Definition one_document (text : string) (v : Hooks.json) : string -> option Hooks.json :=
  fun s => if String.eqb s text then Some v else None.

(** An answer whose only hook ends before it starts, and its parse. *)
Definition backwards_answer : string :=
  "Here you go: [{" +:+ quoted "start" +:+ ": 50, " +:+ quoted "end" +:+ ": 10, "
  +:+ quoted "title" +:+ ": " +:+ quoted "Big reveal" +:+ "}]".

Definition backwards_text : string :=
  "[{" +:+ quoted "start" +:+ ": 50, " +:+ quoted "end" +:+ ": 10, "
  +:+ quoted "title" +:+ ": " +:+ quoted "Big reveal" +:+ "}]".

Definition backwards_parsed : Hooks.json :=
  Hooks.JArr [Hooks.JObj [("start", Hooks.JInt 50); ("end", Hooks.JInt 10);
                          ("title", Hooks.JStr "Big reveal")]].

(** The paths the sampler extracts its windows to, below [temp_dir]. *)
Definition sample_file (temp_dir : string) (i : nat) : string :=
  FS.path_join temp_dir ("segment_" +:+ Str.of_Z (Z.of_nat i) +:+ ".wav").

Definition sample_path (temp_dir : string) (p : string) : Prop :=
  exists i : nat, p = sample_file temp_dir i.

(** Two numbers no further apart than [tolerance]. *)
Definition near (x y tolerance : Q) : Prop := (Qabs (x - y) <= tolerance)%Q.

(** The window [w], the [i]-th of the sampler, is extracted and
    transcribed: asked for [w] of the audio, the tool exits with status 0
    and leaves the window's file, for which the speech service answers
    [t]. *)
Definition window_extracted (W : World) (audio_path temp_dir : string)
           (i : nat) (w : Q * Q) (t : Transcript.Whisper) : Prop :=
  exists r,
    ffmpeg W (Proc.FfmpegSample audio_path (sample_file temp_dir i) (fst w)
                                (Float.sub (snd w) (fst w)))
    = Proc.Runs r
    /\ Proc.returncode r = 0%Z
    /\ (exists size, In (sample_file temp_dir i, size) (Proc.writes r))
    /\ whisper W (sample_file temp_dir i) = Py.Return t.

(** The words of the specification for sampling: the transcript is that
    of the windows alone, each text under the label of its window and
    each segment shifted by the start of its window; it is tagged as
    sampled. The answer for the window numbered [i] is [t_of i]. *)
Fixpoint sampled_texts (i : nat) (windows : list (Q * Q))
         (t_of : nat -> Transcript.Whisper) : list string :=
  match windows with
  | [] => []
  | w :: rest =>
      ("[Segment " +:+ Transcribe.fmt_0f (fst w) +:+ "s-"
       +:+ Transcribe.fmt_0f (snd w) +:+ "s] " +:+ Transcript.w_text (t_of i))
        :: sampled_texts (S i) rest t_of
  end.

Fixpoint sampled_segments (i : nat) (windows : list (Q * Q))
         (t_of : nat -> Transcript.Whisper) : list Transcript.Segment :=
  match windows with
  | [] => []
  | w :: rest =>
      (Transcribe.rebased (fst w) (t_of i) ++ sampled_segments (S i) rest t_of)%list
  end.

Definition sampled_transcript (windows : list (Q * Q))
           (t_of : nat -> Transcript.Whisper) : Transcript.Data :=
  Transcript.mkData (Some (Str.join " " (sampled_texts 0 windows t_of)))
                    (Some (sampled_segments 0 windows t_of)) true.

(** No directory sits at a path of the given kind. *)
Definition no_directory_at (kind : string -> Prop) (f : FS.fs) : Prop :=
  forall p, kind p -> f !! p <> Some FS.Dir.

(** Every command can be started. *)
Definition tool_installed (W : World) : Prop :=
  forall c, exists r, ffmpeg W c = Proc.Runs r.

(** A twenty-minute source: the tool extracts each window in 3 seconds,
    the speech service answers every request with one segment, except
    for the whole recording, which it refuses. *)
Definition sampling_world : World :=
  mkWorld 0 (Py.Return "/tmp/tmpjob1") true
          (fun _ _ _ => Py.raise (Py.Exn Py.Exception "Failed to download video: unavailable"))
          (fun _ => Some 1200%Q)
          (fun _ => (Some 640, Some 360))
          (fun c => match c with
                    | Proc.FfmpegSample _ output _ _ =>
                        Proc.Runs (Proc.mkRun 3 0 "" "" [(output, 1920000%N)])
                    | _ => Proc.Runs (Proc.mkRun 3 1 "" "Unknown command" [])
                    end)
          (fun _ => Proc.ProbeFailed)
          (fun p => if String.eqb p "/tmp/tmpjob1/audio_for_transcription.wav"
                    then Py.Raise (Py.Exn Py.Exception
                                     "Maximum content size limit exceeded")
                    else Py.Return
                           (Transcript.mkWhisper "You will not believe this"
                              (Some [(0%Q, 4%Q, "You will not believe this")])))
          (fun _ _ _ => Py.raise (Py.Exn Py.Exception "Hook detection failed: unavailable"))
          (Py.Raise (Py.Exn Py.TypeError
                       "'_GeneratorContextManager' object is not an iterator")).

Definition audio_fs : FS.fs :=
  <["/tmp/tmpjob1/audio_for_transcription.wav" := FS.File 38400000]>
    (<["/tmp/tmpjob1" := FS.Dir]> ∅).

(** A path holds a regular file. *)
Definition is_file (f : FS.fs) (p : string) : Prop :=
  exists n, f !! p = Some (FS.File n).

(** Segment lists in the order of their start times. *)
Definition by_start (a b : Transcript.Segment) : Prop :=
  (Subtitles.get_start a <= Subtitles.get_start b)%Q.

Definition sorted_by_start (l : list Transcript.Segment) : Prop :=
  StronglySorted by_start l.

(** What the prober says of a chunk file: its duration, or nothing when
    it exits with a status other than zero. *)
Definition probe_answer (d : option Q) : Proc.probe :=
  match d with
  | Some d => Proc.ProbeDuration d
  | None => Proc.ProbeFailed
  end.

(** The offset after a chunk: the probed duration added (a float
    addition), nothing added when the probe failed. *)
Definition advance (cumulative : Q) (d : option Q) : Q :=
  match d with
  | Some d => Float.add cumulative d
  | None => cumulative
  end.

(** The words of the specification for chunked transcription: each
    chunk's segments shifted by the durations of the chunks before it,
    then concatenated. A chunk is its answer and its probed duration. *)
Fixpoint rebased_concat (cumulative : Q)
         (chunks : list (Transcript.Whisper * option Q))
  : list Transcript.Segment :=
  match chunks with
  | [] => []
  | (t, d) :: rest =>
      (Transcribe.rebased cumulative t ++ rebased_concat (advance cumulative d) rest)%list
  end.

(** The answer for a chunk lists its segments in order of start, all of
    them starting within the chunk's probed duration. *)
Definition chunk_in_order (c : Transcript.Whisper * option Q) : Prop :=
  let segs := default [] (Transcript.w_segments (fst c)) in
  exists d : Q,
    snd c = Some d
    /\ (0 <= d)%Q
    /\ StronglySorted (fun a b : Q * Q * string => (fst (fst a) <= fst (fst b))%Q) segs
    /\ Forall (fun a : Q * Q * string =>
                 (0 <= fst (fst a))%Q /\ (fst (fst a) <= d)%Q) segs.

(** A 30 MB recording of 200 seconds: the tool cuts the two chunks, the
    speech service answers for each, and the duration of a chunk file is
    100 seconds when [chunk_probe_works], unknown to the prober
    otherwise. *)
Definition chunk_answer (p : string) : Transcript.Whisper :=
  if String.eqb p "/tmp/tmpjob1/audio_chunk_000.wav"
  then Transcript.mkWhisper "Hello and welcome."
         (Some [(0%Q, 50%Q, "Hello"); (50%Q, 100%Q, "and welcome.")])
  else Transcript.mkWhisper "Goodbye."
         (Some [(0%Q, 40%Q, "Goodbye.")]).

Definition chunk_world (chunk_probe_works : bool) : World :=
  mkWorld 0 (Py.Return "/tmp/tmpjob1") true
          (fun _ _ _ => Py.raise (Py.Exn Py.Exception "Failed to download video: unavailable"))
          (fun _ => Some 200%Q)
          (fun _ => (None, None))
          (fun c => match c with
                    | Proc.FfmpegChunk _ output _ _ =>
                        Proc.Runs (Proc.mkRun 2 0 "" "" [(output, 16000000%N)])
                    | _ => Proc.Runs (Proc.mkRun 1 1 "" "Unknown command" [])
                    end)
          (fun p => if String.eqb p "/tmp/tmpjob1/audio.wav"
                    then Proc.ProbeDuration 200
                    else if chunk_probe_works then Proc.ProbeDuration 100
                         else Proc.ProbeFailed)
          (fun p => Py.Return (chunk_answer p))
          (fun _ _ _ => Py.raise (Py.Exn Py.Exception "Hook detection failed: unavailable"))
          (Py.Raise (Py.Exn Py.TypeError
                       "'_GeneratorContextManager' object is not an iterator")).

Definition large_audio_fs : FS.fs :=
  <["/tmp/tmpjob1/audio.wav" := FS.File 31457280]> (<["/tmp/tmpjob1" := FS.Dir]> ∅).

(** A world for the orchestrator: the download arrives in the scratch
    directory and the source lasts two minutes, but the media tool exits
    with status 1 on every command; the hook pipeline fails as well. *)
Definition failing_trim_world : World :=
  mkWorld 0 (Py.Return "/tmp/tmpjob1") true
          (fun _ output_dir _ =>
             Py.bind (FS.write_file (FS.path_join output_dir "source.mp4") 5000000)
                     (fun _ => Py.ret (FS.path_join output_dir "source.mp4")))
          (fun _ => Some 120%Q)
          (fun _ => (Some 1280, Some 720))
          (fun _ => Proc.Runs (Proc.mkRun 1 1 "" "Invalid data found when processing input" []))
          (fun _ => Proc.ProbeFailed)
          (fun _ => Py.Raise (Py.Exn Py.Exception "Connection error."))
          (fun _ _ _ => Py.raise (Py.Exn Py.Exception "Hook detection failed: unavailable"))
          (Py.Raise (Py.Exn Py.TypeError
                       "'_GeneratorContextManager' object is not an iterator")).

(** The same for the queue worker, which here does get its database
    session; the download fails on the network. *)
Definition queue_world : World :=
  mkWorld 0 (Py.Return "/tmp/reely_job_1") true
          (fun _ _ _ => Py.raise (Py.Exn Py.Exception
                                    "Failed to download video: Network is unreachable"))
          (fun _ => None)
          (fun _ => (None, None))
          (fun _ => Proc.CannotStart "No such file or directory: 'ffmpeg'")
          (fun _ => Proc.ProbeFailed)
          (fun _ => Py.Raise (Py.Exn Py.Exception "Connection error."))
          (fun _ _ _ => Py.raise (Py.Exn Py.Exception "Hook detection failed: unavailable"))
          (Py.Return tt).

(** The states the routines start from: the scenario job queued, an
    empty file system. *)
Definition queued : Orchestrator.State := Orchestrator.mkState store0 ∅.

Definition pending : AsyncProcessor.State :=
  AsyncProcessor.mkState
    {[ "job-1" := AsyncProcessor.mkVideoJob AsyncProcessor.PENDING None None None None ]}
    ∅ None false false None false.

(** The job is in the store. *)
Definition has_job (job_id : string) (s : Orchestrator.State) : Prop :=
  is_Some (Orchestrator.jobs s !! job_id).

(** A computation keeps a property of the state, however it ends. *)
Definition keeps {S A} (P : S -> Prop) (m : Py.M S A) : Prop :=
  forall s, P s -> P (snd (m s)).

End Spec.

(** ** Hook detection pipeline and its cache ([utils.py]) *)

Module HookPipeline.

#[local] Open Scope py_scope.

(** The module-level [_hook_cache]: results and the time they were
    stored, by cache key. *)
Abbreviation cache := (gmap string (list Jobs.Hook * Q)).

Record State : Type := mkState {
  hook_cache : cache;
  files : FS.fs
}.

Definition lift_fs {A} (m : Py.M FS.fs A) : Py.M State A :=
  fun s => match m (files s) with
           | (o, f') => (o, mkState (hook_cache s) f')
           end.

(** [extract_audio_for_transcription] *)
Definition extract_audio_for_transcription (W : World) (video_path output_dir : string)
  : Py.M FS.fs string :=
  Py.try_except
    (let audio_path := FS.path_join output_dir "audio_for_transcription.wav" in
     _ <- Proc.subprocess_run (ffmpeg W (Proc.FfmpegFullAudio video_path audio_path))
                              None true ;;
     f <- Py.get ;;
     if FS.exists_ f audio_path
     then Py.ret audio_path
     else Py.raise (Py.Exn Py.Exception "Audio file was not created"))
    (fun e =>
       match Py.exn_cls e with
       | Py.CalledProcessError stderr =>
           Py.raise (Py.Exn Py.Exception ("Failed to extract audio: " +:+ stderr))
       | _ =>
           Py.raise (Py.Exn Py.Exception ("Failed to extract audio: " +:+ Py.exn_str e))
       end).

Section Services.

(** The library functions of the analyzer, the hash behind
    [get_url_cache_key], the second API key, and the two chat services:
    what each answers to the prompt built from a transcript. *)
Variable json_loads : string -> option Hooks.json.
Variable py_repr : Hooks.json -> string.
Variable int_of_str : string -> option Z.
Variable md5 : string -> string.
Variable anthropic_api_key : bool.
Variable openai_chat : Transcript.Data -> Py.outcome string.
Variable anthropic_chat : Transcript.Data -> Py.outcome string.

(** [get_url_cache_key] *)
Definition get_url_cache_key (url : string) : string := md5 url.

(** [get_cached_hooks] at time [now]: a result stored less than 3600
    seconds ago is returned; an older one is deleted. *)
Definition get_cached_hooks (url : string) (now : Q) (c : cache)
  : option (list Jobs.Hook) * cache :=
  let cache_key := get_url_cache_key url in
  match c !! cache_key with
  | Some (cached_data, timestamp) =>
      if negb (Qle_bool 3600 (now - timestamp))
      then (Some cached_data, c)
      else (None, delete cache_key c)
  | None => (None, c)
  end.

(** [cache_hooks] at time [now] *)
Definition cache_hooks (url : string) (hooks : list Jobs.Hook) (now : Q) (c : cache)
  : cache :=
  <[get_url_cache_key url := (hooks, now)]> c.

(** [analyze_hooks_with_ai]: [transcript_data["text"]] is a [KeyError]
    when the key is absent; the provider name is lowered and compared with
    "anthropic". *)
Definition analyze_hooks_with_ai (W : World) (transcript_data : Transcript.Data)
           (provider : string) : Py.outcome (list Jobs.Hook) :=
  let body :=
    match Transcript.td_text transcript_data with
    | None => Py.Raise (Py.Exn Py.KeyError "'text'")
    | Some _ =>
        if String.eqb (Str.lower provider) "anthropic"
        then Hooks._analyze_with_anthropic json_loads py_repr int_of_str
               anthropic_api_key (anthropic_chat transcript_data)
        else Hooks._analyze_with_openai json_loads py_repr int_of_str
               (openai_api_key W) (openai_chat transcript_data)
    end in
  match body with
  | Py.Return hooks => Py.Return hooks
  | Py.Raise e =>
      Py.Raise (Py.Exn Py.Exception ("Failed to analyze hooks: " +:+ Py.exn_str e))
  end.

(** [process_video_for_hooks]; the clock reads [t_lookup] when the cache
    is consulted and [t_store] when the result is stored. An empty cached
    list is falsy and is not returned. *)
Definition process_video_for_hooks (W : World) (url temp_dir ai_provider : string)
           (t_lookup t_store : Q) : Py.M State (list Jobs.Hook) :=
  Py.try_except
    (s <- Py.get ;;
     let '(cached_hooks, c) := get_cached_hooks url t_lookup (hook_cache s) in
     _ <- Py.modify (fun s => mkState c (files s)) ;;
     match cached_hooks with
     | Some (h :: hs) => Py.ret (h :: hs)
     | _ =>
         video_path <- lift_fs (download W url temp_dir true) ;;
         audio_path <- lift_fs (extract_audio_for_transcription W video_path temp_dir) ;;
         transcript_data <-
           lift_fs (Transcribe.transcribe_audio_with_openai W audio_path true) ;;
         hooks <- Py.lift (analyze_hooks_with_ai W transcript_data ai_provider) ;;
         _ <- Py.modify (fun s => mkState (cache_hooks url hooks t_store (hook_cache s))
                                          (files s)) ;;
         Py.ret hooks
     end)
    (fun e => Py.raise (Py.Exn Py.Exception
                          ("Hook detection failed: " +:+ Py.exn_str e))).

End Services.

End HookPipeline.

(** ** The job views and the patched transform
    ([job_manager.py], [quick_timeout_fix.py]) *)

Module JobViews.

(** [JobManager.get_file_path]: the output path of a completed job with a
    result; the hook result has no ["file_path"]. *)
Definition get_file_path (jobs : gmap string Jobs.Job) (job_id : string)
  : option string :=
  match jobs !! job_id with
  | None => None
  | Some job =>
      match Jobs.status job, Jobs.result job with
      | Jobs.COMPLETED, Some (Jobs.TrimResult _ _ _ file_path) => Some file_path
      | _, _ => None
      end
  end.

End JobViews.

Module QuickFix.

#[local] Open Scope py_scope.

(** [should_use_optimized_processing] *)
Definition should_use_optimized_processing (duration : Z)
           (vertical_format add_subtitles : bool) : bool :=
  if (300 <? duration)%Z then true
  else if vertical_format && add_subtitles then true
  else if add_subtitles && (120 <? duration)%Z then true
  else false.

(** [patched_trim_video_vertical], the function [apply_quick_fix] installs
    as [utils.trim_video_vertical]: the optimized transform with a timeout
    of 600 seconds for a window of more than 300 seconds or with
    subtitles, its [ProcessingTimeoutError] turned into an [Exception]; the
    original otherwise. *)
Definition patched_trim_video_vertical (W : World) (input_path output_path : string)
           (start_time end_time : Q) (transcript_data : option Transcript.Data)
           (add_subtitles : bool) : Py.M FS.fs string :=
  let duration := (end_time - start_time)%Q in
  if negb (Qle_bool duration 300) || add_subtitles
  then
    Py.try_except
      (Transform.trim_video_vertical_optimized W input_path output_path
         start_time end_time transcript_data add_subtitles 600)
      (fun e =>
         match Py.exn_cls e with
         | Py.ProcessingTimeoutError =>
             Py.raise (Py.Exn Py.Exception
                         "Video processing timed out - please try a shorter segment")
         | _ => Py.raise e
         end)
  else
    Transform.trim_video_vertical W input_path output_path start_time end_time
                                  transcript_data add_subtitles.

End QuickFix.

(** ** The quick path ([utils_optimized.py], [quick_timeout_fix.py]) *)

Module Quick.

#[local] Open Scope py_scope.

(** The file system, the list [TempFileManager.files_to_cleanup], the
    seconds spent in [time.sleep] and the number of requests sent to the
    speech service. *)
Record State : Type := mkState {
  files_to_cleanup : list string;
  slept : Z;
  requests : nat;
  files : FS.fs
}.

Definition lift_fs {A} (m : Py.M FS.fs A) : Py.M State A :=
  fun s => match m (files s) with
           | (o, f') => (o, mkState (files_to_cleanup s) (slept s) (requests s) f')
           end.

(** [time.sleep(seconds)] *)
Definition sleep (seconds : Z) : Py.M State unit :=
  Py.modify (fun s => mkState (files_to_cleanup s) (slept s + seconds)
                              (requests s) (files s)).

(** [utils_optimized.extract_audio_segment_direct]: the command asks the
    media tool for the audio of the window, as [extract_segment_audio]
    does, and is given [duration + 60] seconds (a limit that is not
    negative). *)
Definition extract_audio_segment_direct (W : World)
           (video_path output_path : string) (start_time end_time : Z)
  : Py.M FS.fs string :=
  Py.try_except
    (let duration := (end_time - start_time)%Z in
     _ <- Proc.subprocess_run
            (ffmpeg W (Proc.FfmpegSegmentAudio video_path output_path
                         (inject_Z start_time) (inject_Z duration)))
            (Some (Z.to_N (duration + 60))) true ;;
     f <- Py.get ;;
     if FS.exists_ f output_path
     then
       size <- FS.getsize output_path ;;
       if (size <? 1024)%N
       then Py.raise (Py.Exn Py.Exception "Audio segment is too small or empty")
       else Py.ret output_path
     else Py.raise (Py.Exn Py.Exception "Audio segment extraction failed"))
    (fun e =>
       match Py.exn_cls e with
       | Py.TimeoutExpired =>
           Py.raise (Py.Exn Py.ProcessingTimeoutError "Audio extraction timed out")
       | Py.CalledProcessError stderr =>
           Py.raise (Py.Exn Py.Exception ("Failed to extract audio: " +:+ stderr))
       | _ =>
           Py.raise (Py.Exn Py.Exception ("Failed to extract audio: " +:+ Py.exn_str e))
       end).

(** [TempFileManager.add_file] *)
Definition add_file (file_path : string) : Py.M State unit :=
  Py.modify (fun s => if Py.truthy file_path && FS.exists_ (files s) file_path
                      then mkState (files_to_cleanup s ++ [file_path])%list
                                   (slept s) (requests s) (files s)
                      else s).

(** [TempFileManager.get_temp_path] *)
Definition get_temp_path (temp_dir filename : string) : string :=
  FS.path_join temp_dir filename.

(** The first loop of [TempFileManager.cleanup]. *)
Fixpoint remove_listed (file_paths : list string) : Py.M FS.fs unit :=
  match file_paths with
  | [] => Py.ret tt
  | file_path :: rest =>
      _ <- Py.try_except
             (fun f => if FS.exists_ f file_path then FS.os_remove file_path f
                       else (Py.Return tt, f))
             (fun _ => Py.ret tt) ;;
      remove_listed rest
  end.

(** [TempFileManager.cleanup] *)
Definition cleanup (temp_dir : string) : Py.M State unit :=
  s <- Py.get ;;
  _ <- lift_fs (remove_listed (files_to_cleanup s)) ;;
  s' <- Py.get ;;
  if Py.truthy temp_dir && FS.exists_ (files s') temp_dir
  then Py.try_except (lift_fs (FS.rmtree temp_dir)) (fun _ => Py.ret tt)
  else Py.ret tt.

(** [with TempFileManager(...) as temp_manager: body]: the list starts
    empty, [__enter__] makes the directory, and [__exit__] runs [cleanup]
    however the body ends, without holding back what it raised. *)
Definition with_temp_file_manager {A} (W : World) (body : string -> Py.M State A)
  : Py.M State A :=
  _ <- Py.modify (fun s => mkState [] (slept s) (requests s) (files s)) ;;
  temp_dir <- lift_fs (FS.mkdtemp (fresh_dir W)) ;;
  Py.try_finally (body temp_dir) (cleanup temp_dir).

(** The dictionary [process_video_with_timeout_handling] returns, without
    its [processing_time], a difference of two clock readings. *)
Record Result : Type := mkResult {
  success : bool;
  output_path : string;
  result_temp_dir : string
}.

Section Services.

(** The answer of the speech service to the request made in the given
    attempt, the optimized download, and the construction of the client. *)
Variable request : nat -> string -> Py.outcome Transcript.Whisper.
Variable download_optimized : string -> string -> string -> Py.M FS.fs string.
Variable client : Py.outcome unit.

(** [open(audio_path, "rb")] and the request of one attempt, which is
    counted. *)
Definition open_and_request (attempt : nat) (audio_path : string)
  : Py.M State Transcript.Whisper :=
  fun s => match files s !! audio_path with
           | Some (FS.File _) =>
               (request attempt audio_path,
                mkState (files_to_cleanup s) (slept s) (S (requests s)) (files s))
           | Some FS.Dir => (Py.Raise (Py.Exn Py.OSError "Is a directory"), s)
           | None => (Py.Raise (Py.Exn Py.OSError "No such file or directory"), s)
           end.

(** [f"{x:.1f}"]: the double rounded to one decimal, ties to even (for
    [0 <= x]). *)
Definition fmt_1f (x : Q) : string :=
  let tenths := Float.rne (x * 10) in
  Str.of_Z (tenths / 10) +:+ "." +:+ Str.of_Z (tenths mod 10).

(** [f"Audio file too large ({file_size / (1024*1024):.1f}MB). Consider
    shorter segments."] *)
Definition too_large (file_size : N) : string :=
  "Audio file too large ("
  +:+ fmt_1f (Float.div (inject_Z (Z.of_N file_size)) (inject_Z (1024 * 1024)))
  +:+ "MB). Consider shorter segments.".

(** The [try] block of one attempt of [transcribe_segment_optimized]. *)
Definition attempt_body (attempt : nat) (audio_path : string) (chunk_size : N)
  : Py.M State Transcript.Data :=
  file_size <- lift_fs (FS.getsize audio_path) ;;
  if (chunk_size <? file_size)%N
  then Py.raise (Py.Exn Py.Exception (too_large file_size))
  else
    transcript <- open_and_request attempt audio_path ;;
    Py.ret (Transcript.mkData
              (Some (Transcript.w_text transcript))
              (Some (map (fun s : Q * Q * string =>
                            Transcript.mkSegment (Some (fst (fst s)))
                                                 (Some (snd (fst s)))
                                                 (Some (snd s)))
                         (default [] (Transcript.w_segments transcript))))
              false).

(** [for attempt in range(max_retries)], from [attempt] on with
    [remaining] turns to go; the function returns [None] when the loop
    ends without a [return]. *)
Fixpoint attempts (max_retries : nat) (audio_path : string) (chunk_size : N)
         (attempt remaining : nat) : Py.M State (option Transcript.Data) :=
  match remaining with
  | O => Py.ret None
  | S remaining' =>
      fun s =>
        match attempt_body attempt audio_path chunk_size s with
        | (Py.Return result, s') => (Py.Return (Some result), s')
        | (Py.Raise e, s') =>
            if (Z.of_nat attempt <? Z.of_nat max_retries - 1)%Z
            then
              (_ <- sleep (2 ^ Z.of_nat attempt) ;;
               attempts max_retries audio_path chunk_size (S attempt) remaining') s'
            else
              (Py.Raise (Py.Exn Py.Exception
                           ("Transcription failed after "
                            +:+ Str.of_Z (Z.of_nat max_retries)
                            +:+ " attempts: " +:+ Py.exn_str e)), s')
        end
  end.

(** [utils_optimized.transcribe_segment_optimized] *)
Definition transcribe_segment_optimized (audio_path : string) (max_retries : nat)
           (chunk_size : N) : Py.M State (option Transcript.Data) :=
  attempts max_retries audio_path chunk_size 0 max_retries.

(** The body of the [with] block of [process_video_with_timeout_handling];
    [remaining_time] is [max_processing_time - 300], not negative. *)
Definition quick_body (W : World) (url : string) (start_time end_time : Z)
           (vertical_format add_subtitles : bool) (remaining_time : N)
           (temp_dir : string) : Py.M State Result :=
  Py.try_except
    (let quality := if vertical_format then "low" else "medium" in
     video_path <- lift_fs (download_optimized url temp_dir quality) ;;
     _ <- add_file video_path ;;
     transcript_data <-
       (if add_subtitles
        then
          audio_path <-
            lift_fs (extract_audio_segment_direct W video_path
                       (get_temp_path temp_dir "segment_audio.wav")
                       start_time end_time) ;;
          _ <- add_file audio_path ;;
          _ <- Py.lift client ;;
          transcribe_segment_optimized audio_path 3 (23 * 1024 * 1024)
        else Py.ret None) ;;
     let output_path := get_temp_path temp_dir "output.mp4" in
     processed_path <-
       lift_fs (if vertical_format
                then Transform.trim_video_vertical_optimized W video_path output_path
                       (inject_Z start_time) (inject_Z end_time) transcript_data
                       add_subtitles remaining_time
                else Transform.trim_video W video_path output_path
                       (inject_Z start_time) (inject_Z end_time)) ;;
     s <- Py.get ;;
     if FS.exists_ (files s) processed_path
     then
       size <- lift_fs (FS.getsize processed_path) ;;
       if (size <? 1024)%N
       then Py.raise (Py.Exn Py.Exception "Output file is invalid or too small")
       else Py.ret (mkResult true processed_path temp_dir)
     else Py.raise (Py.Exn Py.Exception "Output file is invalid or too small"))
    (fun e =>
       match Py.exn_cls e with
       | Py.ProcessingTimeoutError =>
           Py.raise (Py.Exn Py.Exception
                       "Video processing timed out. Please try with a shorter video segment or disable subtitles.")
       | _ =>
           Py.raise (Py.Exn Py.Exception
                       ("Video processing failed: " +:+ Py.exn_str e))
       end).

(** [quick_timeout_fix.process_video_with_timeout_handling] *)
Definition process_video_with_timeout_handling (W : World) (url : string)
           (start_time end_time : Z) (vertical_format add_subtitles : bool)
           (remaining_time : N) : Py.M State Result :=
  with_temp_file_manager W
    (quick_body W url start_time end_time vertical_format add_subtitles
                remaining_time).

End Services.

End Quick.

(** ** Further vocabulary, for the properties beyond the claims *)

Module Props.

(** The caption lines [wrap] joins with a newline, for a text of more than
    40 characters. *)
Definition wrap_lines (text : string) : list string :=
  let '(lines, current_line) :=
    foldl Subtitles.wrap_step ([], []) (Str.split text) in
  match current_line with
  | [] => lines
  | _ => (lines ++ [Str.join " " current_line])%list
  end.

(** A string without white space. *)
Fixpoint no_space (s : string) : bool :=
  match s with
  | EmptyString => true
  | String c r => negb (Str.isspace c) && no_space r
  end.

(** A word: not empty, no white space. *)
Definition is_word (w : string) : Prop :=
  Py.truthy w = true /\ no_space w = true.

(** A caption line is short, or it is one word of [U]. *)
Definition line_ok (U : list string) (l : string) : Prop :=
  (String.length l <= 35)%nat \/ In l U.

(** What the loop of [wrap] keeps true of [(lines, current_line)] after
    the words [done]: the lines are groups of words joined by a blank, the
    groups and the current line make up [done], and the current line is at
    most one word or at most 35 characters. *)
Definition wrap_inv (U : list string) (acc : list string * list string)
           (done : list string) : Prop :=
  exists groups : list (list string),
    fst acc = map (Str.join " ") groups
    /\ (concat groups ++ snd acc)%list = done
    /\ Forall (fun g => Forall (fun w => In w U) g) groups
    /\ Forall (line_ok U) (fst acc)
    /\ Forall (fun w => In w U) (snd acc)
    /\ ((length (snd acc) <= 1)%nat
        \/ (String.length (Str.join " " (snd acc)) <= 35)%nat).

(** The seconds of audio a list of windows covers. *)
Definition sampled_seconds (windows : list (Q * Q)) : Q :=
  fold_right (fun w acc => (snd w - fst w + acc)%Q) 0%Q windows.

(** A scratch directory holding five minutes of extracted audio. *)
Definition small_audio_fs : FS.fs :=
  <["/tmp/tmpjob1/segment_audio.wav" := FS.File 9600000]>
    (<["/tmp/tmpjob1" := FS.Dir]> ∅).

(** One turn of the [finally] loop of [transcribe_large_audio_with_chunks]
    on the file system. *)
Definition remove_one (audio_path chunk_file : string) (f : FS.fs) : FS.fs :=
  if String.eqb chunk_file audio_path then f else snd (FS.os_remove chunk_file f).

(** An entry of the answer that the validation loop keeps: an object
    with the keys start, end and title. *)
Definition complete_entry (hook : Hooks.json) : bool :=
  match hook with
  | Hooks.JObj members =>
      match Hooks.lookup "start" members, Hooks.lookup "end" members,
            Hooks.lookup "title" members with
      | Some _, Some _, Some _ => true
      | _, _, _ => false
      end
  | _ => false
  end.

(** An answer with three entries: a number, an object without a title,
    and a complete hook. *)
Definition mixed_entries : list Hooks.json :=
  [Hooks.JInt 7;
   Hooks.JObj [("start", Hooks.JInt 5); ("end", Hooks.JInt 20)];
   Hooks.JObj [("start", Hooks.JInt 12); ("end", Hooks.JInt 40);
               ("title", Hooks.JStr "The twist")]].

(** An answer whose second entry has [null] for its start. *)
Definition null_start_entries : list Hooks.json :=
  [Hooks.JObj [("start", Hooks.JInt 12); ("end", Hooks.JInt 40);
               ("title", Hooks.JStr "The twist")];
   Hooks.JObj [("start", Hooks.JNull); ("end", Hooks.JInt 90);
               ("title", Hooks.JStr "The reveal")]].

Definition null_start_text : string :=
  "[{" +:+ Spec.quoted "start" +:+ ": 12, " +:+ Spec.quoted "end" +:+ ": 40, "
  +:+ Spec.quoted "title" +:+ ": " +:+ Spec.quoted "The twist" +:+ "}, {"
  +:+ Spec.quoted "start" +:+ ": null, " +:+ Spec.quoted "end" +:+ ": 90, "
  +:+ Spec.quoted "title" +:+ ": " +:+ Spec.quoted "The reveal" +:+ "}]".

(** Two hooks as the analyzer returns them. *)
Definition two_hooks : list Jobs.Hook :=
  [Jobs.mkHook 12 40 "The twist" "A sudden change of direction";
   Jobs.mkHook 95 120 "The reveal" ""].

(** The last character of a path. *)
Fixpoint last_char (s : string) : option ascii :=
  match s with
  | EmptyString => None
  | String c EmptyString => Some c
  | String _ r => last_char r
  end.

(** Two job records agree on what [update_job] never assigns: the id,
    the creation time, the request and the recorded paths. *)
Definition same_request (a b : Jobs.Job) : Prop :=
  Jobs.id a = Jobs.id b
  /\ Jobs.created_at a = Jobs.created_at b
  /\ Jobs.job_type a = Jobs.job_type b
  /\ Jobs.url a = Jobs.url b
  /\ Jobs.start_time a = Jobs.start_time b
  /\ Jobs.end_time a = Jobs.end_time b
  /\ Jobs.vertical_format a = Jobs.vertical_format b
  /\ Jobs.add_subtitles a = Jobs.add_subtitles b
  /\ Jobs.ai_provider a = Jobs.ai_provider b
  /\ Jobs.temp_dir a = Jobs.temp_dir b
  /\ Jobs.file_paths a = Jobs.file_paths b.

(** A world in which hook detection works: the download arrives, the
    audio track is extracted, the source lasts five minutes, the speech
    service answers, and the chat service names one hook. *)
Definition pipeline_world : World :=
  mkWorld 0 (Py.Return "/tmp/tmpjob1") true
          (fun _ output_dir _ =>
             Py.bind (FS.write_file (FS.path_join output_dir "source.mp4") 5000000)
                     (fun _ => Py.ret (FS.path_join output_dir "source.mp4")))
          (fun _ => Some 300%Q)
          (fun _ => (Some 1280, Some 720))
          (fun c => match c with
                    | Proc.FfmpegFullAudio _ output =>
                        Proc.Runs (Proc.mkRun 3 0 "" "" [(output, 9600000%N)])
                    | _ => Proc.CannotStart "No such file or directory: 'ffmpeg'"
                    end)
          (fun _ => Proc.ProbeFailed)
          (fun _ => Py.Return
                      (Transcript.mkWhisper "Welcome back. Today we cook."
                         (Some [(0%Q, 4%Q, "Welcome back.");
                                (12%Q, 15%Q, " Today we cook.")])))
          (fun _ _ _ => Py.raise (Py.Exn Py.Exception "Hook detection failed: unavailable"))
          (Py.Raise (Py.Exn Py.TypeError
                       "'_GeneratorContextManager' object is not an iterator")).

(** An answer of the chat service with one hook, and its parse. *)
Definition one_hook_text : string :=
  "[{" +:+ Spec.quoted "start" +:+ ": 12, " +:+ Spec.quoted "end" +:+ ": 40, "
  +:+ Spec.quoted "title" +:+ ": " +:+ Spec.quoted "The twist" +:+ "}]".

Definition one_hook_parsed : Hooks.json :=
  Hooks.JArr [Hooks.JObj [("start", Hooks.JInt 12); ("end", Hooks.JInt 40);
                          ("title", Hooks.JStr "The twist")]].

(** A file can be written at [p]: no directory sits there, and the
    directory [p] lies in exists. *)
Definition writable (f : FS.fs) (p : string) : bool :=
  match f !! p with
  | Some FS.Dir => false
  | _ => FS.parent_exists f p
  end.

(** A file system with nothing but the scratch directory. *)
Definition empty_scratch : FS.fs := <["/tmp/tmpjob1" := FS.Dir]> ∅.

(** The first request for a URL, on an empty cache and an empty scratch
    directory, with the scenario's services. *)
Definition first_request : Py.outcome (list Jobs.Hook) * HookPipeline.State :=
  HookPipeline.process_video_for_hooks
    (Spec.one_document one_hook_text one_hook_parsed) (fun _ => "")
    (fun _ => None) (fun u => u) false
    (fun _ => Py.Return ("Here are the hooks: " +:+ one_hook_text))
    (fun _ => Py.Raise (Py.Exn Py.Exception "Connection error."))
    pipeline_world "https://youtube.com/watch?v=abc123" "/tmp/tmpjob1" "openai"
    0 60 (HookPipeline.mkState ∅ empty_scratch).

(** The scenario job as [create_job] records it, and as it is once its
    source has been downloaded into its scratch directory. *)
Definition scenario_job : Jobs.Job :=
  Jobs.mkJob "job-1" Jobs.QUEUED 0 "Job created, waiting to start..."
             0 0 None None "trim" "https://youtube.com/watch?v=abc123"
             30 60 false false "openai" None [].

Definition downloaded_job : Jobs.Job :=
  Jobs.set_file_paths ["/tmp/tmpjob1/source.mp4"]
    (Jobs.set_temp_dir (Some "/tmp/tmpjob1") scenario_job).

Definition downloaded : Orchestrator.State :=
  Orchestrator.mkState {[ "job-1" := downloaded_job ]} Spec.scratch_fs.

(** The duration a hooks result reports: that of the source downloaded
    once more into the scratch directory, and when this download fails
    the end of the latest hook. [f] is the file system the download
    finds. *)
Definition reported_duration (W : World) (url temp_dir : string)
           (hooks_data : list Jobs.Hook) (f : FS.fs) : option Q :=
  match fst (download W url temp_dir true f) with
  | Py.Return video_path => video_duration W video_path
  | Py.Raise _ => Some (inject_Z (Orchestrator.latest_end hooks_data))
  end.

(** A world in which the hook pipeline returns two hooks, and the
    download made afterwards for the duration fails. *)
Definition hooks_world : World :=
  mkWorld 0 (Py.Return "/tmp/tmpjob1") true
          (fun _ _ _ => Py.raise (Py.Exn Py.Exception
                                    "Failed to download video: HTTP Error 429"))
          (fun _ => None)
          (fun _ => (None, None))
          (fun _ => Proc.CannotStart "No such file or directory: 'ffmpeg'")
          (fun _ => Proc.ProbeFailed)
          (fun _ => Py.Raise (Py.Exn Py.Exception "Connection error."))
          (fun _ _ _ => Py.ret two_hooks)
          (Py.Raise (Py.Exn Py.TypeError
                       "'_GeneratorContextManager' object is not an iterator")).

(** A quick run that succeeds: the optimized download arrives in the
    scratch directory and the media tool writes the output in two
    seconds. *)
Definition quick_download (url output_dir quality : string) : Py.M FS.fs string :=
  Py.bind (FS.write_file (FS.path_join output_dir "source.mp4") 5000000)
          (fun _ => Py.ret (FS.path_join output_dir "source.mp4")).

Definition quick_run : Py.outcome Quick.Result * Quick.State :=
  Quick.process_video_with_timeout_handling
    (fun _ _ => Py.Raise (Py.Exn Py.Exception "Connection error."))
    quick_download (Py.Return tt)
    (Spec.encoder_world 2 ["/tmp/tmpjob1/output.mp4"] 2000000 1280 720)
    "https://youtube.com/watch?v=abc123" 30 60 false false 540
    (Quick.mkState [] 0 0 ∅).

End Props.

(** ** Rounding to the nearest double *)

Section FloatFacts.

#[local] Open Scope Q_scope.

Lemma pow2_pos (e : Z) : 0 < 2 ^ e.
Proof. apply Qpower_0_lt. reflexivity. Qed.

Lemma pow2_add (a b : Z) : 2 ^ (a + b) == 2 ^ a * 2 ^ b.
Proof. apply Qpower_plus. discriminate. Qed.

Lemma pow2_succ (a : Z) : 2 ^ (a + 1) == 2 * 2 ^ a.
Proof. rewrite pow2_add. change (2 ^ 1) with 2. ring. Qed.

Lemma pow2_le (a b : Z) : (a <= b)%Z -> 2 ^ a <= 2 ^ b.
Proof. intros H. apply Qpower_le_compat_l; [exact H | discriminate]. Qed.

Lemma pow2_lt_inv (a b : Z) : 2 ^ a < 2 ^ b -> (a < b)%Z.
Proof. intros H. apply (Qpower_lt_compat_l_inv 2); [exact H | reflexivity]. Qed.

Lemma pow2_Z (n : Z) : (0 <= n)%Z -> inject_Z (2 ^ n) == 2 ^ n.
Proof. intros H. rewrite Zpower_Qpower by exact H. reflexivity. Qed.

(** [ilog2] is the exponent. *)
Lemma ilog2_spec (x : Q) :
  0 < x -> 2 ^ Float.ilog2 x <= x /\ x < 2 ^ (Float.ilog2 x + 1).
Proof.
  intros Hx. destruct x as [n d].
  assert (0 < n)%Z as Hn.
  { unfold Qlt in Hx. cbn in Hx. lia. }
  unfold Float.ilog2. cbn [Qnum Qden].
  set (ln := Z.log2 n). set (ld := Z.log2 (Z.pos d)).
  destruct (Z.log2_spec n Hn) as [Hn1 Hn2]. fold ln in Hn1, Hn2.
  destruct (Z.log2_spec (Z.pos d) eq_refl) as [Hd1 Hd2]. fold ld in Hd1, Hd2.
  assert (0 <= ln)%Z as Hln by apply Z.log2_nonneg.
  assert (0 <= ld)%Z as Hld by apply Z.log2_nonneg.
  assert (2 ^ (ln - ld) * 2 ^ ld == 2 ^ ln) as HP.
  { rewrite <- pow2_add. replace (ln - ld + ld)%Z with ln by lia. reflexivity. }
  assert ((n # d) * inject_Z (Z.pos d) == inject_Z n) as HX.
  { unfold Qeq, Qmult, inject_Z. cbn. lia. }
  assert (2 ^ ln <= inject_Z n) as A1.
  { rewrite <- pow2_Z by exact Hln. rewrite <- Zle_Qle. exact Hn1. }
  assert (inject_Z n < 2 * 2 ^ ln) as A2.
  { rewrite <- pow2_succ. rewrite <- pow2_Z by lia. rewrite <- Zlt_Qlt.
    replace (ln + 1)%Z with (Z.succ ln) by lia. exact Hn2. }
  assert (2 ^ ld <= inject_Z (Z.pos d)) as B1.
  { rewrite <- pow2_Z by exact Hld. rewrite <- Zle_Qle. exact Hd1. }
  assert (inject_Z (Z.pos d) < 2 * 2 ^ ld) as B2.
  { rewrite <- pow2_succ. rewrite <- pow2_Z by lia. rewrite <- Zlt_Qlt.
    replace (ld + 1)%Z with (Z.succ ld) by lia. exact Hd2. }
  pose proof (pow2_pos ln) as Pn. pose proof (pow2_pos ld) as Pd.
  pose proof (pow2_pos (ln - ld)) as P0.
  destruct (Qle_bool (2 ^ (ln - ld)) (n # d)) eqn:E.
  - apply Qle_bool_iff in E. split; [exact E |].
    rewrite pow2_succ.
    set (x := n # d) in *. set (D := inject_Z (Z.pos d)) in *.
    set (N := inject_Z n) in *. set (A := 2 ^ ln) in *. set (B := 2 ^ ld) in *.
    set (P := 2 ^ (ln - ld)) in *.
    apply Qnot_le_lt. intros Hc.
    assert (2 * P * B <= x * D) by nra.
    nra.
  - assert (n # d < 2 ^ (ln - ld)) as E'.
    { apply Qnot_le_lt. intros Hc. apply Qle_bool_iff in Hc. congruence. }
    replace (ln - ld - 1 + 1)%Z with (ln - ld)%Z by lia.
    split; [| exact E'].
    assert (2 * 2 ^ (ln - ld - 1) == 2 ^ (ln - ld)) as HM.
    { rewrite <- pow2_succ. replace (ln - ld - 1 + 1)%Z with (ln - ld)%Z by lia.
      reflexivity. }
    pose proof (pow2_pos (ln - ld - 1)) as Pm.
    set (x := n # d) in *. set (D := inject_Z (Z.pos d)) in *.
    set (N := inject_Z n) in *. set (A := 2 ^ ln) in *. set (B := 2 ^ ld) in *.
    set (P := 2 ^ (ln - ld)) in *. set (M := 2 ^ (ln - ld - 1)) in *.
    apply Qnot_lt_le. intros Hc.
    assert (x * D < M * (2 * B)) by nra.
    nra.
Qed.

Lemma ilog2_unique (x : Q) (k : Z) :
  2 ^ k <= x -> x < 2 ^ (k + 1) -> Float.ilog2 x = k.
Proof.
  intros H1 H2.
  assert (0 < x) as Hx by (pose proof (pow2_pos k); lra).
  destruct (ilog2_spec x Hx) as [E1 E2].
  assert (2 ^ Float.ilog2 x < 2 ^ (k + 1)) as L1 by lra.
  assert (2 ^ k < 2 ^ (Float.ilog2 x + 1)) as L2 by lra.
  apply pow2_lt_inv in L1, L2. lia.
Qed.

Lemma ilog2_comp (x y : Q) : 0 < x -> x == y -> Float.ilog2 x = Float.ilog2 y.
Proof.
  intros Hx E. destruct (ilog2_spec x Hx) as [E1 E2].
  symmetry. apply ilog2_unique; rewrite <- E; assumption.
Qed.

Lemma ilog2_le (x y : Q) : 0 < x -> x <= y -> (Float.ilog2 x <= Float.ilog2 y)%Z.
Proof.
  intros Hx Hxy.
  destruct (ilog2_spec x Hx) as [E1 _].
  destruct (ilog2_spec y ltac:(lra)) as [_ E2].
  assert (2 ^ Float.ilog2 x < 2 ^ (Float.ilog2 y + 1)) as L by lra.
  apply pow2_lt_inv in L. lia.
Qed.

Lemma ulp_pos (x : Q) : 0 < Float.ulp x.
Proof. apply pow2_pos. Qed.

Lemma ulp_comp (x y : Q) : 0 < x -> x == y -> Float.ulp x = Float.ulp y.
Proof. intros Hx E. unfold Float.ulp. rewrite (ilog2_comp x y Hx E). reflexivity. Qed.

(** *** The nearest integer *)

Lemma rne_comp (p q : Q) : p == q -> Float.rne p = Float.rne q.
Proof.
  intros E. unfold Float.rne.
  rewrite (Qfloor_comp p q E).
  assert (p - inject_Z (Qfloor q) == q - inject_Z (Qfloor q)) as E' by (rewrite E; reflexivity).
  rewrite (Qcompare_comp _ _ E' (1 # 2) (1 # 2) (Qeq_refl _)). reflexivity.
Qed.

Lemma rne_Z (z : Z) : Float.rne (inject_Z z) = z.
Proof.
  unfold Float.rne. rewrite Qfloor_Z.
  assert (inject_Z z - inject_Z z < 1 # 2) as H by lra.
  rewrite (proj1 (Qlt_alt _ _) H). reflexivity.
Qed.

Lemma rne_cases (q : Q) :
  let n := Qfloor q in
  inject_Z n <= q /\ q < inject_Z n + 1
  /\ ((Float.rne q = n /\ q - inject_Z n <= 1 # 2)
      \/ (Float.rne q = (n + 1)%Z /\ 1 # 2 <= q - inject_Z n))
  /\ (q - inject_Z n == 1 # 2 -> Float.rne q = if Z.even n then n else (n + 1)%Z).
Proof.
  intros n. pose proof (Qfloor_le q) as H1. pose proof (Qlt_floor q) as H2.
  fold n in H1, H2. rewrite inject_Z_plus in H2. change (inject_Z 1) with 1 in H2.
  split; [exact H1 |]. split; [exact H2 |].
  unfold Float.rne. fold n.
  destruct (q - inject_Z n ?= 1 # 2) eqn:E.
  - apply (proj2 (Qeq_alt _ _)) in E. split; [| intros _; reflexivity].
    destruct (Z.even n); [left | right]; split; try reflexivity; lra.
  - apply (proj2 (Qlt_alt _ _)) in E. split; [left; split; [reflexivity | lra] |].
    intros Hc. lra.
  - apply (proj2 (Qgt_alt _ _)) in E. split; [right; split; [reflexivity | lra] |].
    intros Hc. lra.
Qed.

Lemma rne_near (q : Q) : Qabs (inject_Z (Float.rne q) - q) <= 1 # 2.
Proof.
  destruct (rne_cases q) as (H1 & H2 & [[E H] | [E H]] & _); rewrite E;
    apply Qabs_Qle_condition; try rewrite inject_Z_plus;
    change (inject_Z 1) with 1; split; lra.
Qed.

Lemma rne_mono (p q : Q) : p <= q -> (Float.rne p <= Float.rne q)%Z.
Proof.
  intros Hpq.
  destruct (rne_cases p) as (P1 & P2 & PC & PE).
  destruct (rne_cases q) as (Q1 & Q2 & QC & QE).
  pose proof (Qfloor_resp_le p q Hpq) as Hfl.
  destruct (Z.eq_dec (Qfloor p) (Qfloor q)) as [Efl | Nfl].
  - rewrite Efl in *.
    destruct PC as [[E1 H1] | [E1 H1]]; destruct QC as [[E2 H2] | [E2 H2]];
      rewrite E1, E2; try lia.
    assert (p - inject_Z (Qfloor q) == 1 # 2) as Hp by lra.
    assert (q - inject_Z (Qfloor q) == 1 # 2) as Hq by lra.
    rewrite (PE Hp) in E1. rewrite (QE Hq) in E2.
    destruct (Z.even (Qfloor q)); lia.
  - assert (Float.rne p <= Qfloor p + 1)%Z as A
      by (destruct PC as [[E _] | [E _]]; rewrite E; lia).
    assert (Qfloor q <= Float.rne q)%Z as B
      by (destruct QC as [[E _] | [E _]]; rewrite E; lia).
    lia.
Qed.

(** *** Rounding a positive number *)

Lemma round_pos_eq (x : Q) :
  Float.round_pos x == inject_Z (Float.rne (x / Float.ulp x)) * Float.ulp x.
Proof. unfold Float.round_pos. apply Qred_correct. Qed.

Lemma scaled_eq (x : Q) : x / Float.ulp x * Float.ulp x == x.
Proof. field. pose proof (ulp_pos x). lra. Qed.

Lemma scaled_hi (x : Q) :
  0 < x -> (Float.rne (x / Float.ulp x) <= 2 ^ 53)%Z.
Proof.
  intros Hx. rewrite <- (rne_Z (2 ^ 53)). apply rne_mono.
  destruct (ilog2_spec x Hx) as [_ H2].
  set (ec := Z.max (Float.ilog2 x) (-1022)).
  assert (2 ^ (Float.ilog2 x + 1) <= 2 ^ (ec + 1)) as H3 by (apply pow2_le; lia).
  assert (2 ^ (ec + 1) == inject_Z (2 ^ 53) * Float.ulp x) as H4.
  { unfold Float.ulp. fold ec. rewrite pow2_Z by lia. rewrite <- pow2_add.
    replace (53 + (ec - 52))%Z with (ec + 1)%Z by lia. reflexivity. }
  pose proof (ulp_pos x) as Hu. pose proof (scaled_eq x) as Hs.
  set (q := x / Float.ulp x) in *. set (u := Float.ulp x) in *.
  set (c := inject_Z (2 ^ 53)) in *.
  apply Qnot_lt_le. intros Hc.
  assert (c * u < q * u) by nra. lra.
Qed.

Lemma scaled_lo (x : Q) :
  0 < x -> (-1022 <= Float.ilog2 x)%Z ->
  (2 ^ 52 <= Float.rne (x / Float.ulp x))%Z.
Proof.
  intros Hx He. rewrite <- (rne_Z (2 ^ 52)) at 1. apply rne_mono.
  destruct (ilog2_spec x Hx) as [H1 _].
  assert (2 ^ Float.ilog2 x == inject_Z (2 ^ 52) * Float.ulp x) as H4.
  { unfold Float.ulp. rewrite Z.max_l by lia. rewrite pow2_Z by lia.
    rewrite <- pow2_add.
    replace (52 + (Float.ilog2 x - 52))%Z with (Float.ilog2 x) by lia. reflexivity. }
  pose proof (ulp_pos x) as Hu. pose proof (scaled_eq x) as Hs.
  set (q := x / Float.ulp x) in *. set (u := Float.ulp x) in *.
  set (c := inject_Z (2 ^ 52)) in *.
  apply Qnot_lt_le. intros Hc.
  assert (q * u < c * u) by nra. lra.
Qed.

Lemma scaled_nonneg (x : Q) : 0 < x -> (0 <= Float.rne (x / Float.ulp x))%Z.
Proof.
  intros Hx. rewrite <- (rne_Z 0) at 1. apply rne_mono.
  pose proof (ulp_pos x) as Hu. pose proof (scaled_eq x) as Hs.
  change (inject_Z 0) with 0.
  set (q := x / Float.ulp x) in *. set (u := Float.ulp x) in *.
  apply Qnot_lt_le. intros Hc. assert (q * u < 0) by nra. lra.
Qed.

Lemma round_pos_nonneg (x : Q) : 0 < x -> 0 <= Float.round_pos x.
Proof.
  intros Hx. rewrite round_pos_eq.
  pose proof (scaled_nonneg x Hx) as H. pose proof (ulp_pos x) as Hu.
  apply Qmult_le_0_compat; [| lra].
  change 0 with (inject_Z 0). rewrite <- Zle_Qle. exact H.
Qed.

Lemma round_pos_comp (x y : Q) :
  0 < x -> x == y -> Float.round_pos x = Float.round_pos y.
Proof.
  intros Hx E. unfold Float.round_pos. rewrite (ulp_comp x y Hx E).
  apply Qred_complete.
  rewrite (rne_comp (x / Float.ulp y) (y / Float.ulp y)); [reflexivity |].
  rewrite E. reflexivity.
Qed.

Lemma round_pos_le (x y : Q) :
  0 < x -> x <= y -> Float.round_pos x <= Float.round_pos y.
Proof.
  intros Hx Hxy. assert (0 < y) as Hy by lra.
  rewrite !round_pos_eq.
  pose proof (ilog2_le x y Hx Hxy) as He.
  set (ex := Z.max (Float.ilog2 x) (-1022)).
  set (ey := Z.max (Float.ilog2 y) (-1022)).
  assert (ex <= ey)%Z as Hec by lia.
  pose proof (ulp_pos x) as Hux. pose proof (ulp_pos y) as Huy.
  destruct (Z.eq_dec ex ey) as [Eec | Nec].
  - assert (Float.ulp x = Float.ulp y) as Eu.
    { unfold Float.ulp. fold ex ey. rewrite Eec. reflexivity. }
    rewrite Eu. apply Qmult_le_compat_r; [| lra].
    rewrite <- Zle_Qle. apply rne_mono.
    apply Qmult_le_compat_r; [exact Hxy |].
    apply Qlt_le_weak, Qinv_lt_0_compat. exact Huy.
  - assert (-1022 <= Float.ilog2 y)%Z as Hny by lia.
    pose proof (scaled_lo y Hy Hny) as Hlo.
    pose proof (scaled_hi x Hx) as Hhi.
    rewrite Zle_Qle in Hlo, Hhi.
    assert (inject_Z (2 ^ 53) * Float.ulp x == 2 ^ (ex + 1)) as A.
    { unfold Float.ulp. fold ex. rewrite pow2_Z by lia. rewrite <- pow2_add.
      replace (53 + (ex - 52))%Z with (ex + 1)%Z by lia. reflexivity. }
    assert (inject_Z (2 ^ 52) * Float.ulp y == 2 ^ ey) as B.
    { unfold Float.ulp. fold ey. rewrite pow2_Z by lia. rewrite <- pow2_add.
      replace (52 + (ey - 52))%Z with ey by lia. reflexivity. }
    assert (2 ^ (ex + 1) <= 2 ^ ey) as C by (apply pow2_le; lia).
    set (mx := inject_Z (Float.rne (x / Float.ulp x))) in *.
    set (my := inject_Z (Float.rne (y / Float.ulp y))) in *.
    set (ux := Float.ulp x) in *. set (uy := Float.ulp y) in *.
    set (c53 := inject_Z (2 ^ 53)) in *. set (c52 := inject_Z (2 ^ 52)) in *.
    assert (mx * ux <= c53 * ux) by nra.
    assert (c52 * uy <= my * uy) by nra.
    lra.
Qed.

(** A significand of at most 53 bits on an exponent within range is a
    double. *)
Lemma round_pos_fix (y : Q) (m k : Z) :
  (0 < m <= 2 ^ 53)%Z -> (-1022 <= k)%Z ->
  ((m < 2 ^ 52)%Z -> k = (-1022)%Z) ->
  y == inject_Z m * 2 ^ (k - 52) ->
  Float.round_pos y == y.
Proof.
  intros Hm Hk Hsub Ey.
  pose proof (pow2_pos (k - 52)) as Hu.
  assert (0 < inject_Z m) as Hm0.
  { change 0 with (inject_Z 0). rewrite <- Zlt_Qlt. lia. }
  assert (0 < y) as Hy by (rewrite Ey; nra).
  assert (2 ^ k == inject_Z (2 ^ 52) * 2 ^ (k - 52)) as K52.
  { rewrite pow2_Z by lia. rewrite <- pow2_add.
    replace (52 + (k - 52))%Z with k by lia. reflexivity. }
  assert (2 ^ (k + 1) == inject_Z (2 ^ 53) * 2 ^ (k - 52)) as K53.
  { rewrite pow2_Z by lia. rewrite <- pow2_add.
    replace (53 + (k - 52))%Z with (k + 1)%Z by lia. reflexivity. }
  assert (inject_Z m <= inject_Z (2 ^ 53)) as Hm53 by (rewrite <- Zle_Qle; lia).
  destruct (Z.eq_dec m (2 ^ 53)%Z) as [E53 | N53].
  - (* the significand carries into the next exponent *)
    assert (y == 2 ^ (k + 1)) as Ey' by (rewrite Ey, K53, E53; reflexivity).
    assert (Float.ilog2 y = (k + 1)%Z) as Elog.
    { apply ilog2_unique; [rewrite Ey'; apply Qle_refl |].
      rewrite Ey'. rewrite (pow2_succ (k + 1)). pose proof (pow2_pos (k + 1)). lra. }
    rewrite round_pos_eq. unfold Float.ulp. rewrite Elog.
    rewrite Z.max_l by lia.
    replace (k + 1 - 52)%Z with (k - 52 + 1)%Z by lia.
    assert (y / 2 ^ (k - 52 + 1) == inject_Z (2 ^ 52)) as Eq.
    { rewrite Ey, E53. rewrite pow2_succ.
      change (inject_Z (2 ^ 53)) with (2 * inject_Z (2 ^ 52)).
      field. lra. }
    rewrite (rne_comp _ _ Eq), rne_Z. rewrite Ey, E53, pow2_succ.
    change (inject_Z (2 ^ 53)) with (2 * inject_Z (2 ^ 52)). ring.
  - assert (Float.ulp y = 2 ^ (k - 52)) as Eu.
    { unfold Float.ulp. f_equal. f_equal.
      destruct (Z_lt_le_dec m (2 ^ 52)%Z) as [Hlt | Hge].
      - specialize (Hsub Hlt). subst k.
        assert (Float.ilog2 y < -1022)%Z; [| lia].
        destruct (ilog2_spec y Hy) as [E1 _].
        assert (inject_Z m < inject_Z (2 ^ 52)) as Hm52 by (rewrite <- Zlt_Qlt; lia).
        assert (y < 2 ^ (-1022)) as Hlt2 by (rewrite Ey, K52; nra).
        apply pow2_lt_inv. lra.
      - assert (Float.ilog2 y = k) as Elog; [| lia].
        assert (inject_Z (2 ^ 52) <= inject_Z m) as Hm52 by (rewrite <- Zle_Qle; lia).
        assert (inject_Z m < inject_Z (2 ^ 53)) as Hm53' by (rewrite <- Zlt_Qlt; lia).
        apply ilog2_unique; [rewrite Ey, K52; nra | rewrite Ey, K53; nra]. }
    rewrite round_pos_eq. rewrite Eu.
    assert (y / 2 ^ (k - 52) == inject_Z m) as Eq by (rewrite Ey; field; lra).
    rewrite (rne_comp _ _ Eq), rne_Z. rewrite Ey. reflexivity.
Qed.

Lemma round_pos_idem (x : Q) :
  0 < x -> 0 < Float.round_pos x ->
  Float.round_pos (Float.round_pos x) == Float.round_pos x.
Proof.
  intros Hx Hpos.
  set (m := Float.rne (x / Float.ulp x)).
  set (k := Z.max (Float.ilog2 x) (-1022)).
  apply (round_pos_fix _ m k).
  - split; [| apply scaled_hi; exact Hx].
    pose proof (scaled_nonneg x Hx) as H0. fold m in H0.
    destruct (Z.eq_dec m 0%Z) as [E0 | N0]; [| lia].
    rewrite round_pos_eq in Hpos. fold m in Hpos. rewrite E0 in Hpos.
    change (inject_Z 0) with 0 in Hpos. lra.
  - unfold k. lia.
  - intros Hlt. destruct (Z_lt_le_dec (Float.ilog2 x) (-1022)%Z) as [H | H];
      [unfold k; lia |].
    pose proof (scaled_lo x Hx H). fold m in H0. lia.
  - rewrite round_pos_eq. reflexivity.
Qed.

(** *** Rounding *)

Lemma round_0 : Float.round 0 = 0.
Proof. reflexivity. Qed.

Lemma round_pos_case (x : Q) : 0 < x -> Float.round x = Float.round_pos x.
Proof. intros H. unfold Float.round. rewrite (proj1 (Qgt_alt _ _) H). reflexivity. Qed.

Lemma round_neg_case (x : Q) :
  x < 0 -> Float.round x = Qred (- Float.round_pos (- x)).
Proof. intros H. unfold Float.round. rewrite (proj1 (Qlt_alt _ _) H). reflexivity. Qed.

Lemma round_zero_case (x : Q) : x == 0 -> Float.round x = 0.
Proof. intros H. unfold Float.round. rewrite (proj1 (Qeq_alt _ _) H). reflexivity. Qed.

Lemma round_comp (x y : Q) : x == y -> Float.round x = Float.round y.
Proof.
  intros E. destruct (Q_dec x 0) as [[H | H] | H].
  - rewrite (round_neg_case x H), (round_neg_case y) by (rewrite <- E; exact H).
    rewrite (round_pos_comp (- x) (- y)); [reflexivity | lra | rewrite E; reflexivity].
  - rewrite (round_pos_case x H), (round_pos_case y) by (rewrite <- E; exact H).
    apply round_pos_comp; assumption.
  - rewrite (round_zero_case x H), (round_zero_case y) by (rewrite <- E; exact H).
    reflexivity.
Qed.

Lemma round_nonneg (x : Q) : 0 <= x -> 0 <= Float.round x.
Proof.
  intros H. destruct (Qle_lt_or_eq _ _ H) as [H' | H'].
  - rewrite (round_pos_case x H'). apply round_pos_nonneg. exact H'.
  - rewrite (round_zero_case x) by (symmetry; exact H'). apply Qle_refl.
Qed.

Lemma round_nonpos (x : Q) : x <= 0 -> Float.round x <= 0.
Proof.
  intros H. destruct (Qle_lt_or_eq _ _ H) as [H' | H'].
  - rewrite (round_neg_case x H'). rewrite Qred_correct.
    assert (0 <= Float.round_pos (- x)) by (apply round_pos_nonneg; lra). lra.
  - rewrite (round_zero_case x H'). apply Qle_refl.
Qed.

(** Rounding keeps the order. *)
Lemma round_le (x y : Q) : x <= y -> Float.round x <= Float.round y.
Proof.
  intros Hxy. destruct (Q_dec x 0) as [[Hx | Hx] | Hx].
  - destruct (Qlt_le_dec y 0) as [Hy | Hy].
    + rewrite (round_neg_case x Hx), (round_neg_case y Hy). rewrite !Qred_correct.
      assert (Float.round_pos (- y) <= Float.round_pos (- x))
        by (apply round_pos_le; lra).
      lra.
    + pose proof (round_nonneg y Hy). pose proof (round_nonpos x (Qlt_le_weak _ _ Hx)).
      lra.
  - rewrite (round_pos_case x Hx), (round_pos_case y) by lra.
    apply round_pos_le; assumption.
  - rewrite (round_zero_case x Hx). apply round_nonneg. lra.
Qed.

Lemma round_reduced (x : Q) : Qred (Float.round x) = Float.round x.
Proof.
  unfold Float.round, Float.round_pos. destruct (x ?= 0); [reflexivity | |];
    apply Qred_complete, Qred_correct.
Qed.

(** A rounded number is a double: rounding it again changes nothing. *)
Lemma round_idem (x : Q) : Float.round (Float.round x) = Float.round x.
Proof.
  etransitivity; [symmetry; apply round_reduced |].
  etransitivity; [| apply round_reduced].
  apply Qred_complete.
  destruct (Q_dec x 0) as [[Hx | Hx] | Hx].
  - rewrite (round_neg_case x Hx).
    set (w := Float.round_pos (- x)).
    assert (0 < - x) as Hnx by lra.
    pose proof (round_pos_nonneg _ Hnx) as H0. fold w in H0.
    pose proof (Qred_correct (- w)) as Ey.
    destruct (Qle_lt_or_eq _ _ H0) as [H | H].
    + rewrite round_neg_case by lra. rewrite Qred_correct.
      rewrite (round_pos_comp (- Qred (- w)) w) by lra.
      unfold w. rewrite round_pos_idem by assumption. fold w. lra.
    + rewrite round_zero_case by lra. lra.
  - rewrite (round_pos_case x Hx).
    pose proof (round_pos_nonneg _ Hx) as H0.
    destruct (Qle_lt_or_eq _ _ H0) as [H | H].
    + rewrite (round_pos_case _ H). apply round_pos_idem; assumption.
    + rewrite round_zero_case by lra. exact H.
  - rewrite (round_zero_case x Hx). reflexivity.
Qed.

(** The relative error of rounding a number of the normal range. *)
Lemma round_error_normal (x : Q) :
  2 ^ (-1022) <= x -> Qabs (Float.round x - x) <= x * (1 # 2 ^ 53).
Proof.
  intros Hx. assert (0 < x) as Hpos by (pose proof (pow2_pos (-1022)); lra).
  rewrite (round_pos_case x Hpos). rewrite round_pos_eq.
  destruct (ilog2_spec x Hpos) as [E1 E2].
  assert (-1022 <= Float.ilog2 x)%Z as He.
  { assert (2 ^ (-1022) < 2 ^ (Float.ilog2 x + 1)) as L by lra.
    apply pow2_lt_inv in L. lia. }
  assert (inject_Z (2 ^ 52) * Float.ulp x == 2 ^ Float.ilog2 x) as B.
  { unfold Float.ulp. rewrite Z.max_l by lia. rewrite pow2_Z by lia.
    rewrite <- pow2_add.
    replace (52 + (Float.ilog2 x - 52))%Z with (Float.ilog2 x) by lia. reflexivity. }
  pose proof (rne_near (x / Float.ulp x)) as Hn.
  pose proof (ulp_pos x) as Hu. pose proof (scaled_eq x) as Hs.
  apply Qabs_Qle_condition in Hn. destruct Hn as [Hn1 Hn2].
  change (inject_Z (2 ^ 52)) with 4503599627370496 in B.
  change (1 # 2 ^ 53) with (1 # 9007199254740992).
  set (m := inject_Z (Float.rne (x / Float.ulp x))) in *.
  set (q := x / Float.ulp x) in *. set (u := Float.ulp x) in *.
  set (P := 2 ^ Float.ilog2 x) in *.
  clearbody P. clear Hx E2 He.
  apply Qabs_Qle_condition. split; nra.
Qed.

Lemma round_error (x : Q) :
  1 <= x -> Qabs (Float.round x - x) <= x * (1 # 2 ^ 53).
Proof.
  intros Hx. apply round_error_normal.
  pose proof (pow2_le (-1022) 0 ltac:(lia)) as H. change (2 ^ 0) with 1 in H. lra.
Qed.

(** The same for a product that may be zero. *)
Lemma mul_error (a b : Q) :
  a * b == 0 \/ 1 <= a * b ->
  Qabs (Float.mul a b - a * b) <= a * b * (1 # 2 ^ 53).
Proof.
  intros [H | H]; [| exact (round_error _ H)].
  unfold Float.mul. rewrite (round_zero_case _ H). rewrite H.
  apply Qabs_Qle_condition. split; lra.
Qed.

End FloatFacts.

(** * Facts *)

(** ** Job record store *)

Section JobStoreFacts.

Import Jobs.

Lemma truthy_true (s : string) : Py.truthy s = true <-> s <> "".
Proof. destruct s; simpl; split; intros; congruence. Qed.

Lemma update_fields_error now st pr msg res err job :
  err <> "" ->
  status (update_fields now st pr msg res (Some err) job) = FAILED
  /\ error (update_fields now st pr msg res (Some err) job) = Some err.
Proof.
  intros Herr. apply truthy_true in Herr.
  unfold update_fields. rewrite Herr. split; reflexivity.
Qed.

Lemma update_fields_status_only now s pr msg res job :
  status (update_fields now (Some s) pr msg res None job) = s
  /\ error (update_fields now (Some s) pr msg res None job) = error job.
Proof.
  unfold update_fields.
  destruct pr, msg as [m|], res; try destruct (Py.truthy m); split; reflexivity.
Qed.

Lemma update_job_lookup (jobs : gmap string Job) now job_id st pr msg res err job :
  jobs !! job_id = Some job ->
  update_job jobs now job_id st pr msg res err !! job_id
  = Some (update_fields now st pr msg res err job).
Proof.
  intros Hjob. unfold update_job. rewrite Hjob. apply lookup_insert_eq.
Qed.

(** C10, the invariant as the claim words it, refuted: after an update
    that records the error "boom", a later update that passes only the
    status [COMPLETED] leaves a job with an error and a status other than
    [FAILED]. *)
Lemma update_job_error_not_sticky :
  ~ Spec.error_implies_failed
      (update_job
         (update_job Spec.store0 1 "job-1" None None None None (Some "boom"))
         2 "job-1" (Some COMPLETED) None None None None).
Proof.
  intros H.
  specialize (H "job-1"
    (mkJob "job-1" COMPLETED 0 "Job created, waiting to start..." 0 2 None
           (Some "boom") "trim" "https://youtube.com/watch?v=abc123"
           30 60 false false "openai" None [])).
  assert (COMPLETED = FAILED) as Habs; [| discriminate Habs].
  apply H; [vm_compute; reflexivity | discriminate].
Qed.

(** C10 (amended): for a job id present in the store, a call to
    [update_job] with a non-empty [error] leaves the job with status
    [FAILED] and that error, whatever status the same call passes; a
    later call that passes a status and no error gives the job that
    status and keeps the error. *)
Theorem update_job_error_sets_failed
        (jobs : gmap string Job) now job_id st pr msg res err job :
  jobs !! job_id = Some job ->
  err <> "" ->
  let jobs' := update_job jobs now job_id st pr msg res (Some err) in
  (exists job', jobs' !! job_id = Some job'
                /\ status job' = FAILED /\ error job' = Some err)
  /\ (forall now' s pr' msg' res',
        exists job'',
          update_job jobs' now' job_id (Some s) pr' msg' res' None !! job_id
          = Some job''
          /\ status job'' = s /\ error job'' = Some err).
Proof.
  intros Hjob Herr jobs'.
  pose proof (update_job_lookup jobs now job_id st pr msg res (Some err) job Hjob)
    as Hlk.
  destruct (update_fields_error now st pr msg res err job Herr) as [Hst Her].
  split.
  - eexists; split; [exact Hlk | split; assumption].
  - intros now' s pr' msg' res'.
    eexists; split; [apply update_job_lookup; exact Hlk |].
    destruct (update_fields_status_only now' s pr' msg' res'
                (update_fields now st pr msg res (Some err) job)) as [H1 H2].
    split; [exact H1 | rewrite H2; exact Her].
Qed.

Lemma update_job_error_sets_failed_witness :
  exists job',
    update_job Spec.store0 1 "job-1" (Some COMPLETED) (Some 100) None None
               (Some "boom") !! "job-1" = Some job'
    /\ status job' = FAILED /\ error job' = Some "boom".
Proof.
  refine (proj1 (update_job_error_sets_failed Spec.store0 1 "job-1"
                   (Some COMPLETED) (Some 100) None None "boom"
                   (mkJob "job-1" QUEUED 0 "Job created, waiting to start..."
                          0 0 None None "trim"
                          "https://youtube.com/watch?v=abc123"
                          30 60 false false "openai" None [])
                   _ _)).
  - vm_compute. reflexivity.
  - discriminate.
Defined.

End JobStoreFacts.

(** ** Video Transform Engine *)

Section TransformFacts.

Import Transform.

Ltac run_monad :=
  unfold Py.try_except, Py.bind, Py.ret, Py.raise, Py.get, Py.lift,
    Proc.subprocess_run, Proc.timed_out; simpl.

(** C9, refuted on [utils.trim_video_vertical]: a 640 by 360 input is
    given the larger 1080 by 1920 target. *)
Lemma vertical_command_low_resolution_large_target :
  Spec.command_target
    (vertical_command "/tmp/tmpjob1/source.mp4" "/tmp/tmpjob1/out.mp4"
                      10 40 640 360 None)
  = Some (1080, 1920).
Proof. reflexivity. Qed.

(** C9 (amended): [trim_video_vertical_optimized] asks for 720 by 1280
    when the input is at most 720 pixels wide and for 1080 by 1920 when it
    is wider; [trim_video_vertical] asks for 1080 by 1920 whatever the
    input. *)
Theorem vertical_target_by_input_width
        input output (start_time end_time : Q) (width height : Z)
        (subtitle_file : option string) :
  ((width <= 720
    /\ Spec.command_target
         (optimized_vertical_command input output start_time end_time
                                     width height subtitle_file)
       = Some (720, 1280))
   \/ (720 < width
       /\ Spec.command_target
            (optimized_vertical_command input output start_time end_time
                                        width height subtitle_file)
          = Some (1080, 1920)))
  /\ Spec.command_target
       (vertical_command input output start_time end_time width height
                         subtitle_file)
     = Some (1080, 1920).
Proof.
  split; [| reflexivity].
  unfold optimized_vertical_command, optimized_target_resolution.
  destruct (Z.leb_spec width 720); [left | right]; split; auto.
Qed.

(** C5, refuted: the encoder exits with status 0 and leaves an empty
    output file; [trim_video] returns the path. *)
Lemma trim_video_returns_empty_output :
  let r := trim_video (Spec.encoder_world 2 ["/tmp/tmpjob1/out.mp4"] 0 1280 720)
                      "/tmp/tmpjob1/source.mp4" "/tmp/tmpjob1/out.mp4" 30 60
                      Spec.scratch_fs in
  fst r = Py.Return "/tmp/tmpjob1/out.mp4"
  /\ snd r !! "/tmp/tmpjob1/out.mp4" = Some (FS.File 0).
Proof. vm_compute. split; reflexivity. Qed.

(** C5 (amended): [trim_video] raises when the command cannot be
    started, when it exits with a status other than 0 and when no file is
    at the output path afterwards; in every other case it returns the
    output path, whatever the size of the file. *)
Theorem trim_video_checks_existence_only
        (W : World) input output (start_time end_time : Q) (f : FS.fs) :
  match ffmpeg W (Proc.FfmpegTrimCopy input output start_time
                                      (end_time - start_time)) with
  | Proc.CannotStart msg =>
      fst (trim_video W input output start_time end_time f)
      = Py.Raise (Py.Exn Py.Exception ("Failed to trim video: " +:+ msg))
  | Proc.Runs r =>
      let f' := Proc.apply_writes (Proc.writes r) f in
      snd (trim_video W input output start_time end_time f) = f'
      /\ fst (trim_video W input output start_time end_time f)
         = if negb (Proc.returncode r =? 0)%Z
           then Py.Raise (Py.Exn Py.Exception
                            ("Failed to trim video: " +:+ Proc.stderr r))
           else if FS.exists_ f' output
                then Py.Return output
                else Py.Raise (Py.Exn Py.Exception
                       "Failed to trim video: Trimmed video file was not created")
  end.
Proof.
  unfold trim_video. run_monad.
  destruct (ffmpeg W _) as [msg | r]; simpl; [reflexivity |].
  destruct (Proc.returncode r =? 0)%Z; simpl; [| split; reflexivity].
  destruct (FS.exists_ _ output); split; reflexivity.
Qed.

Lemma apply_writes_not_dir (ws : list (string * N)) (f : FS.fs) (p : string) :
  f !! p <> Some FS.Dir -> Proc.apply_writes ws f !! p <> Some FS.Dir.
Proof.
  revert f. induction ws as [| [q n] ws IH]; intros f Hf; simpl; [exact Hf |].
  apply IH. destruct (decide (q = p)) as [-> | Hne].
  - rewrite lookup_insert_eq. discriminate.
  - rewrite lookup_insert_ne by exact Hne. exact Hf.
Qed.

Lemma write_file_not_dir (q : string) (n : N) (f : FS.fs) (p : string) :
  f !! p <> Some FS.Dir -> snd (FS.write_file q n f) !! p <> Some FS.Dir.
Proof.
  intros Hf. unfold FS.write_file.
  destruct (f !! q) as [[k |] |] eqn:E; cbn [snd]; try exact Hf;
    (destruct (FS.parent_exists f q); cbn [snd]; [| exact Hf];
     destruct (decide (q = p)) as [-> | Hne];
     [rewrite lookup_insert_eq; discriminate
     | rewrite lookup_insert_ne by exact Hne; exact Hf]).
Qed.

(** The optimized subtitle step always returns, and puts no directory
    anywhere. *)
Lemma optimized_subtitle_file_returns d temp_dir (s e : Q) (f : FS.fs) :
  exists sub f1,
    Subtitles.create_optimized_subtitle_file d temp_dir s e f = (Py.Return sub, f1)
    /\ forall p, f !! p <> Some FS.Dir -> f1 !! p <> Some FS.Dir.
Proof.
  unfold Subtitles.create_optimized_subtitle_file, Py.try_except.
  destruct (Subtitles.optimized_captions d s e) as [| c l].
  - exists None, f. split; [reflexivity | auto].
  - unfold Py.bind.
    set (q := FS.path_join temp_dir "optimized_subtitles.srt").
    set (n := N.of_nat (String.length (Subtitles.optimized_content d s e))).
    pose proof (write_file_not_dir q n f) as Hnd.
    destruct (FS.write_file q n f) as [[u | x] f1]; cbn [snd] in Hnd.
    + exists (Some q), f1. split; [reflexivity | exact Hnd].
    + exists None, f1. split; [reflexivity | exact Hnd].
Qed.

(** The [except subprocess.TimeoutExpired] block on a file system where
    the output path is not a directory. *)
Lemma timeout_handler_removes_output (output : string) (f : FS.fs) :
  f !! output <> Some FS.Dir ->
  exists f',
    (if FS.exists_ f output then FS.os_remove output else Py.ret tt) f
    = (Py.Return tt, f')
    /\ f' !! output = None.
Proof.
  intros Hf. unfold FS.exists_.
  destruct (f !! output) as [[n |] |] eqn:E.
  - unfold FS.os_remove. rewrite E.
    eexists; split; [reflexivity | apply lookup_delete_eq].
  - congruence.
  - eexists; split; [reflexivity | exact E].
Qed.

(** What a [try] whose handlers all re-raise [Exception] can raise. *)
Lemma try_except_wraps {S A} (body : Py.M S A) (handler : Py.exn -> Py.M S A) :
  (forall e s, Py.raised_class (fst (handler e s)) = Some Py.Exception) ->
  forall s, Py.raised_class (fst (Py.try_except body handler s)) = None
            \/ Py.raised_class (fst (Py.try_except body handler s))
               = Some Py.Exception.
Proof.
  intros Hh s. unfold Py.try_except.
  destruct (body s) as [[a | e] s']; simpl; [left; reflexivity |].
  right. apply Hh.
Qed.

(** C6, refuted on the two entry points of [utils.py]: the encoder needs
    1 000 000 seconds, far beyond the 1800 seconds that
    [trim_video_vertical_optimized] allows by default, and both wait for
    it and return its output. *)
Lemma trim_video_waits_without_limit :
  let W := Spec.encoder_world 1000000 ["/tmp/tmpjob1/out.mp4"] 2000000 1280 720 in
  fst (trim_video W "/tmp/tmpjob1/source.mp4" "/tmp/tmpjob1/out.mp4" 30 60
                  Spec.scratch_fs)
  = Py.Return "/tmp/tmpjob1/out.mp4"
  /\ fst (trim_video_vertical W "/tmp/tmpjob1/source.mp4" "/tmp/tmpjob1/out.mp4"
                              30 60 None false Spec.scratch_fs)
     = Py.Return "/tmp/tmpjob1/out.mp4".
Proof. vm_compute. split; reflexivity. Qed.

(** C6 (amended): [trim_video_vertical_optimized] runs its encode
    command, the one built with the subtitle file the subtitle step
    returned, under [processing_timeout]; when that command runs longer,
    no file is left at the output path and [ProcessingTimeoutError] is
    raised. [trim_video] and [trim_video_vertical] pass no timeout:
    whatever they raise is a plain [Exception]. *)
Theorem optimized_timeout_is_specific
        (W : World) input output (start_time end_time : Q)
        (transcript_data : option Transcript.Data) (add_subtitles : bool)
        (processing_timeout : N) (f : FS.fs) (width height : Z)
        (subtitle_file : option string) (f1 : FS.fs) (run : Proc.run) :
  usable_dimensions (video_dimensions W input) = Some (width, height) ->
  match wants_subtitles add_subtitles transcript_data with
  | Some d => Subtitles.create_optimized_subtitle_file
                d (FS.dirname output) start_time end_time
  | None => Py.ret None
  end f = (Py.Return subtitle_file, f1) ->
  ffmpeg W (optimized_vertical_command input output start_time end_time
                                       width height subtitle_file)
  = Proc.Runs run ->
  (processing_timeout < Proc.elapsed run)%N ->
  f !! output <> Some FS.Dir ->
  (let r := trim_video_vertical_optimized W input output start_time end_time
              transcript_data add_subtitles processing_timeout f in
   fst r = Py.Raise (Py.Exn Py.ProcessingTimeoutError
                       ("Video processing timed out after "
                        +:+ Str.digits processing_timeout +:+ " seconds"))
   /\ snd r !! output = None)
  /\ (forall W' f',
        let r := trim_video W' input output start_time end_time f' in
        Py.raised_class (fst r) = None
        \/ Py.raised_class (fst r) = Some Py.Exception)
  /\ (forall W' f',
        let r := trim_video_vertical W' input output start_time end_time
                   transcript_data add_subtitles f' in
        Py.raised_class (fst r) = None
        \/ Py.raised_class (fst r) = Some Py.Exception).
Proof.
  intros Hdim Hsub Hrun Hslow Hout. split; [| split].
  - assert (f1 !! output <> Some FS.Dir) as Hnd.
    { destruct (wants_subtitles add_subtitles transcript_data) as [d |].
      - destruct (optimized_subtitle_file_returns d (FS.dirname output)
                    start_time end_time f) as (sub' & f1' & E & Hnd).
        rewrite E in Hsub. injection Hsub as _ <-. apply Hnd. exact Hout.
      - injection Hsub as _ <-. exact Hout. }
    unfold trim_video_vertical_optimized. rewrite Hdim.
    unfold Py.try_except, Py.bind. cbv beta. rewrite Hsub.
    unfold Proc.subprocess_run. rewrite Hrun.
    unfold Proc.timed_out. apply N.ltb_lt in Hslow. rewrite Hslow.
    cbv beta iota zeta.
    unfold Py.exn_cls, Py.get. cbv beta iota.
    destruct (timeout_handler_removes_output output
                (Proc.apply_writes (Proc.writes run) f1)
                (apply_writes_not_dir _ _ _ Hnd)) as (f2 & Hrm & Hnone).
    rewrite Hrm. split; [reflexivity | exact Hnone].
  - intros W' f'. apply try_except_wraps.
    intros e s. destruct (Py.exn_cls e); reflexivity.
  - intros W' f'. apply try_except_wraps.
    intros e s. destruct (Py.exn_cls e); reflexivity.
Qed.

Lemma optimized_timeout_is_specific_witness :
  let r := trim_video_vertical_optimized
             (Spec.encoder_world 1000000 ["/tmp/tmpjob1/out.mp4"] 2000000 1280 720)
             "/tmp/tmpjob1/source.mp4" "/tmp/tmpjob1/out.mp4" 10 20
             (Some Spec.two_segments) true 1800 Spec.scratch_fs in
  fst r = Py.Raise (Py.Exn Py.ProcessingTimeoutError
                      ("Video processing timed out after "
                       +:+ Str.digits 1800 +:+ " seconds"))
  /\ snd r !! "/tmp/tmpjob1/out.mp4" = None.
Proof.
  refine (proj1 (optimized_timeout_is_specific
                   (Spec.encoder_world 1000000 ["/tmp/tmpjob1/out.mp4"] 2000000
                                       1280 720)
                   "/tmp/tmpjob1/source.mp4" "/tmp/tmpjob1/out.mp4" 10 20
                   (Some Spec.two_segments) true 1800 Spec.scratch_fs 1280 720
                   (Some "/tmp/tmpjob1/optimized_subtitles.srt")
                   (<["/tmp/tmpjob1/optimized_subtitles.srt" := FS.File 47]>
                      Spec.scratch_fs)
                   (Proc.mkRun 1000000 0 "" "" [("/tmp/tmpjob1/out.mp4", 2000000%N)])
                   _ _ _ _ _)).
  - reflexivity.
  - vm_compute. reflexivity.
  - reflexivity.
  - reflexivity.
  - vm_compute. discriminate.
Defined.

End TransformFacts.

(** ** Subtitle Formatter *)

Section SubtitleFacts.

Import Transcript Subtitles.

Lemma in_range_true start_time end_time s :
  in_range start_time end_time s = true ->
  (start_time <= get_end s)%Q /\ (get_start s <= end_time)%Q.
Proof.
  unfold in_range. intros H. apply andb_prop in H as [H1 H2].
  split; apply Qle_bool_iff; assumption.
Qed.

(** Every caption of the loop of [create_subtitle_file] is a clipped
    segment of the list. *)
Lemma subtitle_lines_clipped start_time end_time segments :
  forall subtitle_index c,
    In c (subtitle_lines start_time end_time subtitle_index segments) ->
    exists s, In s segments /\ Spec.clipped_from start_time end_time s c.
Proof.
  induction segments as [| s rest IH]; intros idx c Hc; simpl in Hc; [contradiction |].
  destruct (in_range start_time end_time s) eqn:Hr.
  - destruct (Py.truthy (Str.strip (get_text s))).
    + destruct Hc as [<- | Hc].
      * exists s. split; [left; reflexivity |].
        destruct (in_range_true _ _ _ Hr) as [H1 H2].
        repeat split; assumption.
      * destruct (IH _ _ Hc) as (s' & Hin & Hcl).
        exists s'. split; [right; exact Hin | exact Hcl].
    + destruct (IH _ _ Hc) as (s' & Hin & Hcl).
      exists s'. split; [right; exact Hin | exact Hcl].
  - destruct (IH _ _ Hc) as (s' & Hin & Hcl).
    exists s'. split; [right; exact Hin | exact Hcl].
Qed.

(** The same for the loop of [create_optimized_subtitle_file]. *)
Lemma optimized_lines_clipped start_time end_time segments :
  forall subtitle_index c,
    In c (optimized_lines start_time end_time subtitle_index segments) ->
    exists s, In s segments /\ Spec.clipped_from start_time end_time s c.
Proof.
  induction segments as [| s rest IH]; intros idx c Hc; simpl in Hc; [contradiction |].
  destruct (in_range start_time end_time s) eqn:Hr.
  - destruct (Py.truthy (Str.strip (get_text s))
              && (3 <? String.length (Str.strip (get_text s)))%nat).
    + destruct Hc as [<- | Hc].
      * exists s. split; [left; reflexivity |].
        destruct (in_range_true _ _ _ Hr) as [H1 H2].
        repeat split; assumption.
      * destruct (IH _ _ Hc) as (s' & Hin & Hcl).
        exists s'. split; [right; exact Hin | exact Hcl].
    + destruct (IH _ _ Hc) as (s' & Hin & Hcl).
      exists s'. split; [right; exact Hin | exact Hcl].
  - destruct (IH _ _ Hc) as (s' & Hin & Hcl).
    exists s'. split; [right; exact Hin | exact Hcl].
Qed.

(** The bounds of a clipped segment. *)
Lemma clipped_bounds start_time end_time s c :
  (start_time <= end_time)%Q ->
  (get_start s <= get_end s)%Q ->
  Spec.clipped_from start_time end_time s c ->
  (0 <= adjusted_start c)%Q
  /\ (adjusted_start c <= adjusted_end c)%Q
  /\ (adjusted_end c <= end_time - start_time)%Q.
Proof.
  intros Hw Hs (H1 & H2 & -> & ->).
  destruct (Q.max_spec 0 (get_start s - start_time)) as [[Ha ->] | [Ha ->]];
    destruct (Q.min_spec (end_time - start_time) (get_end s - start_time))
      as [[Hb ->] | [Hb ->]];
    repeat split; lra.
Qed.

Lemma clipped_strict start_time end_time s c :
  (start_time < end_time)%Q ->
  (get_start s < get_end s)%Q ->
  (get_start s < end_time)%Q ->
  (start_time < get_end s)%Q ->
  Spec.clipped_from start_time end_time s c ->
  (adjusted_start c < adjusted_end c)%Q.
Proof.
  intros Hw Hs Hb He (H1 & H2 & -> & ->).
  destruct (Q.max_spec 0 (get_start s - start_time)) as [[Ha ->] | [Ha ->]];
    destruct (Q.min_spec (end_time - start_time) (get_end s - start_time))
      as [[Hc ->] | [Hc ->]];
    lra.
Qed.

(** C4, refuted: a segment that ends at the very second the window
    [10, 20] starts is kept by both formatters, as a caption from 0 to 0. *)
Lemma caption_on_window_edge_is_empty :
  exists c,
    captions Spec.edge_transcript 10 20 = [c]
    /\ optimized_captions Spec.edge_transcript 10 20 = [c]
    /\ ~ (adjusted_start c < adjusted_end c)%Q.
Proof.
  exists (mkCaption 1 0 (10 + - (10)) "Welcome back").
  split; [vm_compute; reflexivity |].
  split; [vm_compute; reflexivity |].
  simpl. intros H. revert H. apply Qle_not_lt. discriminate.
Qed.

(** C4 (amended): for a window with [start <= end] and a non-empty
    segment list whose segments have [start <= end], every caption either
    formatter emits is a segment of the list that reaches into the window
    (segments that end before it or start after it are left out), clipped
    to the window and re-based so that the window start is zero, with
    [0 <= adjusted_start <= adjusted_end <= end - start]; the middle
    inequality is strict when the window has a length and the segment has
    a length and overlaps it by more than a point. *)
Theorem captions_clipped_to_window
        (transcript_data : Data) (start_time end_time : Q)
        (segments : list Segment) (c : Caption) :
  td_segments transcript_data = Some segments ->
  segments <> [] ->
  (start_time <= end_time)%Q ->
  Forall (fun s => (get_start s <= get_end s)%Q) segments ->
  In c (captions transcript_data start_time end_time)
  \/ In c (optimized_captions transcript_data start_time end_time) ->
  exists s,
    In s segments
    /\ Spec.clipped_from start_time end_time s c
    /\ (0 <= adjusted_start c)%Q
    /\ (adjusted_start c <= adjusted_end c)%Q
    /\ (adjusted_end c <= end_time - start_time)%Q
    /\ ((start_time < end_time)%Q ->
        (get_start s < get_end s)%Q ->
        (get_start s < end_time)%Q ->
        (start_time < get_end s)%Q ->
        (adjusted_start c < adjusted_end c)%Q).
Proof.
  intros Hsegs Hne Hw Hall Hc.
  assert (exists s, In s segments /\ Spec.clipped_from start_time end_time s c)
    as (s & Hin & Hcl).
  { unfold captions, optimized_captions in Hc. rewrite Hsegs in Hc. simpl in Hc.
    destruct segments as [| s0 rest]; [congruence |].
    destruct Hc as [Hc | Hc].
    - apply (subtitle_lines_clipped start_time end_time (s0 :: rest) 1%nat c).
      exact Hc.
    - apply (optimized_lines_clipped start_time end_time (s0 :: rest) 1%nat c).
      exact Hc. }
  exists s. split; [exact Hin |]. split; [exact Hcl |].
  assert (get_start s <= get_end s)%Q as Hs.
  { rewrite Forall_forall in Hall. apply Hall.
    apply list_elem_of_In. exact Hin. }
  destruct (clipped_bounds _ _ _ _ Hw Hs Hcl) as (B1 & B2 & B3).
  repeat split; try assumption.
  intros Hw' Hs' Hb He. exact (clipped_strict _ _ _ _ Hw' Hs' Hb He Hcl).
Qed.

Lemma captions_clipped_to_window_witness :
  exists s,
    In s [mkSegment (Some 0%Q) (Some 4%Q) (Some "Welcome back.");
          mkSegment (Some 12%Q) (Some 15%Q) (Some " Today we cook.")]
    /\ Spec.clipped_from 10 20 s (mkCaption 1 (12 + - (10)) (15 + - (10)) "Today we cook.")
    /\ (0 <= 12 + - (10))%Q.
Proof.
  destruct (captions_clipped_to_window Spec.two_segments 10 20
              [mkSegment (Some 0%Q) (Some 4%Q) (Some "Welcome back.");
               mkSegment (Some 12%Q) (Some 15%Q) (Some " Today we cook.")]
              (mkCaption 1 (12 + - (10)) (15 + - (10)) "Today we cook."))
    as (s & Hin & Hcl & H0 & _).
  - reflexivity.
  - discriminate.
  - discriminate.
  - repeat constructor; discriminate.
  - left. vm_compute. left. reflexivity.
  - exists s. repeat split; try assumption; apply Hcl.
Defined.

End SubtitleFacts.

(** ** Hook Analyzer *)

Section HookFacts.

Import Hooks.

Variable json_loads : string -> option json.
Variable py_repr : json -> string.
Variable int_of_str : string -> option Z.

Lemma substring_length (n m : nat) (s : string) :
  (String.length (String.substring n m s) <= m)%nat.
Proof.
  revert n m. induction s as [| a s IH]; intros n m; simpl.
  - destruct n, m; simpl; lia.
  - destruct n as [| n].
    + destruct m as [| m]; simpl; [lia |]. specialize (IH 0%nat m). lia.
    + apply IH.
Qed.

Lemma slice_to_length (n : nat) (s : string) :
  (String.length (Str.slice_to n s) <= n)%nat.
Proof. apply substring_length. Qed.

Lemma validate_hook_bounded hook h :
  validate_hook py_repr int_of_str hook = Py.Return (Some h) -> Spec.bounded_hook h.
Proof.
  unfold validate_hook. destruct hook; try discriminate.
  destruct (lookup "start" members), (lookup "end" members),
    (lookup "title" members); try discriminate.
  destruct (py_int int_of_str j); try discriminate.
  destruct (py_int int_of_str j0); try discriminate.
  intros [= <-]. split; apply slice_to_length.
Qed.

Lemma validated_hooks_bounded items :
  forall hs, validated_hooks py_repr int_of_str items = Py.Return hs ->
             Forall Spec.bounded_hook hs.
Proof.
  induction items as [| hook rest IH]; simpl; intros hs H.
  - injection H as <-. constructor.
  - destruct (validate_hook py_repr int_of_str hook) as [h |] eqn:Hh;
      [| discriminate].
    destruct (validated_hooks py_repr int_of_str rest) as [hs' |];
      [| discriminate].
    injection H as <-. specialize (IH hs' eq_refl).
    destruct h as [h |]; [| exact IH].
    constructor; [exact (validate_hook_bounded _ _ Hh) | exact IH].
Qed.

Lemma parse_hooks_bounded result_text hooks :
  parse_hooks json_loads py_repr int_of_str result_text = Py.Return hooks ->
  (length hooks <= 5)%nat /\ Forall Spec.bounded_hook hooks.
Proof.
  unfold parse_hooks.
  destruct (json_loads (json_text result_text)) as [v |]; [| discriminate].
  destruct (iterate v) as [items |]; [| discriminate].
  destruct (validated_hooks py_repr int_of_str items) as [hs |] eqn:Hv;
    [| discriminate].
  intros [= <-]. split.
  - rewrite length_take. lia.
  - apply Forall_take. exact (validated_hooks_bounded _ _ Hv).
Qed.

Lemma validate_hook_from_entry hook h :
  validate_hook py_repr int_of_str hook = Py.Return (Some h) ->
  exists members,
    hook = JObj members /\ Spec.hook_from_entry py_repr int_of_str members h.
Proof.
  unfold validate_hook. destruct hook; try discriminate.
  destruct (lookup "start" members) as [s |] eqn:Es; [| discriminate].
  destruct (lookup "end" members) as [e |] eqn:Ee; [| discriminate].
  destruct (lookup "title" members) as [t |] eqn:Et; [| discriminate].
  destruct (py_int int_of_str s) as [start |] eqn:Ps; [| discriminate].
  destruct (py_int int_of_str e) as [end_ |] eqn:Pe; [| discriminate].
  intros [= <-]. exists members. split; [reflexivity |].
  exists s, e, t. cbn [Jobs.hook_start Jobs.hook_end Jobs.hook_title Jobs.hook_reason].
  repeat split; assumption || reflexivity.
Qed.

Lemma validated_hooks_from_entries items :
  forall hs, validated_hooks py_repr int_of_str items = Py.Return hs ->
             Forall (fun h => exists members,
                         In (JObj members) items
                         /\ Spec.hook_from_entry py_repr int_of_str members h) hs.
Proof.
  induction items as [| hook rest IH]; simpl; intros hs H.
  - injection H as <-. constructor.
  - destruct (validate_hook py_repr int_of_str hook) as [h |] eqn:Hh;
      [| discriminate].
    destruct (validated_hooks py_repr int_of_str rest) as [hs' |];
      [| discriminate].
    injection H as <-. specialize (IH hs' eq_refl).
    assert (Forall (fun h0 => exists members,
                        (hook = JObj members \/ In (JObj members) rest)
                        /\ Spec.hook_from_entry py_repr int_of_str members h0) hs')
      as IH'.
    { eapply Forall_impl; [exact IH |]. cbn. intros h0 (m & Hin & Hm).
      exists m. split; [right; exact Hin | exact Hm]. }
    destruct h as [h |]; [| exact IH'].
    constructor; [| exact IH'].
    destruct (validate_hook_from_entry _ _ Hh) as (m & -> & Hm).
    exists m. split; [left; reflexivity | exact Hm].
Qed.

Lemma parse_hooks_from_entries result_text hooks :
  parse_hooks json_loads py_repr int_of_str result_text = Py.Return hooks ->
  exists v items,
    json_loads (json_text result_text) = Some v
    /\ iterate v = Py.Return items
    /\ Forall (fun h => exists members,
                   In (JObj members) items
                   /\ Spec.hook_from_entry py_repr int_of_str members h) hooks.
Proof.
  unfold parse_hooks.
  destruct (json_loads (json_text result_text)) as [v |]; [| discriminate].
  destruct (iterate v) as [items |] eqn:Hi; [| discriminate].
  destruct (validated_hooks py_repr int_of_str items) as [hs |] eqn:Hv;
    [| discriminate].
  intros [= <-]. exists v, items. split; [reflexivity |]. split; [exact Hi |].
  apply Forall_take. exact (validated_hooks_from_entries _ _ Hv).
Qed.

(** C3 (amended): whatever the model answered, the hooks either analyzer
    returns are at most 5, each with a title of at most 100 characters
    and a reason of at most 200; each of them is an entry of the answer's
    JSON document, with [start] and [end] the integers [int()] converts
    the entry's values to, in no particular order. *)
Theorem analyzer_output_is_bounded
        (api_key : bool) (response : Py.outcome string) (hooks : list Jobs.Hook) :
  _analyze_with_openai json_loads py_repr int_of_str api_key response
  = Py.Return hooks
  \/ _analyze_with_anthropic json_loads py_repr int_of_str api_key response
     = Py.Return hooks ->
  (length hooks <= 5)%nat
  /\ Forall (fun h => (String.length (Jobs.hook_title h) <= 100)%nat
                      /\ (String.length (Jobs.hook_reason h) <= 200)%nat)
            hooks
  /\ exists result_text document items,
       response = Py.Return result_text
       /\ json_loads (json_text result_text) = Some document
       /\ iterate document = Py.Return items
       /\ Forall (fun h => exists members,
                      In (JObj members) items
                      /\ Spec.hook_from_entry py_repr int_of_str members h)
                 hooks.
Proof.
  unfold _analyze_with_openai, _analyze_with_anthropic.
  destruct api_key; simpl; [| intros [H | H]; discriminate H].
  destruct response as [result_text | e]; [| intros [H | H]; discriminate H].
  intros H.
  assert (parse_hooks json_loads py_repr int_of_str result_text = Py.Return hooks)
    as H' by (destruct H as [H | H]; exact H).
  destruct (parse_hooks_bounded _ _ H') as [Hlen Hb].
  destruct (parse_hooks_from_entries _ _ H') as (v & items & Hj & Hi & Hall).
  split; [exact Hlen |]. split; [exact Hb |].
  exists result_text, v, items. repeat split; assumption.
Qed.

End HookFacts.

(** C3, refuted: the answer holds one hook with start 50 and end 10; the
    analyzer returns it as it is. *)
Lemma analyzer_returns_backwards_hook :
  Hooks._analyze_with_openai
    (Spec.one_document Spec.backwards_text Spec.backwards_parsed)
    (fun _ => "") (fun _ => None) true (Py.Return Spec.backwards_answer)
  = Py.Return [Jobs.mkHook 50 10 "Big reveal" ""]
  /\ ~ (50 < 10)%Z.
Proof. split; [vm_compute; reflexivity | lia]. Qed.

Lemma analyzer_output_is_bounded_witness :
  (length [Jobs.mkHook 50 10 "Big reveal" ""] <= 5)%nat
  /\ Forall (fun h => (String.length (Jobs.hook_title h) <= 100)%nat
                      /\ (String.length (Jobs.hook_reason h) <= 200)%nat)
            [Jobs.mkHook 50 10 "Big reveal" ""]
  /\ exists result_text document items,
       Py.Return Spec.backwards_answer = Py.Return result_text
       /\ Spec.one_document Spec.backwards_text Spec.backwards_parsed
            (Hooks.json_text result_text) = Some document
       /\ Hooks.iterate document = Py.Return items
       /\ Forall (fun h => exists members,
                      In (Hooks.JObj members) items
                      /\ Spec.hook_from_entry (fun _ => "") (fun _ => None)
                                              members h)
                 [Jobs.mkHook 50 10 "Big reveal" ""].
Proof.
  apply (analyzer_output_is_bounded
           (Spec.one_document Spec.backwards_text Spec.backwards_parsed)
           (fun _ => "") (fun _ => None) true (Py.Return Spec.backwards_answer)).
  left. vm_compute. reflexivity.
Defined.

(** ** Transcriber: strategic sampling *)

Section SamplingFacts.

Import Transcript Transcribe.

Lemma Qle_bool_false (a b : Q) : (b < a)%Q -> Qle_bool a b = false.
Proof.
  intros H. destruct (Qle_bool a b) eqn:E; [| reflexivity].
  apply Qle_bool_iff in E. lra.
Qed.

Lemma Qmin_left (a b : Q) : (a < b)%Q -> Qmin a b = a.
Proof.
  intros H. unfold Qmin, GenericMinMax.gmin.
  rewrite (proj1 (Qlt_alt a b) H). reflexivity.
Qed.

Lemma apply_writes_keeps_file ws (f : FS.fs) (p : string) :
  Spec.is_file f p -> Spec.is_file (Proc.apply_writes ws f) p.
Proof.
  revert f. induction ws as [| [q n] ws IH]; intros f H; simpl; [exact H |].
  apply IH. destruct (decide (q = p)) as [-> | Hne].
  - exists n. apply lookup_insert_eq.
  - destruct H as [k Hk]. exists k. rewrite lookup_insert_ne by exact Hne. exact Hk.
Qed.

Lemma apply_writes_written ws (f : FS.fs) (p : string) (k : N) :
  In (p, k) ws -> Spec.is_file (Proc.apply_writes ws f) p.
Proof.
  revert f. induction ws as [| [q n] ws IH]; intros f H; simpl; [contradiction |].
  destruct H as [[= -> ->] | H].
  - apply apply_writes_keeps_file. exists k. apply lookup_insert_eq.
  - apply IH. exact H.
Qed.

(** The windows of a source longer than ten minutes. *)
Lemma segments_to_sample_long (d : Q) :
  (600 < d)%Q ->
  segments_to_sample d
  = [ (0%Q, 120%Q);
      middle_window d (3 # 10);
      middle_window d (5 # 10);
      middle_window d (7 # 10);
      (Qmax (Float.sub d 120) (Float.mul d (Float.round (8 # 10))), d) ].
Proof.
  intros H. unfold segments_to_sample.
  rewrite (Qle_bool_false d 600) by exact H.
  rewrite (Qle_bool_false d 300) by lra.
  rewrite (Qmin_left 120 d) by lra.
  reflexivity.
Qed.

(** A middle window starts at its share of the duration, to within the
    rounding of the factor and of the product. *)
Lemma middle_start_near (d factor : Q) :
  (600 < d)%Q ->
  (1 # 4 <= Float.round factor)%Q -> (Float.round factor <= 1)%Q ->
  Spec.near (Float.round factor) factor (1 # 2 ^ 54) ->
  Spec.near (fst (middle_window d factor)) (d * factor) (d * (1 # 2 ^ 52)).
Proof.
  unfold Spec.near, middle_window, Float.mul. cbn [fst].
  set (c := Float.round factor). intros Hd Hc1 Hc2 Hc.
  pose proof (round_error (d * c) ltac:(nra)) as He.
  apply Qabs_Qle_condition in Hc, He. apply Qabs_Qle_condition.
  change (1 # 2 ^ 54)%Q with (1 # 18014398509481984)%Q in Hc.
  change (1 # 2 ^ 53)%Q with (1 # 9007199254740992)%Q in He.
  change (1 # 2 ^ 52)%Q with (1 # 4503599627370496)%Q.
  set (m := Float.round (d * c)) in *.
  destruct Hc as [Hc3 Hc4]. destruct He as [He1 He2].
  split; nra.
Qed.

Lemma factor_near (k : positive) :
  k = 3%positive \/ k = 5%positive \/ k = 7%positive ->
  (1 # 4 <= Float.round (Z.pos k # 10))%Q
  /\ (Float.round (Z.pos k # 10) <= 1)%Q
  /\ Spec.near (Float.round (Z.pos k # 10)) (Z.pos k # 10) (1 # 2 ^ 54).
Proof.
  unfold Spec.near.
  intros [-> | [-> | ->]]; (split; [| split]); apply Qle_bool_iff; vm_compute;
    reflexivity.
Qed.

Lemma delete_not_dir (f : FS.fs) (p q : string) :
  f !! p <> Some FS.Dir -> delete q f !! p <> Some FS.Dir.
Proof.
  intros H. destruct (decide (q = p)) as [-> | Hne].
  - rewrite lookup_delete_eq. discriminate.
  - rewrite lookup_delete_ne by exact Hne. exact H.
Qed.

Lemma insert_file_not_dir (f : FS.fs) (p q : string) (n : N) :
  f !! p <> Some FS.Dir -> <[q := FS.File n]> f !! p <> Some FS.Dir.
Proof.
  intros H. destruct (decide (q = p)) as [-> | Hne].
  - rewrite lookup_insert_eq. discriminate.
  - rewrite lookup_insert_ne by exact Hne. exact H.
Qed.

Lemma apply_writes_keeps_no_directory kind ws (f : FS.fs) :
  Spec.no_directory_at kind f ->
  Spec.no_directory_at kind (Proc.apply_writes ws f).
Proof.
  revert f. induction ws as [| [q n] ws IH]; intros f H; simpl; [exact H |].
  apply IH. intros p Hp. apply insert_file_not_dir. exact (H p Hp).
Qed.

(** [os.remove] leaves no directory where there was none, and cannot
    raise on a path that exists and is not a directory. *)
Lemma os_remove_keeps_no_directory kind (p : string) (f : FS.fs) :
  Spec.no_directory_at kind f ->
  Spec.no_directory_at kind (snd (FS.os_remove p f)).
Proof.
  intros H. unfold FS.os_remove.
  destruct (f !! p) as [[n |] |]; simpl; try exact H.
  intros q Hq. apply delete_not_dir. exact (H q Hq).
Qed.

Lemma tidy_returns kind (p : string) (f : FS.fs) :
  kind p ->
  Spec.no_directory_at kind f ->
  exists f',
    (Py.bind Py.get
       (fun f0 : FS.fs => if FS.exists_ f0 p then FS.os_remove p else Py.ret tt)) f
    = (Py.Return tt, f')
    /\ Spec.no_directory_at kind f'.
Proof.
  intros Hp H. unfold Py.bind, Py.get, FS.exists_.
  destruct (f !! p) as [[n |] |] eqn:E.
  - unfold FS.os_remove. rewrite E. eexists. split; [reflexivity |].
    intros q Hq. apply delete_not_dir. exact (H q Hq).
  - exfalso. exact (H p Hp E).
  - eexists. split; [reflexivity | exact H].
Qed.

(** With the tool installed and no directory in the way, the sampling
    loop comes to its end. *)
Lemma sample_loop_returns (W : World) (audio_path temp_dir : string) :
  Spec.tool_installed W ->
  forall windows i f,
    Spec.no_directory_at (Spec.sample_path temp_dir) f ->
    exists r f', sample_loop W audio_path temp_dir i windows f = (Py.Return r, f').
Proof.
  intros Htool windows.
  induction windows as [| [start_time end_time] rest IH]; intros i f Hf.
  - eexists; eexists; reflexivity.
  - cbn [sample_loop].
    set (p := FS.path_join temp_dir ("segment_" +:+ Str.of_Z (Z.of_nat i) +:+ ".wav")).
    assert (Spec.sample_path temp_dir p) as Hp by (exists i; reflexivity).
    destruct (Htool (Proc.FfmpegSample audio_path p start_time
                                       (Float.sub end_time start_time))) as [r Hr].
    unfold Py.bind at 1. unfold Proc.subprocess_run. rewrite Hr.
    cbn [Proc.timed_out andb]. cbv beta iota zeta.
    pose proof (apply_writes_keeps_no_directory _ (Proc.writes r) f Hf) as Hf1.
    set (f1 := Proc.apply_writes (Proc.writes r) f) in *.
    unfold Py.bind at 1.
    assert (exists here f2,
               (if negb (Proc.cp_returncode
                           (Proc.mkCompleted (Proc.returncode r) (Proc.stdout r)
                                             (Proc.stderr r)) =? 0)%Z
                then Py.ret ([], [])
                else
                  Py.bind (Py.attempt (transcribe_file W p))
                    (fun o =>
                       match o with
                       | Py.Raise _ =>
                           Py.bind
                             (Py.bind Py.get
                                (fun f0 : FS.fs =>
                                   if FS.exists_ f0 p then FS.os_remove p
                                   else Py.ret tt))
                             (fun _ => Py.ret ([], []))
                       | Py.Return t =>
                           Py.bind (Py.attempt (FS.os_remove p))
                             (fun o' =>
                                match o' with
                                | Py.Return _ =>
                                    Py.ret
                                      (["[Segment " +:+ fmt_0f start_time +:+ "s-"
                                        +:+ fmt_0f end_time +:+ "s] " +:+ w_text t],
                                       rebased start_time t)
                                | Py.Raise _ =>
                                    Py.bind
                                      (Py.bind Py.get
                                         (fun f0 : FS.fs =>
                                            if FS.exists_ f0 p then FS.os_remove p
                                            else Py.ret tt))
                                      (fun _ =>
                                         Py.ret
                                           (["[Segment " +:+ fmt_0f start_time
                                             +:+ "s-" +:+ fmt_0f end_time +:+ "s] "
                                             +:+ w_text t],
                                            rebased start_time t))
                                end)
                       end)) f1
               = (Py.Return here, f2)
               /\ Spec.no_directory_at (Spec.sample_path temp_dir) f2)
      as (here & f2 & Hhere & Hf2).
    { destruct (negb _).
      - eexists; eexists; split; [reflexivity | exact Hf1].
      - unfold Py.bind at 1, Py.attempt at 1.
        assert (snd (transcribe_file W p f1) = f1) as Hsame.
        { unfold transcribe_file. destruct (f1 !! p) as [[n |] |]; reflexivity. }
        destruct (transcribe_file W p f1) as [[t | e] f1'] eqn:Ht;
          simpl in Hsame; subst f1'.
        + unfold Py.bind at 1, Py.attempt at 1.
          pose proof (os_remove_keeps_no_directory _ p f1 Hf1) as Hrm.
          destruct (FS.os_remove p f1) as [[u | e] f1'']; simpl in Hrm.
          * eexists; eexists; split; [reflexivity | exact Hrm].
          * destruct (tidy_returns _ p f1'' Hp Hrm) as (f3 & Htidy & Hf3).
            unfold Py.bind at 1. rewrite Htidy.
            eexists; eexists; split; [reflexivity | exact Hf3].
        + destruct (tidy_returns _ p f1 Hp Hf1) as (f3 & Htidy & Hf3).
          unfold Py.bind at 1. rewrite Htidy.
          eexists; eexists; split; [reflexivity | exact Hf3]. }
    rewrite Hhere.
    destruct (IH (S i) f2 Hf2) as (r' & f3 & Hrest).
    unfold Py.bind. rewrite Hrest.
    eexists; eexists; reflexivity.
Qed.

(** When every window is extracted and transcribed, the loop gathers
    the labelled texts and the shifted segments of the windows. *)
Lemma sample_loop_extracts (W : World) (audio_path temp_dir : string)
      (t_of : nat -> Whisper) :
  forall windows i f,
    (forall j w, windows !! j = Some w ->
                 Spec.window_extracted W audio_path temp_dir (i + j) w (t_of (i + j)%nat)) ->
    exists f',
      sample_loop W audio_path temp_dir i windows f
      = (Py.Return (Spec.sampled_texts i windows t_of,
                    Spec.sampled_segments i windows t_of), f').
Proof.
  induction windows as [| [start_time end_time] rest IH]; intros i f H.
  - eexists; reflexivity.
  - destruct (H 0%nat (start_time, end_time) eq_refl) as (r & Hr & Hrc & [k Hk] & Hw).
    rewrite Nat.add_0_r in Hr, Hk, Hw. cbn [fst snd] in Hr.
    cbn [sample_loop Spec.sampled_texts Spec.sampled_segments fst snd].
    fold (Spec.sample_file temp_dir i).
    set (p := Spec.sample_file temp_dir i) in *.
    unfold Py.bind at 1. unfold Proc.subprocess_run. rewrite Hr.
    cbn [Proc.timed_out andb]. cbv beta iota zeta.
    cbn [Proc.cp_returncode]. rewrite Hrc. cbn [Z.eqb negb].
    destruct (apply_writes_written (Proc.writes r) f p k Hk) as [n Hn].
    set (f1 := Proc.apply_writes (Proc.writes r) f) in *.
    unfold Py.bind at 1. unfold Py.bind at 1. unfold Py.attempt at 1.
    unfold transcribe_file at 1. rewrite Hn, Hw.
    unfold Py.bind at 1. unfold Py.attempt at 1.
    unfold FS.os_remove at 1. rewrite Hn.
    unfold Py.ret at 1.
    destruct (IH (S i) (delete p f1)) as (f' & Hrest).
    { intros j w Hj. rewrite Nat.add_succ_l, <- Nat.add_succ_r.
      apply (H (S j) w). exact Hj. }
    unfold Py.bind. rewrite Hrest. exists f'. reflexivity.
Qed.

(** C8: a hook-detection transcription of a source longer than 600
    seconds goes through the sampler. Its windows are an opening window
    of two minutes, three windows of one minute whose starts are at 30,
    50 and 70 percent of the duration, hence a fifth of the duration
    apart (all to within the rounding of floats), and a closing window.
    What it returns is tagged [sampled]. When the tool extracts every
    window and the speech service answers for every window file, what
    comes back is the transcript of the windows alone, whatever the
    service would say of the whole recording; and with the tool
    installed and no directory in the way of the window files it does
    return. *)
Theorem long_hook_transcription_is_sampled
        (W : World) (audio_path : string) (d : Q) (t_of : nat -> Whisper)
        (f : FS.fs) :
  openai_api_key W = true ->
  is_Some (f !! audio_path) ->
  video_duration W audio_path = Some d ->
  (600 < d)%Q ->
  (exists m3 m5 m7 closing : Q,
      segments_to_sample d
      = [ (0%Q, 120%Q); (m3, Float.add m3 60); (m5, Float.add m5 60);
          (m7, Float.add m7 60); (closing, d) ]
      /\ Spec.near m3 (d * (3 # 10)) (d * (1 # 2 ^ 52))
      /\ Spec.near m5 (d * (5 # 10)) (d * (1 # 2 ^ 52))
      /\ Spec.near m7 (d * (7 # 10)) (d * (1 # 2 ^ 52))
      /\ Spec.near (m5 - m3) (d * (1 # 5)) (d * (1 # 2 ^ 51))
      /\ Spec.near (m7 - m5) (d * (1 # 5)) (d * (1 # 2 ^ 51))
      /\ closing = Qmax (Float.sub d 120) (Float.mul d (Float.round (8 # 10))))
  /\ transcribe_audio_with_openai W audio_path true f
     = Py.try_except
         (transcribe_sampled_segments_for_hooks W audio_path d)
         (fun e => Py.raise (Py.Exn Py.Exception
                               ("Failed to transcribe audio: " +:+ Py.exn_str e)))
         f
  /\ (forall data f',
        transcribe_audio_with_openai W audio_path true f = (Py.Return data, f') ->
        td_sampled data = true)
  /\ ((forall i w,
         segments_to_sample d !! i = Some w ->
         Spec.window_extracted W audio_path (FS.dirname audio_path) i w (t_of i)) ->
      exists f',
        transcribe_audio_with_openai W audio_path true f
        = (Py.Return (Spec.sampled_transcript (segments_to_sample d) t_of), f'))
  /\ (Spec.tool_installed W ->
      Spec.no_directory_at (Spec.sample_path (FS.dirname audio_path)) f ->
      exists data f',
        transcribe_audio_with_openai W audio_path true f = (Py.Return data, f')
        /\ td_sampled data = true).
Proof.
  intros Hkey [node Hnode] Hdur Hlong.
  assert (transcribe_audio_with_openai W audio_path true f
          = Py.try_except
              (transcribe_sampled_segments_for_hooks W audio_path d)
              (fun e => Py.raise (Py.Exn Py.Exception
                                    ("Failed to transcribe audio: "
                                     +:+ Py.exn_str e)))
              f) as Heq.
  { unfold transcribe_audio_with_openai. rewrite Hkey. cbn [negb].
    unfold Py.try_except. unfold Py.bind at 1. unfold FS.getsize.
    rewrite Hnode, Hdur.
    rewrite (Qle_bool_false d 600) by exact Hlong. cbn [andb negb].
    destruct node; reflexivity. }
  assert (forall o f',
             transcribe_sampled_segments_for_hooks W audio_path d f = (o, f') ->
             match o with
             | Py.Return data => td_sampled data = true
             | Py.Raise _ => True
             end) as Htag.
  { intros o f'. unfold transcribe_sampled_segments_for_hooks.
    unfold Py.try_except, Py.bind.
    destruct (sample_loop W audio_path (FS.dirname audio_path) 0
                          (segments_to_sample d) f) as [[r | e] f1].
    - intros [= <- <-]. reflexivity.
    - intros [= <- <-]. exact I. }
  split.
  { exists (fst (middle_window d (3 # 10))), (fst (middle_window d (5 # 10))),
      (fst (middle_window d (7 # 10))),
      (Qmax (Float.sub d 120) (Float.mul d (Float.round (8 # 10)))).
    destruct (factor_near 3 ltac:(auto)) as (A3 & B3 & C3).
    destruct (factor_near 5 ltac:(auto)) as (A5 & B5 & C5).
    destruct (factor_near 7 ltac:(auto)) as (A7 & B7 & C7).
    pose proof (middle_start_near d (3 # 10) Hlong A3 B3 C3) as N3.
    pose proof (middle_start_near d (5 # 10) Hlong A5 B5 C5) as N5.
    pose proof (middle_start_near d (7 # 10) Hlong A7 B7 C7) as N7.
    split; [exact (segments_to_sample_long d Hlong) |].
    split; [exact N3 |]. split; [exact N5 |]. split; [exact N7 |].
    split; [| split; [| reflexivity]].
    - unfold Spec.near in *.
      apply Qabs_Qle_condition in N3, N5. apply Qabs_Qle_condition.
      change (1 # 2 ^ 52)%Q with (1 # 4503599627370496)%Q in N3, N5.
      change (1 # 2 ^ 51)%Q with (1 # 2251799813685248)%Q.
      set (m3 := fst (middle_window d (3 # 10))) in *.
      set (m5 := fst (middle_window d (5 # 10))) in *.
      split; lra.
    - unfold Spec.near in *.
      apply Qabs_Qle_condition in N5, N7. apply Qabs_Qle_condition.
      change (1 # 2 ^ 52)%Q with (1 # 4503599627370496)%Q in N5, N7.
      change (1 # 2 ^ 51)%Q with (1 # 2251799813685248)%Q.
      set (m5 := fst (middle_window d (5 # 10))) in *.
      set (m7 := fst (middle_window d (7 # 10))) in *.
      split; lra. }
  split; [exact Heq |].
  split; [| split].
  - intros data f' Hret. rewrite Heq in Hret. unfold Py.try_except in Hret.
    destruct (transcribe_sampled_segments_for_hooks W audio_path d f)
      as [[data' | e] f1] eqn:Hs.
    + injection Hret as <- <-. exact (Htag _ _ eq_refl).
    + discriminate Hret.
  - intros Hwin. rewrite Heq. unfold Py.try_except.
    destruct (sample_loop_extracts W audio_path (FS.dirname audio_path) t_of
                (segments_to_sample d) 0%nat f Hwin) as (f1 & Hloop).
    unfold transcribe_sampled_segments_for_hooks, Py.try_except, Py.bind.
    rewrite Hloop. exists f1. reflexivity.
  - intros Htool Hdirs. rewrite Heq. unfold Py.try_except.
    destruct (sample_loop_returns W audio_path (FS.dirname audio_path) Htool
                (segments_to_sample d) 0%nat f Hdirs) as (r & f1 & Hloop).
    unfold transcribe_sampled_segments_for_hooks, Py.try_except, Py.bind.
    rewrite Hloop. eexists; eexists; split; reflexivity.
Qed.

Lemma long_hook_transcription_is_sampled_witness :
  exists f',
    transcribe_audio_with_openai Spec.sampling_world
      "/tmp/tmpjob1/audio_for_transcription.wav" true Spec.audio_fs
    = (Py.Return
         (Spec.sampled_transcript
            (segments_to_sample 1200)
            (fun _ => mkWhisper "You will not believe this"
                        (Some [(0%Q, 4%Q, "You will not believe this")]))), f').
Proof.
  refine (proj1 (proj2 (proj2 (proj2
            (long_hook_transcription_is_sampled Spec.sampling_world
               "/tmp/tmpjob1/audio_for_transcription.wav" 1200
               (fun _ => mkWhisper "You will not believe this"
                           (Some [(0%Q, 4%Q, "You will not believe this")]))
               Spec.audio_fs _ _ _ _)))) _).
  - reflexivity.
  - eexists. vm_compute. reflexivity.
  - reflexivity.
  - reflexivity.
  - intros i w Hi.
    do 5 (destruct i as [| i];
          [injection Hi as <-; eexists; split; [reflexivity |];
           split; [reflexivity |]; split; [eexists; left; reflexivity | reflexivity]
          |]).
    discriminate Hi.
Defined.

End SamplingFacts.

(** ** Transcriber: chunking *)

Section ChunkFacts.

Import Transcript Transcribe.

Variable W : World.
Variable audio_path : string.
Variable name : nat -> string.
Variable t_of : nat -> Whisper.
Variable d_of : nat -> option Q.

(** The tool cuts the chunks of a plan built over the indices [idx]. *)
Lemma cut_chunks_spec (window : nat -> Q * Q) :
  forall (idx : list nat) (f : FS.fs),
    (forall i, In i idx ->
       exists r,
         ffmpeg W (Proc.FfmpegChunk audio_path (name i) (fst (window i))
                                    (snd (window i)))
         = Proc.Runs r
         /\ Proc.returncode r = 0%Z
         /\ exists k, In (name i, k) (Proc.writes r)) ->
    exists f',
      cut_chunks W audio_path
                 (map (fun i => (name i, fst (window i), snd (window i))) idx) f
      = (Py.Return (map name idx), f')
      /\ (forall p, Spec.is_file f p -> Spec.is_file f' p)
      /\ (forall i, In i idx -> Spec.is_file f' (name i)).
Proof.
  induction idx as [| i idx IH]; intros f H.
  - exists f. split; [reflexivity |]. split; [auto | intros i []].
  - destruct (H i (or_introl eq_refl)) as (r & Hr & Hrc & k & Hk).
    cbn [map cut_chunks]. unfold Py.bind at 1. unfold Proc.subprocess_run.
    rewrite Hr. cbn [Proc.timed_out]. rewrite Hrc. cbn [Z.eqb negb andb].
    cbv beta iota zeta.
    destruct (IH (Proc.apply_writes (Proc.writes r) f)
                 (fun j Hj => H j (or_intror Hj))) as (f' & Hcut & Hkeep & Hall).
    unfold Py.bind. rewrite Hcut. exists f'.
    split; [reflexivity |]. split.
    + intros p Hp. apply Hkeep. apply apply_writes_keeps_file. exact Hp.
    + intros j [<- | Hj].
      * apply Hkeep. exact (apply_writes_written _ _ _ _ Hk).
      * exact (Hall j Hj).
Qed.

(** The loop over the chunk files, when each of them is there and gets
    its answer, and the prober gives its duration or exits with a status
    other than zero: the segments are those of the specification's
    words. *)
Lemma chunk_loop_spec :
  forall (idx : list nat) (cumulative_time : Q) (f : FS.fs),
    (forall i, In i idx ->
       Spec.is_file f (name i)
       /\ whisper W (name i) = Py.Return (t_of i)
       /\ ffprobe_duration W (name i) = Spec.probe_answer (d_of i)) ->
    chunk_loop W (map name idx) cumulative_time f
    = (Py.Return (map (fun i => w_text (t_of i)) idx,
                  Spec.rebased_concat cumulative_time
                                      (map (fun i => (t_of i, d_of i)) idx)), f).
Proof.
  induction idx as [| i idx IH]; intros cum f H; [reflexivity |].
  destruct (H i (or_introl eq_refl)) as ([k Hfile] & Hw & Hp).
  cbn [map chunk_loop Spec.rebased_concat].
  unfold Py.bind at 1. unfold transcribe_file at 1. rewrite Hfile, Hw.
  destruct idx as [| j idx].
  - cbn [map chunk_loop Spec.rebased_concat]. unfold Py.bind, Py.ret.
    cbn [fst snd]. reflexivity.
  - unfold Py.bind at 1.
    change (map name (j :: idx)) with (name j :: map name idx).
    cbv beta iota. rewrite Hp.
    change (name j :: map name idx) with (map name (j :: idx)).
    destruct (d_of i) as [d |]; cbn [Spec.probe_answer Spec.advance];
      unfold Py.ret at 1; unfold Py.bind at 1;
      rewrite (IH _ f (fun j' Hj' => H j' (or_intror Hj')));
      reflexivity.
Qed.

Lemma remove_chunks_returns (chunk_files : list string) :
  forall f : FS.fs,
    exists f', remove_chunks audio_path chunk_files f = (Py.Return tt, f').
Proof.
  induction chunk_files as [| c rest IH]; intros f; [eexists; reflexivity |].
  cbn [remove_chunks]. unfold Py.bind at 1, Py.try_except at 1.
  destruct (String.eqb c audio_path).
  - apply IH.
  - destruct (FS.os_remove c f) as [[u | e] f1]; apply IH.
Qed.

End ChunkFacts.

Section ChunkOrder.

Import Transcript Transcribe.

Lemma StronglySorted_app {A} (R : A -> A -> Prop) (l1 l2 : list A) :
  StronglySorted R l1 -> StronglySorted R l2 ->
  (forall a b, In a l1 -> In b l2 -> R a b) ->
  StronglySorted R (l1 ++ l2).
Proof.
  intros H1 H2 H. induction H1 as [| a l1 Hs IH Hall]; simpl; [exact H2 |].
  constructor.
  - apply IH. intros x y Hx Hy. apply H; [right; exact Hx | exact Hy].
  - apply Forall_app. split; [exact Hall |].
    apply Forall_forall. intros y Hy. apply list_elem_of_In in Hy.
    apply H; [left; reflexivity | exact Hy].
Qed.

(** One chunk in order, shifted by the double [cumulative]: sorted, and
    within [cumulative] and [cumulative + d]. *)
Lemma rebased_in_order (cumulative : Q) (t : Whisper) (d : Q) :
  Float.round cumulative = cumulative ->
  Spec.chunk_in_order (t, Some d) ->
  Spec.sorted_by_start (rebased cumulative t)
  /\ Forall (fun s => (cumulative <= Subtitles.get_start s)%Q
                      /\ (Subtitles.get_start s <= Float.add cumulative d)%Q)
            (rebased cumulative t).
Proof.
  unfold Spec.chunk_in_order, rebased. cbn [fst snd].
  intros Hdbl (d' & [= <-] & _ & Hsorted & Hin).
  induction (default [] (w_segments t)) as [| a segs IH]; cbn [map].
  - split; constructor.
  - apply StronglySorted_inv in Hsorted as [Hs Ha].
    apply Forall_cons in Hin as [[Ha0 Had] Hin].
    destruct (IH Hs Hin) as [IH1 IH2].
    split.
    + constructor; [exact IH1 |].
      rewrite Forall_forall in Ha. apply Forall_forall.
      intros s Hs'. apply list_elem_of_In in Hs'.
      apply in_map_iff in Hs' as (b & <- & Hb).
      unfold Spec.by_start, Subtitles.get_start. cbn [seg_start default].
      specialize (Ha b (proj2 (list_elem_of_In _ _) Hb)). cbn beta in Ha.
      unfold Float.add. apply round_le. lra.
    + constructor; [| exact IH2].
      unfold Subtitles.get_start. cbn [seg_start default]. unfold Float.add.
      split.
      * rewrite <- Hdbl at 1. apply round_le. lra.
      * apply round_le. lra.
Qed.

(** The specification's concatenation of chunks in order is sorted by
    start, and starts no earlier than [cumulative]. *)
Lemma rebased_concat_sorted (chunks : list (Whisper * option Q)) :
  forall cumulative : Q,
    Float.round cumulative = cumulative ->
    Forall Spec.chunk_in_order chunks ->
    Spec.sorted_by_start (Spec.rebased_concat cumulative chunks)
    /\ Forall (fun s => (cumulative <= Subtitles.get_start s)%Q)
              (Spec.rebased_concat cumulative chunks).
Proof.
  induction chunks as [| [t d] rest IH]; intros cum Hdbl Hall;
    cbn [Spec.rebased_concat].
  - split; constructor.
  - apply Forall_cons in Hall as [Hc Hall].
    destruct Hc as (d' & Hd' & Hc). cbn [snd] in Hd'. subst d.
    assert (Spec.chunk_in_order (t, Some d')) as Hc' by (exists d'; split; auto).
    destruct (rebased_in_order cum t d' Hdbl Hc') as [Hs Hb].
    cbn [Spec.advance].
    destruct (IH (Float.add cum d') (round_idem _) Hall) as [Hs' Hb'].
    assert (0 <= d')%Q as Hd by (destruct Hc as [Hd _]; exact Hd).
    assert (cum <= Float.add cum d')%Q as Hstep.
    { rewrite <- Hdbl at 1. apply round_le. lra. }
    split.
    + apply StronglySorted_app; [exact Hs | exact Hs' |].
      intros a b Ha Hb0.
      rewrite Forall_forall in Hb. rewrite Forall_forall in Hb'.
      specialize (Hb a (proj2 (list_elem_of_In _ _) Ha)).
      specialize (Hb' b (proj2 (list_elem_of_In _ _) Hb0)).
      unfold Spec.by_start. cbn beta in Hb, Hb'. lra.
    + apply Forall_app. split.
      * eapply Forall_impl; [exact Hb |]. cbn beta. intros s [H1 _]. exact H1.
      * eapply Forall_impl; [exact Hb' |]. cbn beta. intros s H1. lra.
Qed.

(** Consecutive chunk starts are a chunk length apart, to within the
    rounding of the two products. *)
Lemma chunk_starts_spaced (chunk_length : Q) (i : nat) :
  (1 <= chunk_length)%Q ->
  Spec.near (Float.mul (inject_Z (Z.of_nat (S i))) chunk_length
             - Float.mul (inject_Z (Z.of_nat i)) chunk_length)
            chunk_length
            (inject_Z (Z.of_nat (S i)) * chunk_length * (1 # 2 ^ 52)).
Proof.
  intros Hc. unfold Spec.near.
  assert (inject_Z (Z.of_nat (S i)) == inject_Z (Z.of_nat i) + 1)%Q as HS.
  { rewrite Nat2Z.inj_succ. unfold Z.succ. rewrite inject_Z_plus. reflexivity. }
  assert (0 <= inject_Z (Z.of_nat i))%Q as Hi0.
  { change 0%Q with (inject_Z 0). rewrite <- Zle_Qle. lia. }
  assert (inject_Z (Z.of_nat i) == 0 \/ 1 <= inject_Z (Z.of_nat i))%Q as Hi.
  { destruct i as [| i]; [left; reflexivity | right].
    change 1%Q with (inject_Z 1). rewrite <- Zle_Qle. lia. }
  set (a := inject_Z (Z.of_nat i)) in *.
  set (b := inject_Z (Z.of_nat (S i))) in *.
  pose proof (mul_error b chunk_length ltac:(right; nra)) as E1.
  pose proof (mul_error a chunk_length
                ltac:(destruct Hi as [Hi | Hi]; [left; rewrite Hi; ring | right; nra]))
    as E2.
  apply Qabs_Qle_condition in E1, E2. apply Qabs_Qle_condition.
  change (1 # 2 ^ 53)%Q with (1 # 9007199254740992)%Q in E1, E2.
  change (1 # 2 ^ 52)%Q with (1 # 4503599627370496)%Q.
  set (x := Float.mul b chunk_length) in *.
  set (y := Float.mul a chunk_length) in *.
  destruct E1 as [E1 E1']. destruct E2 as [E2 E2'].
  split; nra.
Qed.

End ChunkOrder.

Section ChunkedTranscription.

Import Transcript Transcribe.

(** C7, refuted: a 30 MB recording of 200 seconds is cut in two chunks of
    100 seconds; the prober fails on the first chunk file, so the second
    chunk's segments are shifted by nothing, and the list that comes back
    starts at 0, 50 and 0 again. *)
Lemma chunk_probe_failure_breaks_order :
  exists data,
    fst (transcribe_large_audio_with_chunks
           (Spec.chunk_world false) "/tmp/tmpjob1/audio.wav" Spec.large_audio_fs)
    = Py.Return data
    /\ ~ Spec.sorted_by_start (default [] (td_segments data)).
Proof.
  eexists. split; [vm_compute; reflexivity |].
  cbn [td_segments default]. intros H.
  apply StronglySorted_inv in H as [H _].
  apply StronglySorted_inv in H as [_ H].
  apply Forall_cons in H as [H _].
  revert H. unfold Spec.by_start, Subtitles.get_start. cbn.
  apply Qlt_not_le. reflexivity.
Qed.

(** C7 (amended): an audio file above the 20 MB threshold is cut into
    [num_chunks >= 2] chunks of one length, chunk [i] starting at [i]
    times that length, so that consecutive chunks meet (to within the
    rounding of floats). When the tool cuts every chunk and the speech
    service answers for each, the transcript returned is the
    concatenation of the chunks' segments, each chunk shifted by the
    float sum of the probed durations of the chunks before it, where a
    chunk whose probe exits with a status other than zero adds nothing;
    it is sorted by start when every chunk is probed and its answer is
    in order and within the probed duration. *)
Theorem chunked_transcription_rebases
        (W : World) (audio_path : string) (size : N) (total : Q)
        (t_of : nat -> Whisper) (d_of : nat -> option Q) (f : FS.fs) :
  let n := Z.to_nat (num_chunks size) in
  let temp_dir := FS.dirname audio_path in
  let chunk_length := Float.div total (inject_Z (num_chunks size)) in
  let chunk_start := fun i : nat => Float.mul (inject_Z (Z.of_nat i)) chunk_length in
  let chunks := map (fun i => (t_of i, d_of i)) (seq 0 n) in
  f !! audio_path = Some (FS.File size) ->
  (max_size_bytes < size)%N ->
  ffprobe_duration W audio_path = Proc.ProbeDuration total ->
  (forall i, In i (seq 0 n) ->
     (exists r,
         ffmpeg W (Proc.FfmpegChunk audio_path (chunk_name temp_dir i)
                                    (chunk_start i) chunk_length)
         = Proc.Runs r
         /\ Proc.returncode r = 0%Z
         /\ exists k, In (chunk_name temp_dir i, k) (Proc.writes r))
     /\ whisper W (chunk_name temp_dir i) = Py.Return (t_of i)
     /\ ffprobe_duration W (chunk_name temp_dir i) = Spec.probe_answer (d_of i)) ->
  (2 <= n)%nat
  /\ chunk_plan temp_dir total (num_chunks size)
     = map (fun i => (chunk_name temp_dir i, chunk_start i, chunk_length))
           (seq 0 n)
  /\ chunk_start 0%nat = 0%Q
  /\ ((1 <= chunk_length)%Q ->
      forall i : nat,
        Spec.near (chunk_start (S i) - chunk_start i) chunk_length
                  (inject_Z (Z.of_nat (S i)) * chunk_length * (1 # 2 ^ 52)))
  /\ (exists f',
        transcribe_large_audio_with_chunks W audio_path f
        = (Py.Return (mkData (Some (Str.join " " (map (fun c => w_text (fst c)) chunks)))
                             (Some (Spec.rebased_concat 0 chunks)) false), f'))
  /\ (forall (chunk_file next : string) (rest : list string) (cumulative : Q)
             (t : Whisper) (f0 : FS.fs),
        Spec.is_file f0 chunk_file ->
        whisper W chunk_file = Py.Return t ->
        ffprobe_duration W chunk_file = Proc.ProbeFailed ->
        chunk_loop W (chunk_file :: next :: rest) cumulative f0
        = match chunk_loop W (next :: rest) cumulative f0 with
          | (Py.Return r, f') =>
              (Py.Return (w_text t :: fst r, (rebased cumulative t ++ snd r)%list), f')
          | (Py.Raise e, f') => (Py.Raise e, f')
          end)
  /\ (Forall Spec.chunk_in_order chunks ->
      Spec.sorted_by_start (Spec.rebased_concat 0 chunks)).
Proof.
  intros n temp_dir chunk_length chunk_start chunks Hfile Hbig Hprobe Hchunks.
  split; [unfold n, num_chunks; lia |].
  split; [reflexivity |].
  split.
  { unfold chunk_start, Float.mul. apply round_zero_case.
    change (inject_Z (Z.of_nat 0)) with 0%Q. ring. }
  split; [intros Hc i; exact (chunk_starts_spaced chunk_length i Hc) |].
  split; [| split].
  - set (name := chunk_name temp_dir).
    set (window := fun i : nat => (chunk_start i, chunk_length)).
    destruct (cut_chunks_spec W audio_path name window (seq 0 n) f)
      as (f1 & Hcut & Hkeep & Hall).
    { intros i Hi. destruct (Hchunks i Hi) as [Hr _]. exact Hr. }
    assert (split_audio_for_transcription W audio_path temp_dir f
            = (Py.Return (map name (seq 0 n)), f1)) as Hsplit.
    { unfold split_audio_for_transcription, Py.try_except.
      unfold Py.bind at 1. unfold FS.getsize. rewrite Hfile.
      apply N.leb_gt in Hbig. rewrite Hbig. rewrite Hprobe.
      change (chunk_plan temp_dir total (num_chunks size))
        with (map (fun i => (name i, fst (window i), snd (window i))) (seq 0 n)).
      rewrite Hcut. reflexivity. }
    pose proof (chunk_loop_spec W name t_of d_of (seq 0 n) 0 f1) as Hloop.
    destruct (remove_chunks_returns audio_path (map name (seq 0 n)) f1)
      as [f2 Hrm].
    exists f2.
    unfold transcribe_large_audio_with_chunks. fold temp_dir.
    unfold Py.bind at 1. rewrite Hsplit.
    unfold Py.try_finally, Py.bind. rewrite Hloop.
    + cbv beta iota zeta. unfold Py.ret. cbv beta iota zeta.
      rewrite Hrm. cbn [fst snd].
      unfold chunks. rewrite map_map. reflexivity.
    + intros i Hi. destruct (Hchunks i Hi) as (_ & Hw & Hp).
      split; [exact (Hall i Hi) | split; assumption].
  - intros chunk_file next rest cumulative t f0 [k Hk] Hw Hp.
    cbn [chunk_loop]. unfold Py.bind at 1. unfold transcribe_file at 1.
    rewrite Hk, Hw. unfold Py.bind at 1. rewrite Hp. unfold Py.ret at 1.
    unfold Py.bind at 1.
    destruct (chunk_loop W (next :: rest) cumulative f0) as [[r | e] f'];
      reflexivity.
  - intros Hord. exact (proj1 (rebased_concat_sorted chunks 0 round_0 Hord)).
Qed.

Lemma chunked_transcription_rebases_witness :
  exists f',
    transcribe_large_audio_with_chunks (Spec.chunk_world true)
      "/tmp/tmpjob1/audio.wav" Spec.large_audio_fs
    = (Py.Return
         (mkData (Some "Hello and welcome. Goodbye.")
                 (Some (Spec.rebased_concat 0
                          [(Spec.chunk_answer "/tmp/tmpjob1/audio_chunk_000.wav",
                            Some 100%Q);
                           (Spec.chunk_answer "/tmp/tmpjob1/audio_chunk_001.wav",
                            Some 100%Q)]))
                 false), f').
Proof.
  refine (proj1 (proj2 (proj2 (proj2 (proj2
            (chunked_transcription_rebases (Spec.chunk_world true)
               "/tmp/tmpjob1/audio.wav" 31457280 200
               (fun i => Spec.chunk_answer
                           (chunk_name "/tmp/tmpjob1" i))
               (fun _ => Some 100%Q) Spec.large_audio_fs _ _ _ _)))))).
  - vm_compute. reflexivity.
  - reflexivity.
  - reflexivity.
  - intros i Hi.
    assert (i = 0 \/ i = 1)%nat as [-> | ->].
    { vm_compute in Hi. destruct Hi as [<- | [<- | []]]; auto. }
    + split; [| split; reflexivity].
      eexists. split; [reflexivity |]. split; [reflexivity |].
      eexists. left. reflexivity.
    + split; [| split; reflexivity].
      eexists. split; [reflexivity |]. split; [reflexivity |].
      eexists. left. reflexivity.
Defined.

End ChunkedTranscription.

(** ** Job Orchestrator *)

Section CleanupFacts.

(** [cleanup_files] never raises. *)
Lemma cleanup_files_returns (file_paths : list (option string)) :
  forall f : FS.fs, fst (FS.cleanup_files file_paths f) = Py.Return tt.
Proof.
  induction file_paths as [| p rest IH]; intros f; [reflexivity |].
  cbn [FS.cleanup_files]. unfold Py.bind.
  assert (exists f1, FS.cleanup_one p f = (Py.Return tt, f1)) as [f1 ->].
  { unfold FS.cleanup_one, Py.try_except.
    destruct p as [p |]; [| eexists; reflexivity].
    destruct (Py.truthy p); [| eexists; reflexivity].
    destruct (FS.exists_ f p); [| eexists; reflexivity].
    unfold Py.bind. destruct (FS.os_remove p f) as [[[] | e] f1];
      eexists; reflexivity. }
  apply IH.
Qed.

(** Handed a directory, [cleanup_files] removes nothing: [os.remove]
    refuses it and the error is swallowed. *)
Lemma cleanup_files_keeps_directory (d : string) (f : FS.fs) :
  f !! d = Some FS.Dir ->
  FS.cleanup_files [Some d] f = (Py.Return tt, f).
Proof.
  intros Hd. cbn [FS.cleanup_files]. unfold Py.bind, FS.cleanup_one, Py.try_except.
  destruct (Py.truthy d); [| reflexivity].
  unfold FS.exists_, FS.os_remove, Py.bind. rewrite Hd. reflexivity.
Qed.

End CleanupFacts.

Section OrchestratorFacts.

Import Jobs Orchestrator.

Lemma keeps_ret {S A} (P : S -> Prop) (a : A) : Spec.keeps P (Py.ret a).
Proof. intros s H. exact H. Qed.

Lemma keeps_raise {S A} (P : S -> Prop) (e : Py.exn) :
  Spec.keeps P (@Py.raise S A e).
Proof. intros s H. exact H. Qed.

Lemma keeps_bind {S A B} (P : S -> Prop) (m : Py.M S A) (k : A -> Py.M S B) :
  Spec.keeps P m -> (forall a, Spec.keeps P (k a)) -> Spec.keeps P (Py.bind m k).
Proof.
  intros Hm Hk s H. unfold Py.bind. specialize (Hm s H).
  destruct (m s) as [[a | e] s1]; simpl in *; [apply Hk; exact Hm | exact Hm].
Qed.

Lemma keeps_try_except {S A} (P : S -> Prop) (m : Py.M S A)
      (h : Py.exn -> Py.M S A) :
  Spec.keeps P m -> (forall e, Spec.keeps P (h e)) ->
  Spec.keeps P (Py.try_except m h).
Proof.
  intros Hm Hh s H. unfold Py.try_except. specialize (Hm s H).
  destruct (m s) as [[a | e] s1]; simpl in *; [exact Hm | apply Hh; exact Hm].
Qed.

Lemma keeps_lift_fs {A} (job_id : string) (m : Py.M FS.fs A) :
  Spec.keeps (Spec.has_job job_id) (lift_fs m).
Proof.
  intros s H. unfold lift_fs. destruct (m (files s)) as [o f']. exact H.
Qed.

Lemma keeps_update_job (job_id : string) W id' st pr msg res err :
  Spec.keeps (Spec.has_job job_id) (update_job W id' st pr msg res err).
Proof.
  intros s [j Hj]. unfold Spec.has_job, update_job, Py.modify. cbn.
  unfold Jobs.update_job. destruct (jobs s !! id') as [j' |] eqn:E; [| eauto].
  destruct (decide (id' = job_id)) as [-> | Hne].
  - rewrite lookup_insert_eq. eauto.
  - rewrite lookup_insert_ne by exact Hne. eauto.
Qed.

Lemma keeps_modify_job (job_id : string) id' (g : Job -> Job) :
  Spec.keeps (Spec.has_job job_id) (modify_job id' g).
Proof.
  intros s [j Hj]. unfold Spec.has_job, modify_job, Py.modify. cbn.
  destruct (decide (id' = job_id)) as [-> | Hne].
  - rewrite lookup_alter_eq, Hj. cbn. eauto.
  - rewrite lookup_alter_ne by exact Hne. eauto.
Qed.

Ltac keeps_steps :=
  repeat first
    [ apply keeps_ret
    | apply keeps_raise
    | apply keeps_update_job
    | apply keeps_modify_job
    | apply keeps_lift_fs
    | apply keeps_bind; [| intros ?]
    | apply keeps_try_except; [| intros ?]
    | match goal with
      | |- Spec.keeps _ (match ?x with _ => _ end) => destruct x
      end ].

Lemma trim_job_body_keeps_job (W : World) (job_id id' : string) (job : Job) :
  Spec.keeps (Spec.has_job job_id) (trim_job_body W id' job).
Proof. unfold trim_job_body, append_file_path. keeps_steps. Qed.

Lemma hooks_job_body_keeps_job (W : World) (job_id id' : string) (job : Job) :
  Spec.keeps (Spec.has_job job_id) (hooks_job_body W id' job).
Proof. unfold hooks_job_body. keeps_steps. Qed.

(** The [except] block on a state that holds the job: it returns, and
    the job carries the message as its error, with status [FAILED]. *)
Lemma on_failure_records (W : World) (job_id prefix : string) (e : Py.exn)
      (s : State) :
  Spec.has_job job_id s ->
  Py.truthy (prefix +:+ Py.exn_str e) = true ->
  fst (on_failure W job_id prefix e s) = Py.Return tt
  /\ exists job',
       jobs (snd (on_failure W job_id prefix e s)) !! job_id = Some job'
       /\ status job' = FAILED
       /\ error job' = Some (prefix +:+ Py.exn_str e).
Proof.
  intros [j Hj] Htruthy.
  set (jobs1 := Jobs.update_job (jobs s) (now W) job_id None None
                  (Some (prefix +:+ Py.exn_str e)) None
                  (Some (prefix +:+ Py.exn_str e))).
  assert (jobs1 !! job_id
          = Some (update_fields (now W) None None
                    (Some (prefix +:+ Py.exn_str e)) None
                    (Some (prefix +:+ Py.exn_str e)) j)) as Hlk.
  { unfold jobs1, Jobs.update_job. rewrite Hj. apply lookup_insert_eq. }
  assert (status (update_fields (now W) None None
                    (Some (prefix +:+ Py.exn_str e)) None
                    (Some (prefix +:+ Py.exn_str e)) j) = FAILED
          /\ error (update_fields (now W) None None
                      (Some (prefix +:+ Py.exn_str e)) None
                      (Some (prefix +:+ Py.exn_str e)) j)
             = Some (prefix +:+ Py.exn_str e)) as [Hst Her].
  { unfold update_fields. rewrite Htruthy. split; reflexivity. }
  assert (exists f', on_failure W job_id prefix e s
                     = (Py.Return tt, mkState jobs1 f')) as [f' ->].
  { unfold on_failure, Py.bind, update_job, Py.modify, Py.get. cbv beta iota.
    unfold job_temp_dir. cbn [jobs files]. fold jobs1. rewrite Hlk.
    destruct (temp_dir _) as [d |]; [| eexists; reflexivity].
    destruct (Py.truthy d); [| eexists; reflexivity].
    unfold lift_fs. cbn [files jobs].
    pose proof (cleanup_files_returns [Some d] (files s)) as Hc.
    destruct (FS.cleanup_files [Some d] (files s)) as [o f']. cbn in Hc.
    subst o. eexists. reflexivity. }
  cbn [fst snd jobs]. split; [reflexivity |].
  eexists. split; [exact Hlk | split; assumption].
Qed.

(** The [except] block of the queue worker's task always ends in a
    [raise]. *)
Lemma trim_task_failed_raises (job_id : string) (retries max_retries : nat)
      (e : Py.exn) (q : AsyncProcessor.State) :
  exists e' q',
    AsyncProcessor.trim_task_failed job_id retries max_retries e q
    = (Py.Raise e', q')
    /\ (e' = Py.Exn Py.Retry "Retry"
        \/ e' = Py.Exn Py.Exception ("Video processing failed: " +:+ Py.exn_str e)).
Proof.
  unfold AsyncProcessor.trim_task_failed.
  unfold Py.bind at 1. unfold Py.get. cbv beta iota.
  unfold Py.bind at 1.
  assert (exists q1,
             (if AsyncProcessor.db q && AsyncProcessor.video_job q
              then AsyncProcessor.set_row job_id
                     (fun r => AsyncProcessor.mkVideoJob AsyncProcessor.FAILED
                                 (Some (Py.exn_str e))
                                 (AsyncProcessor.vj_original_duration r)
                                 (AsyncProcessor.vj_trimmed_duration r)
                                 (AsyncProcessor.vj_file_path r))
              else Py.ret tt) q = (Py.Return tt, q1)) as [q1 ->].
  { destruct (AsyncProcessor.db q && AsyncProcessor.video_job q);
      eexists; reflexivity. }
  unfold Py.bind at 1.
  assert (exists q2,
             match AsyncProcessor.temp_dir q with
             | Some d => if Py.truthy d
                         then AsyncProcessor.lift_fs (FS.cleanup_files [Some d])
                         else Py.ret tt
             | None => Py.ret tt
             end q1 = (Py.Return tt, q2)) as [q2 ->].
  { destruct (AsyncProcessor.temp_dir q) as [d |]; [| eexists; reflexivity].
    destruct (Py.truthy d); [| eexists; reflexivity].
    unfold AsyncProcessor.lift_fs.
    pose proof (cleanup_files_returns [Some d] (AsyncProcessor.files q1)) as Hc.
    destruct (FS.cleanup_files [Some d] (AsyncProcessor.files q1)) as [o f'].
    cbn in Hc. subst o. eexists. reflexivity. }
  destruct ((retries <? max_retries)%nat
            && (Str.contains "network" (Str.lower (Py.exn_str e))
                || Str.contains "timeout" (Str.lower (Py.exn_str e))));
    eexists; eexists; (split; [reflexivity |]); [left | right]; reflexivity.
Qed.

(** C1: the code at a failing input. The download arrives, the media
    tool fails, the job ends [FAILED], and the scratch directory is still
    there with the downloaded file in it; the same directory survives a
    failed hook-detection job. [cleanup_job], which removes the directory
    with [shutil.rmtree], leaves nothing. *)
Theorem failed_job_keeps_scratch_directory :
  let s := snd (_process_trim_job Spec.failing_trim_world "job-1" Spec.queued) in
  let s' := snd (_process_hooks_job Spec.failing_trim_world "job-1" Spec.queued) in
  (exists job, jobs s !! "job-1" = Some job
               /\ status job = FAILED
               /\ temp_dir job = Some "/tmp/tmpjob1")
  /\ files s !! "/tmp/tmpjob1" = Some FS.Dir
  /\ files s !! "/tmp/tmpjob1/source.mp4" = Some (FS.File 5000000)
  /\ (exists job, jobs s' !! "job-1" = Some job
                  /\ status job = FAILED
                  /\ temp_dir job = Some "/tmp/tmpjob1")
  /\ files s' !! "/tmp/tmpjob1" = Some FS.Dir
  /\ files (snd (cleanup_job "job-1" s)) = ∅.
Proof.
  cbv zeta. split; [eexists; vm_compute; repeat split; reflexivity |].
  split; [vm_compute; reflexivity |].
  split; [vm_compute; reflexivity |].
  split; [eexists; vm_compute; repeat split; reflexivity |].
  split; [vm_compute; reflexivity |].
  vm_compute. reflexivity.
Qed.

(** C2, refuted on the queue worker's task: acquiring the database
    session fails, as it does with [get_db_session] being a context
    manager, and the task raises to the worker, the row left as it was;
    and where the session is there and the download fails on the network,
    the row is marked failed and the task still raises, asking for a
    retry. *)
Lemma queue_task_raises_to_worker :
  AsyncProcessor.process_video_trim_async
    Spec.nothing_works 0 3 "job-1" "https://youtube.com/watch?v=abc123"
    30 60 false false Spec.pending
  = (Py.Raise (Py.Exn Py.Exception
       "Video processing failed: '_GeneratorContextManager' object is not an iterator"),
     Spec.pending)
  /\ fst (AsyncProcessor.process_video_trim_async
            Spec.queue_world 0 3 "job-1" "https://youtube.com/watch?v=abc123"
            30 60 false false Spec.pending)
     = Py.Raise (Py.Exn Py.Retry "Retry").
Proof. split; vm_compute; reflexivity. Qed.

(** C2 (amended): for a job id in the store, [_process_trim_job] and
    [_process_hooks_job] catch every [Exception] their pipeline raises:
    they return without raising, and when the pipeline raised the job has
    status [FAILED] and the message as its error. The queue worker's
    [process_video_trim_async] does not return on a failure: it raises to
    the worker, a retry request or an [Exception] with the message. *)
Theorem job_manager_catches_queue_task_raises
        (W : World) (job_id : string) (s : State) (job : Job) :
  jobs s !! job_id = Some job ->
  (fst (_process_trim_job W job_id s) = Py.Return tt
   /\ forall e s1,
        trim_job_body W job_id job s = (Py.Raise e, s1) ->
        exists job',
          jobs (snd (_process_trim_job W job_id s)) !! job_id = Some job'
          /\ status job' = FAILED
          /\ error job' = Some ("Processing failed: " +:+ Py.exn_str e))
  /\ (fst (_process_hooks_job W job_id s) = Py.Return tt
      /\ forall e s1,
           hooks_job_body W job_id job s = (Py.Raise e, s1) ->
           exists job',
             jobs (snd (_process_hooks_job W job_id s)) !! job_id = Some job'
             /\ status job' = FAILED
             /\ error job' = Some ("Hook analysis failed: " +:+ Py.exn_str e))
  /\ (forall retries max_retries url start_time end_time vertical subtitles
             (q q1 : AsyncProcessor.State) e,
        AsyncProcessor.trim_task_body W job_id url start_time end_time
                                      vertical subtitles q
        = (Py.Raise e, q1) ->
        exists e',
          fst (AsyncProcessor.process_video_trim_async
                 W retries max_retries job_id url start_time end_time
                 vertical subtitles q)
          = Py.Raise e'
          /\ (e' = Py.Exn Py.Retry "Retry"
              \/ e' = Py.Exn Py.Exception
                        ("Video processing failed: " +:+ Py.exn_str e))).
Proof.
  intros Hjob.
  assert (Spec.has_job job_id s) as Hhas by (exists job; exact Hjob).
  split; [| split].
  - pose proof (trim_job_body_keeps_job W job_id job_id job s Hhas) as Hkeep.
    unfold _process_trim_job. rewrite Hjob. unfold Py.try_except.
    destruct (trim_job_body W job_id job s) as [[[] | e] s1]; cbn [snd] in Hkeep.
    + split; [reflexivity |]. intros e s2 H. discriminate H.
    + destruct (on_failure_records W job_id "Processing failed: " e s1 Hkeep
                  eq_refl) as [Hret Hrec].
      split; [exact Hret |]. intros e' s2 [= <- <-]. exact Hrec.
  - pose proof (hooks_job_body_keeps_job W job_id job_id job s Hhas) as Hkeep.
    unfold _process_hooks_job. rewrite Hjob. unfold Py.try_except.
    destruct (hooks_job_body W job_id job s) as [[[] | e] s1]; cbn [snd] in Hkeep.
    + split; [reflexivity |]. intros e s2 H. discriminate H.
    + destruct (on_failure_records W job_id "Hook analysis failed: " e s1 Hkeep
                  eq_refl) as [Hret Hrec].
      split; [exact Hret |]. intros e' s2 [= <- <-]. exact Hrec.
  - intros retries max_retries url start_time end_time vertical subtitles q q1 e
           Hbody.
    unfold AsyncProcessor.process_video_trim_async, Py.try_finally, Py.try_except.
    rewrite Hbody.
    destruct (trim_task_failed_raises job_id retries max_retries e q1)
      as (e' & q2 & -> & He').
    exists e'. split; [reflexivity | exact He'].
Qed.

Lemma job_manager_catches_queue_task_raises_witness :
  fst (_process_trim_job Spec.failing_trim_world "job-1" Spec.queued)
  = Py.Return tt.
Proof.
  refine (proj1 (proj1 (job_manager_catches_queue_task_raises
                          Spec.failing_trim_world "job-1" Spec.queued
                          (mkJob "job-1" QUEUED 0 "Job created, waiting to start..."
                                 0 0 None None "trim"
                                 "https://youtube.com/watch?v=abc123"
                                 30 60 false false "openai" None [])
                          _))).
  vm_compute. reflexivity.
Defined.

End OrchestratorFacts.

(** * Further properties of the code *)

(** ** Subtitle Formatter: time stamps and line breaking *)

Section SrtFacts.

Lemma Qfloor_unique (x : Q) (z : Z) :
  (inject_Z z <= x)%Q -> (x < inject_Z (z + 1))%Q -> Qfloor x = z.
Proof.
  intros H1 H2.
  pose proof (Qfloor_le x) as F1. pose proof (Qlt_floor x) as F2.
  assert (inject_Z z < inject_Z (Qfloor x + 1))%Q as A by lra.
  assert (inject_Z (Qfloor x) < inject_Z (z + 1))%Q as B by lra.
  rewrite <- Zlt_Qlt in A, B. lia.
Qed.

Lemma Qfloor_div (x : Q) (k : Z) :
  0 < k -> Qfloor (x / inject_Z k) = Qfloor x / k.
Proof.
  intros Hk. apply Qfloor_unique.
  - pose proof (Qfloor_le x) as F1.
    pose proof (Z.mul_div_le (Qfloor x) k Hk) as D.
    rewrite Zle_Qle in D. rewrite inject_Z_mult in D.
    assert (0 < inject_Z k)%Q as K by (change 0%Q with (inject_Z 0); rewrite <- Zlt_Qlt; lia).
    apply Qle_shift_div_l; [exact K |]. lra.
  - pose proof (Qlt_floor x) as F2.
    assert (Qfloor x + 1 <= k * (Qfloor x / k + 1)) as D.
    { pose proof (Z.mod_pos_bound (Qfloor x) k Hk).
      pose proof (Z.div_mod (Qfloor x) k). lia. }
    rewrite Zle_Qle in D. rewrite inject_Z_mult in D.
    assert (0 < inject_Z k)%Q as K by (change 0%Q with (inject_Z 0); rewrite <- Zlt_Qlt; lia).
    apply Qlt_shift_div_r; [exact K |]. lra.
Qed.

Lemma Qfloor_sub_Z (x : Q) (k : Z) : Qfloor (x - inject_Z k) = Qfloor x - k.
Proof.
  apply Qfloor_unique.
  - pose proof (Qfloor_le x). unfold Z.sub. rewrite inject_Z_plus, inject_Z_opp. lra.
  - pose proof (Qlt_floor x) as F. rewrite inject_Z_plus in F.
    replace (Qfloor x - k + 1) with (Qfloor x + 1 + - k) by lia.
    rewrite !inject_Z_plus, inject_Z_opp. lra.
Qed.


Lemma qmod_floor (x : Q) (k : Z) :
  0 < k -> Qfloor (Subtitles.qmod x (inject_Z k)) = Qfloor x mod k.
Proof.
  intros Hk. unfold Subtitles.qmod. rewrite <- inject_Z_mult, Qfloor_sub_Z, Qfloor_div by exact Hk.
  rewrite Z.mod_eq by lia. reflexivity.
Qed.

(** The milliseconds of a fraction of a second: the rounded float
    product cut to an integer is the exact product cut to an integer, to
    within the rounding of the product. *)
Lemma millisecs_near (frac : Q) :
  (0 <= frac)%Q -> (frac < 1)%Q ->
  let ms := Qfloor (Float.mul frac 1000) in
  0 <= ms <= 1000
  /\ (frac * 1000 - 1 - (1 # 2 ^ 43) < inject_Z ms)%Q
  /\ (inject_Z ms <= frac * 1000 + (1 # 2 ^ 43))%Q.
Proof.
  intros H0 H1 ms. unfold Float.mul in ms.
  set (x := (frac * 1000)%Q) in *.
  assert (0 <= x)%Q as Hx0 by (unfold x; lra).
  assert (x < 1000)%Q as Hx1 by (unfold x; lra).
  pose proof (Qfloor_le (Float.round x)) as F1.
  pose proof (Qlt_floor (Float.round x)) as F2.
  fold ms in F1, F2. rewrite inject_Z_plus in F2. change (inject_Z 1) with 1%Q in F2.
  assert (0 <= ms <= 1000) as Hms.
  { split.
    - unfold ms. change 0 with (Qfloor 0). apply Qfloor_resp_le, round_nonneg.
      exact Hx0.
    - assert (Float.round x <= Float.round 1000)%Q as A
          by (apply round_le; lra).
      apply Qfloor_resp_le in A. exact A. }
  split; [exact Hms |].
  change (1 # 2 ^ 43)%Q with (1 # 8796093022208)%Q.
  destruct (Qlt_le_dec x (1 # 2)) as [Hsmall | Hbig].
  - assert (Float.round x <= Float.round (1 # 2))%Q as A by (apply round_le; lra).
    change (Float.round (1 # 2)) with (1 # 2)%Q in A.
    assert (inject_Z ms < inject_Z 1)%Q as B by (change (inject_Z 1) with 1%Q; lra).
    rewrite <- Zlt_Qlt in B.
    assert (ms = 0) as -> by lia.
    change (inject_Z 0) with 0%Q. split; lra.
  - pose proof (round_error_normal x) as He.
    assert (2 ^ (-1022) <= x)%Q as Hn.
    { pose proof (pow2_le (-1022) (-1) ltac:(lia)) as H.
      change (2 ^ (-1))%Q with (1 # 2)%Q in H. lra. }
    specialize (He Hn). clear Hn.
    apply Qabs_Qle_condition in He.
    change (1 # 2 ^ 53)%Q with (1 # 9007199254740992)%Q in He.
    destruct He as [He1 He2].
    set (y := Float.round x) in *. split; nra.
Qed.

(** X1: for a time of zero or more seconds, the hours, minutes and
    seconds of [seconds_to_srt_time] are in range (minutes and seconds
    below 60) and give back the whole seconds of the time:
    [3600 hours + 60 minutes + secs] is [seconds] rounded down. The
    milliseconds are the rounded float product [(seconds % 1) * 1000]
    cut to an integer: between 0 and 1000, and the thousandths of the
    fraction cut to an integer to within the rounding of the product.
    For the double nearest to 0.29 the field is 290, though the double
    lies below 0.29. *)
Theorem srt_fields_decompose (seconds : Q) :
  (0 <= seconds)%Q ->
  match Subtitles.srt_fields seconds with
  | (hours, minutes, secs, millisecs) =>
      let whole := 3600 * hours + 60 * minutes + secs in
      0 <= hours /\ 0 <= minutes < 60 /\ 0 <= secs < 60
      /\ whole = Qfloor seconds
      /\ 0 <= millisecs <= 1000
      /\ ((seconds - inject_Z whole) * 1000 - 1 - (1 # 2 ^ 43) < inject_Z millisecs)%Q
      /\ (inject_Z millisecs <= (seconds - inject_Z whole) * 1000 + (1 # 2 ^ 43))%Q
  end
  /\ (Float.round (29 # 100) < 29 # 100)%Q
  /\ Subtitles.srt_fields (Float.round (29 # 100)) = (0, 0, 0, 290).
Proof.
  intros Hpos. split; [| split; [reflexivity | vm_compute; reflexivity]].
  unfold Subtitles.srt_fields.
  change 3600%Q with (inject_Z 3600). change 60%Q with (inject_Z 60).
  change 1%Q with (inject_Z 1) at 1.
  rewrite !Qfloor_div, !qmod_floor by lia.
  set (n := Qfloor seconds).
  assert (0 <= n) as Hn.
  { unfold n. change 0 with (Qfloor 0). apply Qfloor_resp_le. exact Hpos. }
  pose proof (Qfloor_le seconds) as F1. pose proof (Qlt_floor seconds) as F2.
  fold n in F1, F2. rewrite inject_Z_plus in F2. change (inject_Z 1) with 1%Q in F2.
  assert (Subtitles.qmod seconds (inject_Z 1) == seconds - inject_Z n)%Q as Hfrac.
  { unfold Subtitles.qmod. rewrite Qfloor_div by lia. fold n. rewrite Z.div_1_r.
    change (inject_Z 1) with 1%Q. ring. }
  destruct (millisecs_near (Subtitles.qmod seconds (inject_Z 1)))
    as (Hms & Hlo & Hhi); [rewrite Hfrac; lra | rewrite Hfrac; lra |].
  cbv zeta in Hms, Hlo, Hhi.
  set (ms := Qfloor (Float.mul (Subtitles.qmod seconds (inject_Z 1)) 1000)) in *.
  rewrite Hfrac in Hlo, Hhi.
  assert (3600 * (n / 3600) + 60 * (n mod 3600 / 60) + n mod 60 = n) as Hsum.
  { pose proof (Z.div_mod n 3600 ltac:(lia)) as D1.
    pose proof (Z.div_mod (n mod 3600) 60 ltac:(lia)) as D2.
    rewrite (Z.mod_mod_divide n 3600 60) in D2 by (exists 60; reflexivity).
    lia. }
  pose proof (Z.mod_pos_bound n 3600 ltac:(lia)) as B1.
  pose proof (Z.mod_pos_bound n 60 ltac:(lia)) as B2.
  cbv zeta. rewrite Hsum.
  split; [apply Z.div_pos; lia |].
  split; [split; [apply Z.div_pos; lia | apply Z.div_lt_upper_bound; lia] |].
  split; [exact B2 |]. split; [reflexivity |]. split; [exact Hms |].
  split; [exact Hlo | exact Hhi].
Qed.

Lemma srt_fields_decompose_witness :
  match Subtitles.srt_fields (7325 + (1 # 2)) with
  | (hours, minutes, secs, millisecs) =>
      let whole := 3600 * hours + 60 * minutes + secs in
      0 <= hours /\ 0 <= minutes < 60 /\ 0 <= secs < 60
      /\ whole = Qfloor (7325 + (1 # 2))
      /\ 0 <= millisecs <= 1000
      /\ ((7325 + (1 # 2) - inject_Z whole) * 1000 - 1 - (1 # 2 ^ 43)
          < inject_Z millisecs)%Q
      /\ (inject_Z millisecs
          <= (7325 + (1 # 2) - inject_Z whole) * 1000 + (1 # 2 ^ 43))%Q
  end.
Proof. apply (srt_fields_decompose (7325 + (1 # 2))). discriminate. Defined.

End SrtFacts.

Section WrapFacts.

Lemma append_nil (b : string) : "" +:+ b = b.
Proof. reflexivity. Qed.

Lemma append_cons (c : ascii) (a b : string) : String c a +:+ b = String c (a +:+ b).
Proof. reflexivity. Qed.

Lemma string_app_assoc (a b c : string) : (a +:+ b) +:+ c = a +:+ (b +:+ c).
Proof.
  induction a as [| x a IH]; [reflexivity |].
  rewrite !append_cons, IH. reflexivity.
Qed.

Lemma string_app_nil_r (a : string) : a +:+ "" = a.
Proof.
  induction a as [| x a IH]; [reflexivity |]. rewrite append_cons, IH. reflexivity.
Qed.

Lemma no_space_app a b : Props.no_space (a +:+ b) = Props.no_space a && Props.no_space b.
Proof.
  induction a as [| c a IH]; [reflexivity |].
  rewrite append_cons. cbn [Props.no_space]. rewrite IH. apply andb_assoc.
Qed.

Lemma words_are_words (s : string) :
  forall cur, Props.no_space cur = true -> Forall Props.is_word (Str.words cur s).
Proof.
  induction s as [| c s IH]; intros cur Hcur; cbn [Str.words].
  - destruct (Py.truthy cur) eqn:E; [| constructor].
    constructor; [split; assumption | constructor].
  - destruct (Str.isspace c) eqn:Ec.
    + destruct (Py.truthy cur) eqn:E.
      * constructor; [split; assumption | apply IH; reflexivity].
      * apply IH. reflexivity.
    + apply IH. rewrite no_space_app, Hcur. cbn [Props.no_space]. rewrite Ec. reflexivity.
Qed.

Lemma split_words (s : string) : Forall Props.is_word (Str.split s).
Proof. apply words_are_words. reflexivity. Qed.

Lemma words_sep (a b : string) (c : ascii) :
  Str.isspace c = true ->
  forall cur, Str.words cur (a +:+ String c b) = (Str.words cur a ++ Str.words "" b)%list.
Proof.
  intros Hc. induction a as [| x a IH]; intros cur.
  - rewrite append_nil. cbn [Str.words]. rewrite Hc. destruct (Py.truthy cur); reflexivity.
  - rewrite append_cons. cbn [Str.words]. destruct (Str.isspace x).
    + destruct (Py.truthy cur); rewrite IH; reflexivity.
    + apply IH.
Qed.

Lemma words_of_word (w : string) :
  Props.no_space w = true ->
  forall cur, Py.truthy (cur +:+ w) = true -> Str.words cur w = [cur +:+ w].
Proof.
  induction w as [| x w IH]; intros Hw cur Ht; cbn [Str.words].
  - rewrite string_app_nil_r in Ht. rewrite Ht, string_app_nil_r. reflexivity.
  - cbn [Props.no_space] in Hw. apply andb_prop in Hw as [Hx Hw].
    apply negb_true_iff in Hx. rewrite Hx.
    rewrite IH; [| exact Hw | rewrite string_app_assoc; exact Ht].
    rewrite string_app_assoc. reflexivity.
Qed.

Lemma split_word (w : string) : Props.is_word w -> Str.split w = [w].
Proof. intros [Ht Hw]. unfold Str.split. rewrite words_of_word; auto. Qed.

Lemma join_cons2 sep x y l :
  Str.join sep (x :: y :: l) = x +:+ sep +:+ Str.join sep (y :: l).
Proof. reflexivity. Qed.

Lemma split_join (c : ascii) (l : list string) :
  Str.isspace c = true ->
  Str.split (Str.join (String c EmptyString) l) = concat (map Str.split l).
Proof.
  intros Hc. induction l as [| x l IH]; [reflexivity |].
  destruct l as [| y l].
  - cbn [map concat]. rewrite app_nil_r. reflexivity.
  - rewrite join_cons2. cbn [map concat] in *.
    rewrite append_cons, append_nil.
    unfold Str.split at 1. rewrite words_sep by exact Hc.
    fold (Str.split x). fold (Str.split (Str.join (String c "") (y :: l))).
    rewrite IH. reflexivity.
Qed.

Lemma split_join_words (c : ascii) (ws : list string) :
  Str.isspace c = true -> Forall Props.is_word ws ->
  Str.split (Str.join (String c EmptyString) ws) = ws.
Proof.
  intros Hc Hws. rewrite split_join by exact Hc.
  induction Hws as [| w ws Hw Hws IH]; [reflexivity |].
  cbn [map concat]. rewrite split_word by exact Hw. rewrite IH. reflexivity.
Qed.

Lemma join_short_or_single U (cur : list string) :
  Forall (fun w => In w U) cur ->
  (length cur <= 1)%nat \/ (String.length (Str.join " " cur) <= 35)%nat ->
  Props.line_ok U (Str.join " " cur).
Proof.
  intros Hin [Hlen | Hlen]; [| left; exact Hlen].
  destruct cur as [| w [| w' cur]]; cbn in Hlen; try lia.
  - left. cbn. lia.
  - right. apply Forall_cons in Hin as [Hw _]. exact Hw.
Qed.

Lemma wrap_step_inv U acc done w :
  Props.wrap_inv U acc done -> In w U ->
  Props.wrap_inv U (Subtitles.wrap_step acc w) (done ++ [w]).
Proof.
  intros (groups & Hl & Hc & Hg & Hok & Hin & Hlen) Hw.
  unfold Subtitles.wrap_step.
  destruct (35 <? String.length (Str.join " " (snd acc ++ [w])))%nat eqn:E.
  - exists (groups ++ [snd acc])%list. cbn [fst snd].
    rewrite removelast_last.
    split; [rewrite map_app, Hl; reflexivity |].
    split; [rewrite concat_app; cbn [concat]; rewrite app_nil_r, <- Hc; reflexivity |].
    split; [apply Forall_app; split; [exact Hg | constructor; [exact Hin | constructor]] |].
    split.
    { apply Forall_app. split; [exact Hok |].
      constructor; [| constructor]. apply join_short_or_single; assumption. }
    split; [constructor; [exact Hw | constructor] |].
    left. cbn. lia.
  - exists groups. cbn [fst snd].
    split; [exact Hl |].
    split; [rewrite <- Hc, app_assoc; reflexivity |].
    split; [exact Hg |].
    split; [exact Hok |].
    split; [apply Forall_app; split; [exact Hin | constructor; [exact Hw | constructor]] |].
    right. apply Nat.ltb_ge in E. exact E.
Qed.

Lemma wrap_fold_inv U (ws : list string) :
  forall acc done,
    Props.wrap_inv U acc done -> Forall (fun w => In w U) ws ->
    Props.wrap_inv U (foldl Subtitles.wrap_step acc ws) (done ++ ws).
Proof.
  induction ws as [| w ws IH]; intros acc done Hinv Hws; cbn [foldl].
  - rewrite app_nil_r. exact Hinv.
  - apply Forall_cons in Hws as [Hw Hws].
    replace (done ++ w :: ws)%list with ((done ++ [w]) ++ ws)%list
      by (rewrite <- app_assoc; reflexivity).
    apply IH; [apply wrap_step_inv; assumption | exact Hws].
Qed.

Lemma wrap_lines_groups (text : string) :
  exists groups : list (list string),
    Props.wrap_lines text = map (Str.join " ") groups
    /\ concat groups = Str.split text
    /\ Forall (fun g => Forall (fun w => In w (Str.split text)) g) groups
    /\ Forall (Props.line_ok (Str.split text)) (Props.wrap_lines text).
Proof.
  assert (Props.wrap_inv (Str.split text) ([], []) []) as H0.
  { exists []. cbn. repeat split; try constructor. lia. }
  pose proof (wrap_fold_inv (Str.split text) (Str.split text) ([], []) [] H0) as H.
  cbn [app] in H.
  assert (Forall (fun w => In w (Str.split text)) (Str.split text)) as Hall.
  { apply Forall_forall. intros w Hw. apply list_elem_of_In. exact Hw. }
  specialize (H Hall).
  destruct H as (groups & Hl & Hc & Hg & Hok & Hin & Hlen).
  unfold Props.wrap_lines.
  destruct (foldl Subtitles.wrap_step ([], []) (Str.split text)) as [lines cur].
  cbn [fst snd] in *.
  destruct cur as [| w cur].
  - exists groups. rewrite app_nil_r in Hc. repeat split; assumption.
  - exists (groups ++ [w :: cur])%list.
    split; [rewrite map_app, Hl; reflexivity |].
    split; [rewrite concat_app; cbn [concat]; rewrite app_nil_r; exact Hc |].
    split; [apply Forall_app; split; [exact Hg | constructor; [exact Hin | constructor]] |].
    apply Forall_app. split; [exact Hok |].
    constructor; [| constructor]. apply join_short_or_single; assumption.
Qed.

Lemma wrap_unfold (text : string) :
  Subtitles.wrap text
  = if (40 <? String.length text)%nat
    then Str.join (String (ascii_of_nat 10) EmptyString) (Props.wrap_lines text)
    else text.
Proof.
  unfold Subtitles.wrap, Props.wrap_lines.
  destruct (40 <? String.length text)%nat; [| reflexivity].
  destruct (foldl Subtitles.wrap_step ([], []) (Str.split text)) as [lines cur].
  reflexivity.
Qed.

(** X2: the line breaking of [create_optimized_subtitle_file] loses no
    word, adds none and keeps their order: the words of the wrapped text
    are the words of the text. *)
Theorem wrap_keeps_words (text : string) :
  Str.split (Subtitles.wrap text) = Str.split text.
Proof.
  rewrite wrap_unfold. destruct (40 <? String.length text)%nat; [| reflexivity].
  destruct (wrap_lines_groups text) as (groups & -> & Hc & Hg & _).
  rewrite split_join by reflexivity. rewrite <- Hc.
  rewrite map_map. clear Hc.
  induction Hg as [| g groups Hg1 Hg IH]; [reflexivity |].
  cbn [map concat]. rewrite IH. f_equal.
  apply (split_join_words " "%char); [reflexivity |].
  eapply Forall_impl; [exact Hg1 |]. cbn. intros w Hw.
  pose proof (split_words text) as Hall. rewrite Forall_forall in Hall.
  apply Hall. apply list_elem_of_In. exact Hw.
Qed.

(** X3: a caption text of more than 40 characters is broken into lines
    joined by a newline, and every such line is at most 35 characters
    long, or it is a single word of the text. *)
Theorem wrap_lines_bounded (text : string) :
  (40 < String.length text)%nat ->
  Subtitles.wrap text
  = Str.join (String (ascii_of_nat 10) EmptyString) (Props.wrap_lines text)
  /\ Forall (fun line => (String.length line <= 35)%nat \/ In line (Str.split text))
            (Props.wrap_lines text).
Proof.
  intros Hlong. split.
  - rewrite wrap_unfold. apply Nat.ltb_lt in Hlong. rewrite Hlong. reflexivity.
  - destruct (wrap_lines_groups text) as (_ & _ & _ & _ & Hok). exact Hok.
Qed.

Lemma wrap_lines_bounded_witness :
  Subtitles.wrap "the quick brown fox jumps over the lazy dog near the river bank"
  = Str.join (String (ascii_of_nat 10) EmptyString)
      (Props.wrap_lines
         "the quick brown fox jumps over the lazy dog near the river bank")
  /\ Forall (fun line =>
               (String.length line <= 35)%nat
               \/ In line (Str.split
                    "the quick brown fox jumps over the lazy dog near the river bank"))
            (Props.wrap_lines
               "the quick brown fox jumps over the lazy dog near the river bank").
Proof.
  apply (wrap_lines_bounded
           "the quick brown fox jumps over the lazy dog near the river bank").
  vm_compute. lia.
Defined.

End WrapFacts.

Section CaptionNumbering.

Import Transcript Subtitles.

Lemma subtitle_lines_numbered start_time end_time segments :
  forall subtitle_index,
    map cap_index (subtitle_lines start_time end_time subtitle_index segments)
    = seq subtitle_index
          (length (subtitle_lines start_time end_time subtitle_index segments)).
Proof.
  induction segments as [| s rest IH]; intros i; cbn [subtitle_lines]; [reflexivity |].
  destruct (in_range start_time end_time s); [| apply IH].
  destruct (Py.truthy (Str.strip (get_text s))); [| apply IH].
  cbn [map length seq cap_index]. rewrite IH. reflexivity.
Qed.

Lemma optimized_lines_numbered start_time end_time segments :
  forall subtitle_index,
    map cap_index (optimized_lines start_time end_time subtitle_index segments)
    = seq subtitle_index
          (length (optimized_lines start_time end_time subtitle_index segments)).
Proof.
  induction segments as [| s rest IH]; intros i; cbn [optimized_lines]; [reflexivity |].
  destruct (in_range start_time end_time s); [| apply IH].
  destruct (Py.truthy (Str.strip (get_text s))
            && (3 <? String.length (Str.strip (get_text s)))%nat); [| apply IH].
  cbn [map length seq cap_index]. rewrite IH. reflexivity.
Qed.

(** X4: the captions of either formatter are numbered 1, 2, 3, ... in the
    order they are written, with no gap where a segment was left out
    (outside the window, or with no text). *)
Theorem captions_numbered_from_one (transcript_data : Data) (start_time end_time : Q) :
  map cap_index (captions transcript_data start_time end_time)
  = seq 1 (length (captions transcript_data start_time end_time))
  /\ map cap_index (optimized_captions transcript_data start_time end_time)
     = seq 1 (length (optimized_captions transcript_data start_time end_time)).
Proof.
  unfold captions, optimized_captions.
  destruct (default [] (td_segments transcript_data)) as [| s rest].
  - split; [reflexivity |].
    destruct (Py.truthy _); reflexivity.
  - split; [apply subtitle_lines_numbered | apply optimized_lines_numbered].
Qed.

End CaptionNumbering.

(** ** Transcriber: windows, early failures, single pass *)

Section SamplingWindows.

Import Transcript Transcribe.

(** A middle window of a source longer than ten minutes lasts a minute,
    to within rounding. *)
Lemma middle_window_length (d : Q) (k : positive) :
  k = 3%positive \/ k = 5%positive \/ k = 7%positive ->
  (600 < d)%Q ->
  (snd (middle_window d (Z.pos k # 10)) - fst (middle_window d (Z.pos k # 10))
   <= 60 + d * (1 # 2 ^ 53))%Q.
Proof.
  intros Hk Hd.
  destruct (factor_near k Hk) as (A & B & C).
  pose proof (middle_start_near d (Z.pos k # 10) Hd A B C) as Hm.
  assert (Z.pos k # 10 <= 7 # 10)%Q as Hk7
      by (destruct Hk as [-> | [-> | ->]]; discriminate).
  assert (3 # 10 <= Z.pos k # 10)%Q as Hk3
      by (destruct Hk as [-> | [-> | ->]]; discriminate).
  unfold middle_window in *. cbn [fst snd] in *.
  set (m := Float.mul d (Float.round (Z.pos k # 10))) in *.
  unfold Spec.near in Hm. apply Qabs_Qle_condition in Hm.
  change (1 # 2 ^ 52)%Q with (1 # 4503599627370496)%Q in Hm.
  destruct Hm as [Hm1 Hm2].
  assert (0 <= m)%Q as Hm0 by nra.
  assert (m + 60 <= d)%Q as Hmd by nra.
  pose proof (round_error (m + 60) ltac:(lra)) as He.
  fold (Float.add m 60) in He. apply Qabs_Qle_condition in He.
  change (1 # 2 ^ 53)%Q with (1 # 9007199254740992)%Q in *.
  destruct He as [He1 He2].
  set (e := Float.add m 60) in *. nra.
Qed.

(** The closing window lasts two minutes at most, to within rounding. *)
Lemma closing_window_length (d : Q) :
  (300 < d)%Q ->
  (d - Qmax (Float.sub d 120) (Float.mul d (Float.round (8 # 10)))
   <= 120 + d * (1 # 2 ^ 53))%Q.
Proof.
  intros Hd.
  pose proof (Q.le_max_l (Float.sub d 120) (Float.mul d (Float.round (8 # 10))))
    as Hmax.
  pose proof (round_error (d - 120) ltac:(lra)) as He.
  fold (Float.sub d 120) in He. apply Qabs_Qle_condition in He.
  change (1 # 2 ^ 53)%Q with (1 # 9007199254740992)%Q in *.
  destruct He as [He1 He2].
  set (a := Float.sub d 120) in *.
  set (x := Qmax a (Float.mul d (Float.round (8 # 10)))) in *.
  nra.
Qed.

(** X5: whatever the duration [d > 0], the sampler of
    [transcribe_sampled_segments_for_hooks] has at most five windows, and
    together they cover at most 420 seconds plus what the rounding of
    floats adds, no more than [d / 2^51]; for a source of 646 seconds
    they do cover more than 420 seconds. *)
Theorem sampled_windows_bounded (d : Q) :
  (0 < d)%Q ->
  (length (segments_to_sample d) <= 5)%nat
  /\ (Props.sampled_seconds (segments_to_sample d) <= 420 + d * (1 # 2 ^ 51))%Q
  /\ (420 < Props.sampled_seconds (segments_to_sample 646))%Q.
Proof.
  intros Hd. split; [| split; [| vm_compute; reflexivity]].
  - unfold segments_to_sample.
    destruct (Qle_bool d 600), (Qle_bool d 300); cbn; lia.
  - unfold segments_to_sample.
    destruct (Q.min_spec 120 d) as [[Hm Em] | [Hm Em]];
      destruct (Qle_bool d 600) eqn:E6; destruct (Qle_bool d 300) eqn:E3;
      try (apply Qle_bool_iff in E6); try (apply Qle_bool_iff in E3);
      try (assert (600 < d)%Q as E6'
             by (apply Qnot_le_lt; intros C; apply Qle_bool_iff in C; congruence));
      try (assert (300 < d)%Q as E3'
             by (apply Qnot_le_lt; intros C; apply Qle_bool_iff in C; congruence));
      try lra;
      cbn [negb app Props.sampled_seconds fold_right];
      try (pose proof (middle_window_length d 3 ltac:(auto) E6') as M3;
           pose proof (middle_window_length d 5 ltac:(auto) E6') as M5;
           pose proof (middle_window_length d 7 ltac:(auto) E6') as M7);
      try (pose proof (closing_window_length d E3') as MC);
      change (1 # 2 ^ 53)%Q with (1 # 9007199254740992)%Q in *;
      change (1 # 2 ^ 51)%Q with (1 # 2251799813685248)%Q;
      cbn [fst snd]; rewrite Em; lra.
Qed.

Lemma sampled_windows_bounded_witness :
  (Props.sampled_seconds (segments_to_sample 1200) <= 420 + 1200 * (1 # 2 ^ 51))%Q.
Proof.
  apply (sampled_windows_bounded 1200). reflexivity.
Defined.

End SamplingWindows.

Section TranscribeEdges.

Import Transcript Transcribe.

(** X6: [transcribe_audio_with_openai] fails before any request is made,
    with the file system as it was, when the API key is not set, when the
    audio file is not there, and when the prober could not tell the
    duration (the log line cannot format [None]); each time the caller gets
    an [Exception] whose message starts with "Failed to transcribe
    audio: ". *)
Theorem transcription_fails_early
        (W : World) (audio_path : string) (for_hooks : bool) (f : FS.fs) :
  (openai_api_key W = false ->
   transcribe_audio_with_openai W audio_path for_hooks f
   = (Py.Raise (Py.Exn Py.Exception
        ("Failed to transcribe audio: "
         +:+ "OpenAI API key not found. Please set OPENAI_API_KEY environment variable.")),
      f))
  /\ (openai_api_key W = true ->
      f !! audio_path = None \/ video_duration W audio_path = None ->
      exists m,
        transcribe_audio_with_openai W audio_path for_hooks f
        = (Py.Raise (Py.Exn Py.Exception ("Failed to transcribe audio: " +:+ m)), f)).
Proof.
  unfold transcribe_audio_with_openai, Py.try_except.
  split.
  - intros ->. reflexivity.
  - intros -> Hmiss. cbn [negb]. unfold Py.bind, FS.getsize.
    destruct (f !! audio_path) as [node |] eqn:Hnode;
      [| eexists; reflexivity].
    destruct Hmiss as [Habs | Hdur]; [discriminate Habs |].
    rewrite Hdur. destruct node; eexists; reflexivity.
Qed.

(** X7: an audio file of at most 20 MB that is not a long hook-detection
    source (the call is not for hooks, or the duration is at most 600
    seconds) is transcribed in one request: the transcript is the service's
    text, its segments are the service's segments at their own times, it
    is not tagged [sampled], and the file system is as it was. *)
Theorem short_audio_single_pass
        (W : World) (audio_path : string) (for_hooks : bool) (f : FS.fs)
        (size : N) (d : Q) (t : Whisper) :
  openai_api_key W = true ->
  f !! audio_path = Some (FS.File size) ->
  (size <= max_size_bytes)%N ->
  video_duration W audio_path = Some d ->
  for_hooks = false \/ (d <= 600)%Q ->
  whisper W audio_path = Py.Return t ->
  exists segments,
    transcribe_audio_with_openai W audio_path for_hooks f
    = (Py.Return (mkData (Some (w_text t)) (Some segments) false), f)
    /\ Forall2 (fun (seg : Segment) (s : Q * Q * string) =>
                  (Subtitles.get_start seg == fst (fst s))%Q
                  /\ (Subtitles.get_end seg == snd (fst s))%Q
                  /\ seg_text seg = Some (snd s))
               segments (default [] (w_segments t)).
Proof.
  intros Hkey Hfile Hsize Hdur Hshort Hw.
  exists (segments_of t). split.
  - unfold transcribe_audio_with_openai, Py.try_except. rewrite Hkey. cbn [negb].
    unfold Py.bind at 1. unfold FS.getsize. rewrite Hfile, Hdur.
    assert (for_hooks && negb (Qle_bool d 600) = false) as ->.
    { destruct Hshort as [-> | Hle]; [reflexivity |].
      apply Qle_bool_iff in Hle. rewrite Hle. apply andb_false_r. }
    assert ((max_size_bytes <? size)%N = false) as -> by (apply N.ltb_ge; exact Hsize).
    unfold transcribe_single_audio, Py.bind, transcribe_file.
    rewrite Hfile, Hw. reflexivity.
  - unfold segments_of.
    induction (default [] (w_segments t)) as [| s l IH]; cbn [map].
    + constructor.
    + constructor; [| exact IH].
      unfold Subtitles.get_start, Subtitles.get_end. cbn.
      repeat split; reflexivity.
Qed.

Lemma short_audio_single_pass_witness :
  exists segments,
    transcribe_audio_with_openai Spec.sampling_world
      "/tmp/tmpjob1/segment_audio.wav" false Props.small_audio_fs
    = (Py.Return (mkData (Some "You will not believe this") (Some segments) false),
       Props.small_audio_fs)
    /\ length segments = 1%nat.
Proof.
  destruct (short_audio_single_pass Spec.sampling_world
              "/tmp/tmpjob1/segment_audio.wav" false Props.small_audio_fs
              9600000 1200
              (mkWhisper "You will not believe this"
                         (Some [(0%Q, 4%Q, "You will not believe this")])))
    as (segments & Hrun & Hsegs).
  - reflexivity.
  - vm_compute. reflexivity.
  - vm_compute. discriminate.
  - reflexivity.
  - left. reflexivity.
  - reflexivity.
  - exists segments. split; [exact Hrun |].
    apply Forall2_length in Hsegs. exact Hsegs.
Defined.

End TranscribeEdges.

Section ChunkCleanup.

Import Transcript Transcribe.

Lemma transcription_fails_early_witness :
  transcribe_audio_with_openai Spec.nothing_works
    "/tmp/tmpjob1/segment_audio.wav" true Props.small_audio_fs
  = (Py.Raise (Py.Exn Py.Exception
       ("Failed to transcribe audio: "
        +:+ "OpenAI API key not found. Please set OPENAI_API_KEY environment variable.")),
     Props.small_audio_fs).
Proof.
  apply (proj1 (transcription_fails_early Spec.nothing_works
                  "/tmp/tmpjob1/segment_audio.wav" true Props.small_audio_fs)).
  reflexivity.
Defined.

Lemma transcribe_file_fs (W : World) (path : string) (f : FS.fs) :
  snd (transcribe_file W path f) = f.
Proof. unfold transcribe_file. destruct (f !! path) as [[n |] |]; reflexivity. Qed.

Lemma chunk_loop_fs (W : World) (chunk_files : list string) :
  forall cumulative_time (f : FS.fs),
    snd (chunk_loop W chunk_files cumulative_time f) = f.
Proof.
  induction chunk_files as [| c rest IH]; intros cum f; [reflexivity |].
  cbn [chunk_loop]. unfold Py.bind at 1.
  pose proof (transcribe_file_fs W c f) as Hfs.
  destruct (transcribe_file W c f) as [[t | e] f1]; cbn [snd] in Hfs; subst f1;
    [| reflexivity].
  unfold Py.bind at 1.
  destruct rest as [| c' rest'].
  - reflexivity.
  - destruct (ffprobe_duration W c) as [| | d]; cbn [Py.ret Py.raise]; try reflexivity.
    + unfold Py.bind. specialize (IH cum f).
      destruct (chunk_loop W (c' :: rest') cum f) as [[r | e] f1]; exact IH.
    + unfold Py.bind. specialize (IH (Float.add cum d) f).
      destruct (chunk_loop W (c' :: rest') (Float.add cum d) f) as [[r | e] f1];
        exact IH.
Qed.

(** [os.remove] creates no regular file. *)
Lemma os_remove_no_new_file (p q : string) (f : FS.fs) :
  ~ Spec.is_file f q -> ~ Spec.is_file (snd (FS.os_remove p f)) q.
Proof.
  intros H. unfold FS.os_remove.
  destruct (f !! p) as [[n |] |] eqn:E; cbn [snd]; try exact H.
  intros [k Hk]. apply H. exists k.
  destruct (decide (p = q)) as [-> | Hne].
  - rewrite lookup_delete_eq in Hk. discriminate.
  - rewrite lookup_delete_ne in Hk by exact Hne. exact Hk.
Qed.

Lemma os_remove_removes (p : string) (f : FS.fs) :
  ~ Spec.is_file (snd (FS.os_remove p f)) p.
Proof.
  unfold FS.os_remove. destruct (f !! p) as [[n |] |] eqn:E; cbn [snd].
  - intros [k Hk]. rewrite lookup_delete_eq in Hk. discriminate.
  - intros [k Hk]. congruence.
  - intros [k Hk]. congruence.
Qed.

Lemma os_remove_other (p q : string) (f : FS.fs) :
  p <> q -> snd (FS.os_remove p f) !! q = f !! q.
Proof.
  intros Hne. unfold FS.os_remove.
  destruct (f !! p) as [[n |] |]; cbn [snd]; try reflexivity.
  apply lookup_delete_ne. exact Hne.
Qed.

Lemma remove_chunks_step (audio_path c : string) (rest : list string) (f : FS.fs) :
  remove_chunks audio_path (c :: rest) f
  = remove_chunks audio_path rest (Props.remove_one audio_path c f).
Proof.
  cbn [remove_chunks]. unfold Py.bind at 1, Py.try_except at 1, Props.remove_one.
  destruct (String.eqb c audio_path); [reflexivity |].
  destruct (FS.os_remove c f) as [[u | e] f1]; reflexivity.
Qed.

Lemma remove_chunks_effect (audio_path : string) (chunk_files : list string) :
  forall f : FS.fs,
    let f' := snd (remove_chunks audio_path chunk_files f) in
    (forall q, ~ Spec.is_file f q -> ~ Spec.is_file f' q)
    /\ (forall p, In p chunk_files -> p <> audio_path -> ~ Spec.is_file f' p)
    /\ f' !! audio_path = f !! audio_path.
Proof.
  induction chunk_files as [| c rest IH]; intros f.
  - cbn. split; [auto |]. split; [intros p [] | reflexivity].
  - cbv zeta. rewrite remove_chunks_step.
    destruct (IH (Props.remove_one audio_path c f)) as (Hno & Hgone & Haudio).
    assert (forall q, ~ Spec.is_file f q ->
                      ~ Spec.is_file (Props.remove_one audio_path c f) q) as Hone.
    { intros q Hq. unfold Props.remove_one. destruct (String.eqb c audio_path); [exact Hq |].
      apply os_remove_no_new_file. exact Hq. }
    split; [intros q Hq; apply Hno, Hone, Hq |].
    split.
    + intros p [<- | Hin] Hne; [| exact (Hgone p Hin Hne)].
      apply Hno. unfold Props.remove_one.
      destruct (String.eqb c audio_path) eqn:E;
        [apply String.eqb_eq in E; contradiction |].
      apply os_remove_removes.
    + rewrite Haudio. unfold Props.remove_one.
      destruct (String.eqb c audio_path) eqn:E; [reflexivity |].
      apply os_remove_other. intros ->. rewrite String.eqb_refl in E. discriminate.
Qed.

(** X8: once the audio has been cut into chunks, none of the chunk files
    is left when [transcribe_large_audio_with_chunks] ends, whether the
    transcription succeeded or raised, and the original audio file is not
    touched. *)
Theorem chunk_files_always_removed
        (W : World) (audio_path : string) (f f1 : FS.fs) (chunk_files : list string) :
  split_audio_for_transcription W audio_path (FS.dirname audio_path) f
  = (Py.Return chunk_files, f1) ->
  let f' := snd (transcribe_large_audio_with_chunks W audio_path f) in
  (forall p, In p chunk_files -> p <> audio_path -> ~ Spec.is_file f' p)
  /\ f' !! audio_path = f1 !! audio_path.
Proof.
  intros Hsplit. cbv zeta.
  destruct (remove_chunks_effect audio_path chunk_files f1) as (_ & Hgone & Haudio).
  destruct (remove_chunks_returns audio_path chunk_files f1) as [f3 Hrm].
  rewrite Hrm in Hgone, Haudio. cbn [snd] in Hgone, Haudio.
  assert (exists o, transcribe_large_audio_with_chunks W audio_path f = (o, f3))
    as [o ->].
  { unfold transcribe_large_audio_with_chunks. unfold Py.bind at 1. rewrite Hsplit.
    unfold Py.try_finally.
    assert (snd (Py.bind (chunk_loop W chunk_files 0)
                   (fun r => Py.ret (mkData (Some (Str.join " " (fst r)))
                                            (Some (snd r)) false)) f1) = f1) as Hbody.
    { unfold Py.bind. pose proof (chunk_loop_fs W chunk_files 0 f1) as H.
      destruct (chunk_loop W chunk_files 0 f1) as [[r | e] f2]; exact H. }
    destruct (Py.bind (chunk_loop W chunk_files 0) _ f1) as [o f2].
    cbn [snd] in Hbody. subst f2. rewrite Hrm. eexists. reflexivity. }
  cbn [snd]. split; assumption.
Qed.

Lemma chunk_files_always_removed_witness :
  ~ Spec.is_file
      (snd (transcribe_large_audio_with_chunks (Spec.chunk_world false)
              "/tmp/tmpjob1/audio.wav" Spec.large_audio_fs))
      "/tmp/tmpjob1/audio_chunk_001.wav".
Proof.
  refine (proj1 (chunk_files_always_removed (Spec.chunk_world false)
                   "/tmp/tmpjob1/audio.wav" Spec.large_audio_fs _
                   ["/tmp/tmpjob1/audio_chunk_000.wav";
                    "/tmp/tmpjob1/audio_chunk_001.wav"] _)
                "/tmp/tmpjob1/audio_chunk_001.wav" _ _).
  - vm_compute. reflexivity.
  - right. left. reflexivity.
  - discriminate.
Defined.

End ChunkCleanup.

(** ** Hook Analyzer: what is extracted, what is dropped, what fails *)

Section JsonTextFacts.

Import Hooks.

Lemma find_app_none (c : ascii) (a b : string) :
  find c a = None ->
  find c (a +:+ b) = match find c b with
                     | Some i => Some (String.length a + i)%nat
                     | None => None
                     end.
Proof.
  induction a as [| x a IH]; intros H.
  - rewrite append_nil. destruct (find c b); reflexivity.
  - rewrite append_cons. cbn [find] in *. destruct (Ascii.eqb x c); [discriminate |].
    destruct (find c a); [discriminate |]. rewrite IH by reflexivity.
    destruct (find c b); reflexivity.
Qed.

Lemma rfind_app_some (c : ascii) (a b : string) (i : nat) :
  rfind c b = Some i -> rfind c (a +:+ b) = Some (String.length a + i)%nat.
Proof.
  intros H. induction a as [| x a IH].
  - rewrite append_nil. exact H.
  - rewrite append_cons. cbn [rfind]. rewrite IH. reflexivity.
Qed.

Lemma substring_skip (a b : string) (n : nat) :
  String.substring (String.length a) n (a +:+ b) = String.substring 0 n b.
Proof.
  induction a as [| x a IH]; [reflexivity |]. rewrite append_cons. exact IH.
Qed.

Lemma substring_prefix (a b : string) :
  String.substring 0 (String.length a) (a +:+ b) = a.
Proof.
  induction a as [| x a IH].
  - cbn. destruct b; reflexivity.
  - rewrite append_cons. cbn [String.length String.substring]. rewrite IH. reflexivity.
Qed.

Lemma length_append (a b : string) :
  String.length (a +:+ b) = (String.length a + String.length b)%nat.
Proof.
  induction a as [| x a IH]; [reflexivity |].
  rewrite append_cons. cbn [String.length]. rewrite IH. reflexivity.
Qed.

(** X9: prose around the array is dropped: when the answer is some text
    without an opening bracket, then an array, then some text without a
    closing bracket, the text handed to [json.loads] is the array alone. *)
Theorem json_text_drops_prose (prose body trailer : string) :
  find "["%char prose = None ->
  rfind "]"%char trailer = None ->
  json_text (prose +:+ "[" +:+ body +:+ "]" +:+ trailer) = "[" +:+ body +:+ "]".
Proof.
  intros Hp Ht. unfold json_text.
  assert (rfind "]"%char (prose +:+ "[" +:+ body +:+ "]" +:+ trailer)
          = Some (String.length prose + S (String.length body))%nat) as ->.
  { replace (prose +:+ "[" +:+ body +:+ "]" +:+ trailer)
      with ((prose +:+ "[" +:+ body) +:+ ("]" +:+ trailer))
      by (rewrite !string_app_assoc; reflexivity).
    rewrite (rfind_app_some _ _ _ 0%nat).
    - rewrite !length_append. cbn [String.length]. f_equal. lia.
    - rewrite append_cons, append_nil. cbn [rfind]. rewrite Ht. reflexivity. }
  rewrite find_app_none by exact Hp.
  rewrite append_cons, append_nil. cbn [find Ascii.eqb Bool.eqb andb].
  cbv iota beta.
  assert ((String.length prose + 0 <? S (String.length prose + S (String.length body)))%nat
          = true) as -> by (apply Nat.ltb_lt; lia).
  replace (S (String.length prose + S (String.length body))
           - (String.length prose + 0))%nat
    with (String.length ("[" +:+ body +:+ "]")).
  2: { rewrite append_cons, append_nil. cbn [String.length].
       rewrite length_append. cbn [String.length]. lia. }
  rewrite Nat.add_0_r.
  rewrite substring_skip.
  change (String "[" (body +:+ "]" +:+ trailer))
    with ("[" +:+ body +:+ "]" +:+ trailer).
  replace ("[" +:+ body +:+ "]" +:+ trailer)
    with (("[" +:+ body +:+ "]") +:+ trailer)
    by (rewrite !string_app_assoc; reflexivity).
  apply substring_prefix.
Qed.

Lemma json_text_drops_prose_witness :
  json_text Spec.backwards_answer = Spec.backwards_text.
Proof.
  apply (json_text_drops_prose "Here you go: "
           ("{" +:+ Spec.quoted "start" +:+ ": 50, " +:+ Spec.quoted "end"
            +:+ ": 10, " +:+ Spec.quoted "title" +:+ ": "
            +:+ Spec.quoted "Big reveal" +:+ "}")
           ""); reflexivity.
Defined.

End JsonTextFacts.

Section ValidationFacts.

Import Hooks.

Variable json_loads : string -> option json.
Variable py_repr : json -> string.
Variable int_of_str : string -> option Z.

Lemma incomplete_entry_skipped (hook : json) :
  Props.complete_entry hook = false ->
  validate_hook py_repr int_of_str hook = Py.Return None.
Proof.
  unfold Props.complete_entry, validate_hook. destruct hook; try reflexivity.
  destruct (lookup "start" members), (lookup "end" members),
    (lookup "title" members); try reflexivity; discriminate.
Qed.

(** X10: entries of the answer that are not objects, or that lack one of
    start, end and title, are dropped without failing the analysis: the
    validated hooks are those of the answer without these entries, and an
    answer without a single complete entry gives the empty list. *)
Theorem malformed_entries_are_dropped (items : list json) :
  validated_hooks py_repr int_of_str items
  = validated_hooks py_repr int_of_str (List.filter Props.complete_entry items)
  /\ (List.filter Props.complete_entry items = [] ->
      validated_hooks py_repr int_of_str items = Py.Return []).
Proof.
  assert (validated_hooks py_repr int_of_str items
          = validated_hooks py_repr int_of_str
              (List.filter Props.complete_entry items)) as H.
  { induction items as [| hook rest IH]; [reflexivity |].
    cbn [List.filter]. destruct (Props.complete_entry hook) eqn:E.
    - cbn [validated_hooks]. rewrite IH. reflexivity.
    - cbn [validated_hooks]. rewrite incomplete_entry_skipped by exact E.
      rewrite IH.
      destruct (validated_hooks py_repr int_of_str
                  (List.filter Props.complete_entry rest)); reflexivity. }
  split; [exact H |]. intros Hnone. rewrite H, Hnone. reflexivity.
Qed.

Lemma py_int_raises (v : json) (e : Py.exn) :
  py_int int_of_str v = Py.Raise e ->
  Py.exn_cls e = Py.ValueError \/ Py.exn_cls e = Py.TypeError
     \/ Py.exn_cls e = Py.OverflowError.
Proof.
  destruct v as [| b | z | [q | |] | s | l | m]; cbn [py_int];
    try discriminate; try (intros [= <-]; auto).
  destruct (int_of_str s); [discriminate | intros [= <-]; auto].
Qed.

Lemma validate_hook_raises (hook : json) (e : Py.exn) :
  validate_hook py_repr int_of_str hook = Py.Raise e ->
  Py.exn_cls e = Py.ValueError \/ Py.exn_cls e = Py.TypeError
     \/ Py.exn_cls e = Py.OverflowError.
Proof.
  unfold validate_hook. destruct hook; try discriminate.
  destruct (lookup "start" members), (lookup "end" members),
    (lookup "title" members); try discriminate.
  destruct (py_int int_of_str j) eqn:E1.
  - destruct (py_int int_of_str j0) eqn:E2; [discriminate |].
    intros [= <-]. exact (py_int_raises _ _ E2).
  - intros [= <-]. exact (py_int_raises _ _ E1).
Qed.

Lemma validated_hooks_raises (items : list json) :
  Exists (fun hook => Py.is_return (validate_hook py_repr int_of_str hook) = false)
         items ->
  exists e, validated_hooks py_repr int_of_str items = Py.Raise e
            /\ (Py.exn_cls e = Py.ValueError \/ Py.exn_cls e = Py.TypeError
     \/ Py.exn_cls e = Py.OverflowError).
Proof.
  induction items as [| hook rest IH]; intros H.
  - apply Exists_nil in H. contradiction.
  - cbn [validated_hooks].
    destruct (validate_hook py_repr int_of_str hook) as [h | e] eqn:E.
    + apply Exists_cons in H as [H | H]; [rewrite E in H; discriminate |].
      destruct (IH H) as (e & -> & Hcls). exists e. split; [reflexivity | exact Hcls].
    + exists e. split; [reflexivity | exact (validate_hook_raises _ _ E)].
Qed.

(** X11: a complete entry whose start or end cannot be converted with
    [int] (a [null], a list, a text that is no number, a [NaN] or an
    [Infinity]) is not dropped: it makes the whole analysis fail, with
    the [ValueError], [TypeError] or [OverflowError] of the conversion and
    not with the analyzer's "AI returned invalid JSON response". *)
Theorem unconvertible_time_fails_analysis
        (api_key : bool) (result_text : string) (items : list json) :
  api_key = true ->
  json_loads (json_text result_text) = Some (JArr items) ->
  Exists (fun hook => Py.is_return (validate_hook py_repr int_of_str hook) = false)
         items ->
  exists e,
    _analyze_with_openai json_loads py_repr int_of_str api_key (Py.Return result_text)
    = Py.Raise e
    /\ _analyze_with_anthropic json_loads py_repr int_of_str api_key
         (Py.Return result_text)
       = Py.Raise e
    /\ (Py.exn_cls e = Py.ValueError \/ Py.exn_cls e = Py.TypeError
     \/ Py.exn_cls e = Py.OverflowError).
Proof.
  intros -> Hparse Hbad.
  destruct (validated_hooks_raises items Hbad) as (e & Hv & Hcls).
  exists e. unfold _analyze_with_openai, _analyze_with_anthropic, parse_hooks.
  cbn [negb]. rewrite Hparse. cbn [iterate]. rewrite Hv.
  split; [reflexivity |]. split; [reflexivity | exact Hcls].
Qed.

End ValidationFacts.

Lemma malformed_entries_are_dropped_witness :
  Hooks.validated_hooks (fun _ => "") (fun _ => None) Props.mixed_entries
  = Hooks.validated_hooks (fun _ => "") (fun _ => None)
      [Hooks.JObj [("start", Hooks.JInt 12); ("end", Hooks.JInt 40);
                   ("title", Hooks.JStr "The twist")]].
Proof.
  exact (proj1 (malformed_entries_are_dropped (fun _ => "") (fun _ => None)
                  Props.mixed_entries)).
Defined.

Lemma unconvertible_time_fails_analysis_witness :
  exists e,
    Hooks._analyze_with_openai
      (Spec.one_document Props.null_start_text
                         (Hooks.JArr Props.null_start_entries))
      (fun _ => "") (fun _ => None) true (Py.Return Props.null_start_text)
    = Py.Raise e
    /\ (Py.exn_cls e = Py.ValueError \/ Py.exn_cls e = Py.TypeError
     \/ Py.exn_cls e = Py.OverflowError).
Proof.
  destruct (unconvertible_time_fails_analysis
              (Spec.one_document Props.null_start_text
                                 (Hooks.JArr Props.null_start_entries))
              (fun _ => "") (fun _ => None) true Props.null_start_text
              Props.null_start_entries)
    as (e & H1 & _ & Hc).
  - reflexivity.
  - vm_compute. reflexivity.
  - right. left. reflexivity.
  - exists e. split; assumption.
Defined.

(** ** Hook detection pipeline and its cache *)

Section MonadInversion.

Lemma bind_return_inv {S A B} (m : Py.M S A) (k : A -> Py.M S B)
      (s s' : S) (b : B) :
  Py.bind m k s = (Py.Return b, s') ->
  exists a s1, m s = (Py.Return a, s1) /\ k a s1 = (Py.Return b, s').
Proof.
  unfold Py.bind. destruct (m s) as [[a | e] s1]; [| discriminate].
  intros H. exists a, s1. split; [reflexivity | exact H].
Qed.

Lemma try_except_return_inv {S A} (body : Py.M S A) (h : Py.exn -> Py.M S A)
      (s s' : S) (a : A) :
  (forall e s1, Py.is_return (fst (h e s1)) = false) ->
  Py.try_except body h s = (Py.Return a, s') ->
  body s = (Py.Return a, s').
Proof.
  intros Hh. unfold Py.try_except. destruct (body s) as [[a' | e] s1]; [auto |].
  intros H. specialize (Hh e s1). rewrite H in Hh. discriminate.
Qed.

End MonadInversion.

Section CacheFacts.

Import HookPipeline.

Variable md5 : string -> string.

(** X12: the hook cache gives back what was stored for a URL as long as
    less than 3600 seconds have passed; from 3600 seconds on the lookup
    finds nothing and the entry is gone from the cache; a URL with another
    key is answered as before the store. *)
Theorem hook_cache_round_trip (url : string) (hooks : list Jobs.Hook)
        (t0 t1 : Q) (c : cache) :
  ((t1 - t0 < 3600)%Q ->
   get_cached_hooks md5 url t1 (cache_hooks md5 url hooks t0 c)
   = (Some hooks, cache_hooks md5 url hooks t0 c))
  /\ ((3600 <= t1 - t0)%Q ->
      fst (get_cached_hooks md5 url t1 (cache_hooks md5 url hooks t0 c)) = None
      /\ snd (get_cached_hooks md5 url t1 (cache_hooks md5 url hooks t0 c))
         !! md5 url = None)
  /\ (forall url', md5 url' <> md5 url ->
        fst (get_cached_hooks md5 url' t1 (cache_hooks md5 url hooks t0 c))
        = fst (get_cached_hooks md5 url' t1 c)).
Proof.
  unfold get_cached_hooks, cache_hooks, get_url_cache_key.
  split; [| split].
  - intros Hfresh. rewrite lookup_insert_eq.
    rewrite (Qle_bool_false 3600 (t1 - t0)) by exact Hfresh. reflexivity.
  - intros Hold. rewrite lookup_insert_eq.
    apply Qle_bool_iff in Hold. rewrite Hold. cbn [negb fst snd].
    split; [reflexivity | apply lookup_delete_eq].
  - intros url' Hne. rewrite lookup_insert_ne by congruence.
    destruct (c !! md5 url') as [[d ts] |]; [| reflexivity].
    destruct (negb (Qle_bool 3600 (t1 - ts))); reflexivity.
Qed.

End CacheFacts.

Lemma hook_cache_round_trip_witness :
  HookPipeline.get_cached_hooks (fun u => u) "https://youtube.com/watch?v=abc123" 1800
    (HookPipeline.cache_hooks (fun u => u) "https://youtube.com/watch?v=abc123"
                              Props.two_hooks 0 ∅)
  = (Some Props.two_hooks,
     HookPipeline.cache_hooks (fun u => u) "https://youtube.com/watch?v=abc123"
                              Props.two_hooks 0 ∅).
Proof.
  apply (proj1 (hook_cache_round_trip (fun u => u)
                  "https://youtube.com/watch?v=abc123" Props.two_hooks 0 1800 ∅)).
  reflexivity.
Defined.

Section PipelineFacts.

Import HookPipeline.

(** X13: [analyze_hooks_with_ai] ends in one of two ways only: it returns
    at most five hooks with titles of at most 100 and reasons of at most
    200 characters, or it raises an [Exception] whose message starts with
    "Failed to analyze hooks: ", whatever went wrong inside (no text in the
    transcript, no API key, a service error, an answer that cannot be
    parsed or converted). *)
Theorem analysis_returns_bounded_or_wraps
        (json_loads : string -> option Hooks.json) (py_repr : Hooks.json -> string)
        (int_of_str : string -> option Z) (anthropic_api_key : bool)
        (openai_chat anthropic_chat : Transcript.Data -> Py.outcome string)
        (W : World) (transcript_data : Transcript.Data) (provider : string) :
  match analyze_hooks_with_ai json_loads py_repr int_of_str anthropic_api_key
          openai_chat anthropic_chat W transcript_data provider with
  | Py.Return hooks =>
      (length hooks <= 5)%nat /\ Forall Spec.bounded_hook hooks
  | Py.Raise e =>
      Py.exn_cls e = Py.Exception
      /\ exists m, Py.exn_str e = "Failed to analyze hooks: " +:+ m
  end.
Proof.
  unfold analyze_hooks_with_ai.
  destruct (Transcript.td_text transcript_data) as [text |];
    [| split; [reflexivity | eexists; reflexivity]].
  destruct (String.eqb (Str.lower provider) "anthropic").
  - unfold Hooks._analyze_with_anthropic.
    destruct (negb anthropic_api_key);
      [split; [reflexivity | eexists; reflexivity] |].
    destruct (anthropic_chat transcript_data) as [result_text | e];
      [| split; [reflexivity | eexists; reflexivity]].
    destruct (Hooks.parse_hooks json_loads py_repr int_of_str result_text)
      as [hooks | e] eqn:E;
      [exact (parse_hooks_bounded _ _ _ _ _ E)
      | split; [reflexivity | eexists; reflexivity]].
  - unfold Hooks._analyze_with_openai.
    destruct (negb (openai_api_key W));
      [split; [reflexivity | eexists; reflexivity] |].
    destruct (openai_chat transcript_data) as [result_text | e];
      [| split; [reflexivity | eexists; reflexivity]].
    destruct (Hooks.parse_hooks json_loads py_repr int_of_str result_text)
      as [hooks | e] eqn:E;
      [exact (parse_hooks_bounded _ _ _ _ _ E)
      | split; [reflexivity | eexists; reflexivity]].
Qed.

End PipelineFacts.

Section PipelineCache.

Import HookPipeline.

Variable json_loads : string -> option Hooks.json.
Variable py_repr : Hooks.json -> string.
Variable int_of_str : string -> option Z.
Variable md5 : string -> string.
Variable anthropic_api_key : bool.
Variable openai_chat : Transcript.Data -> Py.outcome string.
Variable anthropic_chat : Transcript.Data -> Py.outcome string.

Lemma get_cached_hooks_fresh (url : string) (hooks : list Jobs.Hook) (ts t : Q)
      (c : cache) :
  c !! md5 url = Some (hooks, ts) ->
  (t - ts < 3600)%Q ->
  get_cached_hooks md5 url t c = (Some hooks, c).
Proof.
  intros Hc Hfresh. unfold get_cached_hooks, get_url_cache_key. rewrite Hc.
  rewrite (Qle_bool_false 3600 (t - ts)) by exact Hfresh. reflexivity.
Qed.

(** A run of [process_video_for_hooks] that missed the cache and
    returned has stored its result. *)
Lemma pipeline_stores_result (W : World) (url temp_dir ai_provider : string)
      (t0 t1 : Q) (s s1 : State) (hooks : list Jobs.Hook) :
  hook_cache s !! md5 url = None ->
  process_video_for_hooks json_loads py_repr int_of_str md5 anthropic_api_key
    openai_chat anthropic_chat W url temp_dir ai_provider t0 t1 s
  = (Py.Return hooks, s1) ->
  hook_cache s1 !! md5 url = Some (hooks, t1).
Proof.
  intros Hmiss H. unfold process_video_for_hooks in H.
  apply try_except_return_inv in H; [| intros e s2; reflexivity].
  unfold Py.bind at 1 in H. unfold Py.get in H. cbv beta iota in H.
  unfold get_cached_hooks, get_url_cache_key in H. rewrite Hmiss in H.
  cbv beta iota zeta in H.
  apply bind_return_inv in H as ([] & sa & _ & H).
  apply bind_return_inv in H as (video_path & sb & _ & H).
  apply bind_return_inv in H as (audio_path & sc & _ & H).
  apply bind_return_inv in H as (transcript_data & sd & _ & H).
  apply bind_return_inv in H as (hooks' & se & _ & H).
  apply bind_return_inv in H as ([] & sf & Hstore & H).
  unfold Py.ret in H. injection H as -> ->.
  unfold Py.modify in Hstore. injection Hstore as <-.
  cbn [hook_cache]. unfold cache_hooks, get_url_cache_key.
  apply lookup_insert_eq.
Qed.

(** X14: after a run of [process_video_for_hooks] that missed the cache
    and returned a non-empty list of hooks, every request for the same URL
    made less than 3600 seconds after the result was stored returns that
    list without downloading or analysing anything, whatever provider it
    names and whatever the state of the external services; the state is
    left as it is. An empty list is stored too, but it is never served:
    with a fresh empty entry in the cache the pipeline runs again, and a
    failing download fails the request. *)
Theorem hooks_served_from_cache
        (W : World) (url temp_dir ai_provider : string) (t0 t1 : Q)
        (s s1 : State) (hooks : list Jobs.Hook) :
  hook_cache s !! md5 url = None ->
  process_video_for_hooks json_loads py_repr int_of_str md5 anthropic_api_key
    openai_chat anthropic_chat W url temp_dir ai_provider t0 t1 s
  = (Py.Return hooks, s1) ->
  (hooks <> [] ->
   forall (W' : World) (temp_dir' ai_provider' : string) (t2 t3 : Q),
     (t2 - t1 < 3600)%Q ->
     process_video_for_hooks json_loads py_repr int_of_str md5 anthropic_api_key
       openai_chat anthropic_chat W' url temp_dir' ai_provider' t2 t3 s1
     = (Py.Return hooks, s1))
  /\ (hooks = [] ->
      forall (W' : World) (temp_dir' ai_provider' : string) (t2 t3 : Q) (e : Py.exn),
        (t2 - t1 < 3600)%Q ->
        download W' url temp_dir' true (files s1) = (Py.Raise e, files s1) ->
        process_video_for_hooks json_loads py_repr int_of_str md5
          anthropic_api_key openai_chat anthropic_chat W' url temp_dir'
          ai_provider' t2 t3 s1
        = (Py.Raise (Py.Exn Py.Exception
                       ("Hook detection failed: " +:+ Py.exn_str e)), s1)).
Proof.
  intros Hmiss Hrun.
  pose proof (pipeline_stores_result W url temp_dir ai_provider t0 t1 s s1 hooks
                Hmiss Hrun) as Hstored.
  destruct s1 as [c f]. cbn [hook_cache files] in *.
  split.
  - intros Hne W' temp_dir' ai_provider' t2 t3 Hfresh.
    unfold process_video_for_hooks, Py.try_except.
    unfold Py.bind at 1. unfold Py.get. cbv beta iota. cbn [hook_cache].
    rewrite (get_cached_hooks_fresh url hooks t1 t2 c Hstored Hfresh).
    cbv beta iota zeta. unfold Py.bind at 1. unfold Py.modify. cbn [files].
    destruct hooks as [| h hs]; [congruence |]. reflexivity.
  - intros -> W' temp_dir' ai_provider' t2 t3 e Hfresh Hdl.
    unfold process_video_for_hooks, Py.try_except.
    unfold Py.bind at 1. unfold Py.get. cbv beta iota. cbn [hook_cache].
    rewrite (get_cached_hooks_fresh url [] t1 t2 c Hstored Hfresh).
    cbv beta iota zeta. unfold Py.bind at 1. unfold Py.modify. cbn [files].
    unfold Py.bind at 1. unfold lift_fs at 1. cbn [files hook_cache].
    rewrite Hdl. reflexivity.
Qed.

End PipelineCache.

Lemma hooks_served_from_cache_witness :
  HookPipeline.process_video_for_hooks
    (Spec.one_document Props.one_hook_text Props.one_hook_parsed) (fun _ => "")
    (fun _ => None) (fun u => u) false
    (fun _ => Py.Return ("Here are the hooks: " +:+ Props.one_hook_text))
    (fun _ => Py.Raise (Py.Exn Py.Exception "Connection error."))
    Spec.nothing_works "https://youtube.com/watch?v=abc123" "/tmp/tmpjob2"
    "anthropic" 1800 1800 (snd Props.first_request)
  = (Py.Return [Jobs.mkHook 12 40 "The twist" ""], snd Props.first_request).
Proof.
  refine (proj1 (hooks_served_from_cache
                   (Spec.one_document Props.one_hook_text Props.one_hook_parsed)
                   (fun _ => "") (fun _ => None) (fun u => u) false
                   (fun _ => Py.Return ("Here are the hooks: "
                                        +:+ Props.one_hook_text))
                   (fun _ => Py.Raise (Py.Exn Py.Exception "Connection error."))
                   Props.pipeline_world "https://youtube.com/watch?v=abc123"
                   "/tmp/tmpjob1" "openai" 0%Q 60%Q
                   (HookPipeline.mkState ∅ Props.empty_scratch)
                   (snd Props.first_request)
                   [Jobs.mkHook 12 40 "The twist" ""] _ _)
                _ Spec.nothing_works "/tmp/tmpjob2" "anthropic" 1800%Q 1800%Q _).
  - vm_compute. reflexivity.
  - vm_compute. reflexivity.
  - discriminate.
  - reflexivity.
Defined.

(** ** The transforms and the file clean-up, further properties *)

Section CleanupEffect.

(** One turn of the loop of [cleanup_files]: it returns, and the file
    system is as before or without the regular file at the path. *)
Lemma cleanup_one_effect (p : option string) (f : FS.fs) :
  exists f1,
    FS.cleanup_one p f = (Py.Return tt, f1)
    /\ (f1 = f
        \/ exists q n, p = Some q /\ f !! q = Some (FS.File n) /\ f1 = delete q f)
    /\ (forall q n, p = Some q -> Py.truthy q = true ->
                    f !! q = Some (FS.File n) -> f1 = delete q f).
Proof.
  unfold FS.cleanup_one, Py.try_except.
  destruct p as [q |]; [| exists f; repeat split; [left; reflexivity | discriminate]].
  destruct (Py.truthy q) eqn:Ht;
    [| exists f; repeat split; [left; reflexivity | intros ? ? [= <-]; congruence]].
  unfold FS.exists_, FS.os_remove.
  destruct (f !! q) as [[n |] |] eqn:E.
  - exists (delete q f). split; [reflexivity |]. split.
    + right. exists q, n. repeat split. exact E.
    + intros q' n' [= <-] _ _. reflexivity.
  - exists f. split; [reflexivity |]. split; [left; reflexivity |].
    intros q' n' [= <-] _ H. rewrite E in H. discriminate.
  - exists f. split; [reflexivity |]. split; [left; reflexivity |].
    intros q' n' [= <-] _ H. rewrite E in H. discriminate.
Qed.

Lemma cleanup_files_cons (p : option string) (rest : list (option string))
      (f f1 : FS.fs) :
  FS.cleanup_one p f = (Py.Return tt, f1) ->
  FS.cleanup_files (p :: rest) f = FS.cleanup_files rest f1.
Proof. intros H. cbn [FS.cleanup_files]. unfold Py.bind. rewrite H. reflexivity. Qed.

(** [cleanup_files] creates nothing. *)
Lemma cleanup_files_creates_nothing (file_paths : list (option string)) :
  forall (f : FS.fs) (q : string),
    f !! q = None -> snd (FS.cleanup_files file_paths f) !! q = None.
Proof.
  induction file_paths as [| p rest IH]; intros f q Hq; [exact Hq |].
  destruct (cleanup_one_effect p f) as (f1 & Hone & [-> | (x & n & _ & _ & ->)] & _);
    rewrite (cleanup_files_cons _ _ _ _ Hone); apply IH; [exact Hq |].
  destruct (decide (x = q)) as [-> | Hne];
    [apply lookup_delete_eq | rewrite lookup_delete_ne by exact Hne; exact Hq].
Qed.

(** What [cleanup_files] does to the file system. *)
Lemma cleanup_files_spec (file_paths : list (option string)) (f : FS.fs) :
  (forall p n, In (Some p) file_paths -> Py.truthy p = true ->
               f !! p = Some (FS.File n) ->
               snd (FS.cleanup_files file_paths f) !! p = None)
  /\ (forall q, f !! q = Some FS.Dir ->
                snd (FS.cleanup_files file_paths f) !! q = Some FS.Dir)
  /\ (forall q, ~ In (Some q) file_paths ->
                snd (FS.cleanup_files file_paths f) !! q = f !! q).
Proof.
  revert f. induction file_paths as [| p rest IH]; intros f.
  { split; [intros p n [] | split; [intros q H; exact H | reflexivity]]. }
  destruct (cleanup_one_effect p f) as (f1 & Hone & Hshape & Hdel).
  rewrite (cleanup_files_cons _ _ _ _ Hone).
  destruct (IH f1) as (IHfile & IHdir & IHother).
  split; [| split].
  - intros q n Hin Ht Hq.
    destruct (f1 !! q) as [[k |] |] eqn:E1.
    + destruct Hin as [-> | Hin].
      * rewrite (Hdel q n eq_refl Ht Hq) in E1.
        rewrite lookup_delete_eq in E1. discriminate.
      * apply (IHfile q k Hin Ht E1).
    + destruct Hshape as [-> | (x & m & _ & _ & ->)]; [congruence |].
      destruct (decide (x = q)) as [-> | Hne].
      * rewrite lookup_delete_eq in E1. discriminate.
      * rewrite lookup_delete_ne in E1 by exact Hne. congruence.
    + apply cleanup_files_creates_nothing. exact E1.
  - intros q Hq. apply IHdir.
    destruct Hshape as [-> | (x & m & _ & Hx & ->)]; [exact Hq |].
    rewrite lookup_delete_ne; [exact Hq |]. intros ->. congruence.
  - intros q Hq. rewrite IHother by (intros Hin; apply Hq; right; exact Hin).
    destruct Hshape as [-> | (x & m & -> & _ & ->)]; [reflexivity |].
    apply lookup_delete_ne. intros ->. apply Hq. left. reflexivity.
Qed.


(** X15: [cleanup_files] never raises; it removes every regular file it
    is handed, keeps every directory, also one it is handed, creates
    nothing, and touches no path that is not among its arguments. *)
Theorem cleanup_files_effect (file_paths : list (option string)) (f : FS.fs) :
  fst (FS.cleanup_files file_paths f) = Py.Return tt
  /\ (forall p n, In (Some p) file_paths -> Py.truthy p = true ->
                  f !! p = Some (FS.File n) ->
                  snd (FS.cleanup_files file_paths f) !! p = None)
  /\ (forall q, f !! q = Some FS.Dir ->
                snd (FS.cleanup_files file_paths f) !! q = Some FS.Dir)
  /\ (forall q, f !! q = None -> snd (FS.cleanup_files file_paths f) !! q = None)
  /\ (forall q, ~ In (Some q) file_paths ->
                snd (FS.cleanup_files file_paths f) !! q = f !! q).
Proof.
  destruct (cleanup_files_spec file_paths f) as (Hfile & Hdir & Hother).
  split; [apply cleanup_files_returns |].
  split; [exact Hfile |].
  split; [exact Hdir |].
  split; [| exact Hother].
  intros q Hq. apply cleanup_files_creates_nothing. exact Hq.
Qed.

Lemma cleanup_files_effect_witness :
  snd (FS.cleanup_files [Some "/tmp/tmpjob1"; Some "/tmp/tmpjob1/source.mp4"]
                        Spec.scratch_fs)
  !! "/tmp/tmpjob1/source.mp4" = None.
Proof.
  apply (proj1 (proj2 (cleanup_files_effect
                         [Some "/tmp/tmpjob1"; Some "/tmp/tmpjob1/source.mp4"]
                         Spec.scratch_fs))
               "/tmp/tmpjob1/source.mp4" 5000000%N).
  - right. left. reflexivity.
  - reflexivity.
  - vm_compute. reflexivity.
Defined.

End CleanupEffect.

Section OptimizedOutput.

Import Transform.

(** The [except] blocks of [trim_video_vertical_optimized] all end in a
    [raise]. *)
Lemma optimized_handler_raises (output : string) (processing_timeout : N)
      (e : Py.exn) (f : FS.fs) :
  Py.is_return
    (fst (match Py.exn_cls e with
          | Py.TimeoutExpired =>
              Py.bind Py.get (fun f0 : FS.fs =>
                Py.bind (if FS.exists_ f0 output then FS.os_remove output
                         else Py.ret tt)
                        (fun _ =>
                           Py.raise (Py.Exn Py.ProcessingTimeoutError
                                       ("Video processing timed out after "
                                        +:+ Str.digits processing_timeout
                                        +:+ " seconds"))))
          | Py.CalledProcessError stderr =>
              Py.raise (Py.Exn Py.Exception ("Failed to process video: " +:+ stderr))
          | _ =>
              Py.raise (Py.Exn Py.Exception
                          ("Failed to process video: " +:+ Py.exn_str e))
          end f : Py.outcome string * FS.fs))
  = false.
Proof.
  destruct (Py.exn_cls e); try reflexivity.
  unfold Py.bind, Py.get. destruct (FS.exists_ f output); [| reflexivity].
  destruct (FS.os_remove output f) as [[[] | e'] f1]; reflexivity.
Qed.

(** When [trim_video_vertical_optimized] returns, it returns the output
    path. *)
Lemma optimized_returns_output_path
      (W : World) (input output : string) (start_time end_time : Q)
      (transcript_data : option Transcript.Data) (add_subtitles : bool)
      (processing_timeout : N) (f f' : FS.fs) (p : string) :
  trim_video_vertical_optimized W input output start_time end_time
    transcript_data add_subtitles processing_timeout f = (Py.Return p, f') ->
  p = output.
Proof.
  intros H. unfold trim_video_vertical_optimized in H.
  apply try_except_return_inv in H;
    [| intros e s1; apply optimized_handler_raises].
  destruct (usable_dimensions (video_dimensions W input)) as [[width height] |];
    [| discriminate H].
  apply bind_return_inv in H as (sub & f1 & _ & H).
  apply bind_return_inv in H as (cp & f2 & _ & H).
  apply bind_return_inv in H as (f3 & f4 & Hget & H).
  unfold Py.get in Hget. injection Hget as <- <-.
  destruct (FS.exists_ f2 output); [| discriminate H].
  apply bind_return_inv in H as (size & f5 & _ & H).
  destruct (size <? 1024 * 100)%N; [discriminate H |].
  injection H as <- _. reflexivity.
Qed.

(** X16: whenever [trim_video_vertical_optimized] returns, it returns the
    output path, and a regular file of at least 100 KB (102400 bytes) is
    at that path. *)
Theorem optimized_output_has_minimum_size
        (W : World) (input output : string) (start_time end_time : Q)
        (transcript_data : option Transcript.Data) (add_subtitles : bool)
        (processing_timeout : N) (f f' : FS.fs) (p : string) :
  trim_video_vertical_optimized W input output start_time end_time
    transcript_data add_subtitles processing_timeout f = (Py.Return p, f') ->
  p = output
  /\ exists n, f' !! output = Some (FS.File n) /\ (102400 <= n)%N.
Proof.
  intros H. unfold trim_video_vertical_optimized in H.
  apply try_except_return_inv in H;
    [| intros e s1; apply optimized_handler_raises].
  destruct (usable_dimensions (video_dimensions W input)) as [[width height] |];
    [| discriminate H].
  apply bind_return_inv in H as (sub & f1 & _ & H).
  apply bind_return_inv in H as (cp & f2 & _ & H).
  apply bind_return_inv in H as (f3 & f4 & Hget & H).
  unfold Py.get in Hget. injection Hget as <- <-.
  destruct (FS.exists_ f2 output); [| discriminate H].
  apply bind_return_inv in H as (size & f5 & Hsize & H).
  unfold FS.getsize in Hsize.
  destruct (f2 !! output) as [[k |] |] eqn:E; [| | discriminate Hsize].
  - injection Hsize as <- <-.
    destruct (N.ltb_spec k (1024 * 100)) as [Hlt | Hge]; [discriminate H |].
    injection H as <- <-. split; [reflexivity |].
    exists k. split; [exact E | lia].
  - injection Hsize as <- <-. discriminate H.
Qed.

Lemma optimized_output_has_minimum_size_witness :
  "/tmp/tmpjob1/out.mp4" = "/tmp/tmpjob1/out.mp4"
  /\ exists n,
      <["/tmp/tmpjob1/out.mp4" := FS.File 2000000]> Spec.scratch_fs
      !! "/tmp/tmpjob1/out.mp4" = Some (FS.File n)
      /\ (102400 <= n)%N.
Proof.
  apply (optimized_output_has_minimum_size
           (Spec.encoder_world 2 ["/tmp/tmpjob1/out.mp4"] 2000000 1280 720)
           "/tmp/tmpjob1/source.mp4" "/tmp/tmpjob1/out.mp4" 30 60 None false 1800
           Spec.scratch_fs).
  vm_compute. reflexivity.
Defined.

End OptimizedOutput.

Section PatchedTransform.

Import Transform QuickFix.

(** Whatever [trim_video_vertical] raises is a plain [Exception]. *)
Lemma trim_video_vertical_raises_exception
      (W : World) (input output : string) (start_time end_time : Q)
      (transcript_data : option Transcript.Data) (add_subtitles : bool) (f : FS.fs) :
  Py.raised_class (fst (trim_video_vertical W input output start_time end_time
                          transcript_data add_subtitles f)) = None
  \/ Py.raised_class (fst (trim_video_vertical W input output start_time end_time
                             transcript_data add_subtitles f))
     = Some Py.Exception.
Proof.
  apply try_except_wraps. intros e s. destruct (Py.exn_cls e); reflexivity.
Qed.

(** X17: the function [apply_quick_fix] installs as
    [utils.trim_video_vertical] never raises [ProcessingTimeoutError]: a
    time-out of the optimized transform reaches the caller as a plain
    [Exception] with the message "Video processing timed out - please try a
    shorter segment", and a window of at most 300 seconds without
    subtitles goes to the original transform, which raises nothing but
    [Exception]. *)
Theorem patched_transform_hides_timeout_error
        (W : World) (input output : string) (start_time end_time : Q)
        (transcript_data : option Transcript.Data) (add_subtitles : bool) (f : FS.fs) :
  Py.raised_class (fst (patched_trim_video_vertical W input output start_time
                          end_time transcript_data add_subtitles f))
  <> Some Py.ProcessingTimeoutError
  /\ (forall e f',
        negb (Qle_bool (end_time - start_time) 300) || add_subtitles = true ->
        trim_video_vertical_optimized W input output start_time end_time
          transcript_data add_subtitles 600 f = (Py.Raise e, f') ->
        Py.exn_cls e = Py.ProcessingTimeoutError ->
        patched_trim_video_vertical W input output start_time end_time
          transcript_data add_subtitles f
        = (Py.Raise (Py.Exn Py.Exception
             "Video processing timed out - please try a shorter segment"), f'))
  /\ ((end_time - start_time <= 300)%Q -> add_subtitles = false ->
      Py.raised_class (fst (patched_trim_video_vertical W input output start_time
                              end_time transcript_data add_subtitles f)) = None
      \/ Py.raised_class (fst (patched_trim_video_vertical W input output
                                 start_time end_time transcript_data
                                 add_subtitles f))
         = Some Py.Exception).
Proof.
  split; [| split].
  - unfold patched_trim_video_vertical.
    destruct (negb (Qle_bool (end_time - start_time) 300) || add_subtitles).
    + unfold Py.try_except.
      destruct (trim_video_vertical_optimized W input output start_time end_time
                  transcript_data add_subtitles 600 f) as [[p | e] f1];
        [discriminate |].
      destruct e as [cls msg]. destruct cls; cbn; discriminate.
    + destruct (trim_video_vertical_raises_exception W input output start_time
                  end_time transcript_data add_subtitles f) as [-> | ->];
        discriminate.
  - intros e f' Hbranch Hrun Hcls. unfold patched_trim_video_vertical.
    rewrite Hbranch. unfold Py.try_except. rewrite Hrun, Hcls. reflexivity.
  - intros Hshort ->. unfold patched_trim_video_vertical.
    apply Qle_bool_iff in Hshort. rewrite Hshort. cbn [negb orb].
    apply trim_video_vertical_raises_exception.
Qed.

Lemma patched_transform_hides_timeout_error_witness :
  patched_trim_video_vertical
    (Spec.encoder_world 1000000 ["/tmp/tmpjob1/out.mp4"] 2000000 1280 720)
    "/tmp/tmpjob1/source.mp4" "/tmp/tmpjob1/out.mp4" 0 400 None false
    Spec.scratch_fs
  = (Py.Raise (Py.Exn Py.Exception
       "Video processing timed out - please try a shorter segment"),
     Spec.scratch_fs).
Proof.
  apply (proj1 (proj2 (patched_transform_hides_timeout_error
                         (Spec.encoder_world 1000000 ["/tmp/tmpjob1/out.mp4"]
                                             2000000 1280 720)
                         "/tmp/tmpjob1/source.mp4" "/tmp/tmpjob1/out.mp4" 0 400
                         None false Spec.scratch_fs))
               (Py.Exn Py.ProcessingTimeoutError
                       ("Video processing timed out after "
                        +:+ Str.digits 600 +:+ " seconds"))).
  - reflexivity.
  - vm_compute. reflexivity.
  - reflexivity.
Defined.

End PatchedTransform.

Section SubtitleFileLifecycle.

Import Transform.

(** A command that returned has run to its end, and the file system is
    the one its writes leave. *)
Lemma subprocess_run_returns_inv (b : Proc.behaviour) (timeout : option N)
      (check : bool) (f f' : FS.fs) (cp : Proc.CompletedProcess) :
  Proc.subprocess_run b timeout check f = (Py.Return cp, f') ->
  exists r, b = Proc.Runs r /\ f' = Proc.apply_writes (Proc.writes r) f.
Proof.
  unfold Proc.subprocess_run. destruct b as [msg | r]; [discriminate |].
  destruct (Proc.timed_out timeout r); [discriminate |].
  destruct (check && negb (Proc.returncode r =? 0)%Z); [discriminate |].
  intros [= _ <-]. exists r. split; reflexivity.
Qed.

Lemma create_subtitle_file_spec (d : Transcript.Data) (p : string) (s e : Q)
      (f : FS.fs) :
  let n := N.of_nat (String.length (Subtitles.subtitle_content d s e)) in
  (Props.writable f p = true ->
   Subtitles.create_subtitle_file d p s e f = (Py.Return p, <[p := FS.File n]> f))
  /\ (Props.writable f p = false ->
      exists m,
        Subtitles.create_subtitle_file d p s e f
        = (Py.Raise (Py.Exn Py.Exception ("Failed to create subtitle file: " +:+ m)),
           f)).
Proof.
  intros n. unfold Props.writable, Subtitles.create_subtitle_file, Py.try_except,
    Py.bind, FS.write_file. fold n.
  destruct (f !! p) as [[k |] |]; split; intros H; try discriminate H;
    try rewrite H; try reflexivity; eexists; reflexivity.
Qed.

(** X18: when the subtitle file of [trim_video_vertical] can be written
    beside the output, it is removed when the function returns, and is
    left behind when the media tool cannot be started or exits with a
    status other than 0: the function then raises, with the file still
    there. When the file cannot be written (a directory sits at its
    path, or the directory of the output is missing) the function raises
    before the media tool is run, and the file system is as it was. *)
Theorem vertical_subtitle_file_lifecycle
        (W : World) (input output : string) (start_time end_time : Q)
        (transcript_data : Transcript.Data) (f : FS.fs) (width height : Z) :
  usable_dimensions (video_dimensions W input) = Some (width, height) ->
  Transcript.truthy transcript_data = true ->
  let subtitle_file := FS.path_join (FS.dirname output) "subtitles.srt" in
  let command := vertical_command input output start_time end_time width height
                   (Some subtitle_file) in
  let res := trim_video_vertical W input output start_time end_time
               (Some transcript_data) true f in
  (forall p, fst res = Py.Return p -> snd res !! subtitle_file = None)
  /\ (Props.writable f subtitle_file = true ->
      forall r, ffmpeg W command = Proc.Runs r -> Proc.returncode r <> 0 ->
        fst res = Py.Raise (Py.Exn Py.Exception
                    ("Failed to process video: " +:+ Proc.stderr r))
        /\ Spec.is_file (snd res) subtitle_file)
  /\ (Props.writable f subtitle_file = true ->
      forall msg, ffmpeg W command = Proc.CannotStart msg ->
        fst res = Py.Raise (Py.Exn Py.Exception ("Failed to process video: " +:+ msg))
        /\ Spec.is_file (snd res) subtitle_file)
  /\ (Props.writable f subtitle_file = false ->
      exists m,
        res = (Py.Raise (Py.Exn Py.Exception
                 ("Failed to process video: Failed to create subtitle file: " +:+ m)),
               f)).
Proof.
  intros Hdim Htruthy subtitle_file command res.
  assert (wants_subtitles true (Some transcript_data) = Some transcript_data) as Hw.
  { unfold wants_subtitles. rewrite Htruthy. reflexivity. }
  set (n := N.of_nat (String.length
                        (Subtitles.subtitle_content transcript_data start_time
                                                    end_time))).
  assert (Spec.is_file (<[subtitle_file := FS.File n]> f) subtitle_file) as Hfile.
  { exists n. apply lookup_insert_eq. }
  destruct (create_subtitle_file_spec transcript_data subtitle_file start_time
              end_time f) as [Hok Hfail]. fold n in Hok.
  split; [| split; [| split]].
  - intros p Hret.
    destruct res as [o f'] eqn:Hres. cbn [fst snd] in *. subst o.
    unfold res, trim_video_vertical in Hres. rewrite Hdim, Hw in Hres.
    apply try_except_return_inv in Hres;
      [| intros e s1; destruct (Py.exn_cls e); reflexivity].
    apply bind_return_inv in Hres as (sf & f1 & Hcreate & Hres).
    fold subtitle_file in Hcreate.
    destruct (Props.writable f subtitle_file) eqn:Hwr.
    2:{ destruct (Hfail eq_refl) as [m Hm]. rewrite Hm in Hcreate.
        discriminate Hcreate. }
    rewrite (Hok eq_refl) in Hcreate. injection Hcreate as <- <-.
    apply bind_return_inv in Hres as (cp & f2 & Hrun & Hres).
    apply subprocess_run_returns_inv in Hrun as (r & _ & ->).
    apply bind_return_inv in Hres as (f3 & f4 & Hget & Hres).
    unfold Py.get in Hget. injection Hget as <- <-.
    destruct (FS.exists_ _ output); [| discriminate Hres].
    apply bind_return_inv in Hres as ([] & f5 & Hrm & Hres).
    unfold Py.ret in Hres. injection Hres as _ <-.
    destruct (apply_writes_keeps_file (Proc.writes r) _ subtitle_file Hfile)
      as [k Hk].
    fold subtitle_file in Hrm.
    unfold Py.try_except, FS.os_remove in Hrm. rewrite Hk in Hrm.
    injection Hrm as <-. apply lookup_delete_eq.
  - intros Hwr r Hrun Hrc.
    assert (res = (Py.Raise (Py.Exn Py.Exception
                               ("Failed to process video: " +:+ Proc.stderr r)),
                   Proc.apply_writes (Proc.writes r)
                                     (<[subtitle_file := FS.File n]> f))) as ->.
    { unfold res, trim_video_vertical. rewrite Hdim, Hw.
      unfold Py.try_except at 1. unfold Py.bind at 1.
      fold subtitle_file. rewrite (Hok Hwr).
      unfold Py.bind at 1. fold command. rewrite Hrun.
      unfold Proc.subprocess_run, Proc.timed_out.
      apply Z.eqb_neq in Hrc. rewrite Hrc. reflexivity. }
    split; [reflexivity |].
    apply apply_writes_keeps_file. exact Hfile.
  - intros Hwr msg Hrun.
    assert (res = (Py.Raise (Py.Exn Py.Exception
                               ("Failed to process video: " +:+ msg)),
                   <[subtitle_file := FS.File n]> f)) as ->.
    { unfold res, trim_video_vertical. rewrite Hdim, Hw.
      unfold Py.try_except at 1. unfold Py.bind at 1.
      fold subtitle_file. rewrite (Hok Hwr).
      unfold Py.bind at 1. fold command. rewrite Hrun. reflexivity. }
    split; [reflexivity | exact Hfile].
  - intros Hwr. destruct (Hfail Hwr) as [m Hm]. exists m.
    unfold res, trim_video_vertical. rewrite Hdim, Hw.
    unfold Py.try_except at 1. unfold Py.bind at 1.
    fold subtitle_file. rewrite Hm. reflexivity.
Qed.

Lemma vertical_subtitle_file_lifecycle_witness :
  fst (trim_video_vertical Spec.failing_trim_world "/tmp/tmpjob1/source.mp4"
         "/tmp/tmpjob1/out.mp4" 10 20 (Some Spec.two_segments) true Spec.scratch_fs)
  = Py.Raise (Py.Exn Py.Exception
                ("Failed to process video: "
                 +:+ "Invalid data found when processing input"))
  /\ Spec.is_file
       (snd (trim_video_vertical Spec.failing_trim_world "/tmp/tmpjob1/source.mp4"
               "/tmp/tmpjob1/out.mp4" 10 20 (Some Spec.two_segments) true
               Spec.scratch_fs))
       "/tmp/tmpjob1/subtitles.srt".
Proof.
  apply (proj1 (proj2 (vertical_subtitle_file_lifecycle
                         Spec.failing_trim_world "/tmp/tmpjob1/source.mp4"
                         "/tmp/tmpjob1/out.mp4" 10 20 Spec.two_segments
                         Spec.scratch_fs 1280 720 eq_refl eq_refl))
               eq_refl
               (Proc.mkRun 1 1 "" "Invalid data found when processing input" [])).
  - reflexivity.
  - vm_compute. discriminate.
Defined.

End SubtitleFileLifecycle.

(** ** The job store and the orchestrator, further properties *)

Section JobStoreFrame.

Import Jobs.

Lemma update_fields_same_request now st pr msg res err (job : Job) :
  Props.same_request job (update_fields now st pr msg res err job)
  /\ updated_at (update_fields now st pr msg res err job) = now.
Proof.
  unfold update_fields, Props.same_request.
  destruct st, pr, msg as [m |], res, err as [e |];
    try destruct (Py.truthy m); try destruct (Py.truthy e);
    repeat split; reflexivity.
Qed.

(** X19: [update_job] changes one job only and never adds or removes
    one: every other job is as before, an unknown id leaves the store as
    it is, and the job it updates keeps its id, creation time, request
    (type, URL, window, format, subtitles, provider), scratch directory and
    recorded paths, with [updated_at] set to the time of the call. *)
Theorem update_job_frame (jobs : gmap string Job) (now : Q) (job_id : string)
        (st : option JobStatus) (pr : option Z) (msg : option string)
        (res : option JobResult) (err : option string) :
  (forall other, other <> job_id ->
     update_job jobs now job_id st pr msg res err !! other = jobs !! other)
  /\ (jobs !! job_id = None ->
      update_job jobs now job_id st pr msg res err = jobs)
  /\ (forall job, jobs !! job_id = Some job ->
        exists job',
          update_job jobs now job_id st pr msg res err !! job_id = Some job'
          /\ Props.same_request job job'
          /\ updated_at job' = now).
Proof.
  split; [| split].
  - intros other Hne. unfold update_job.
    destruct (jobs !! job_id); [| reflexivity].
    apply lookup_insert_ne. congruence.
  - intros Hnone. unfold update_job. rewrite Hnone. reflexivity.
  - intros job Hjob. eexists. split; [apply update_job_lookup; exact Hjob |].
    apply update_fields_same_request.
Qed.

Lemma update_job_frame_witness :
  update_job Spec.store0 5 "job-2" (Some COMPLETED) (Some 100) None None None
  = Spec.store0
  /\ exists job',
       update_job Spec.store0 5 "job-1" (Some COMPLETED) (Some 100) None None None
       !! "job-1" = Some job'
       /\ Props.same_request Props.scenario_job job'
       /\ updated_at job' = 5%Q.
Proof.
  split.
  - apply (proj1 (proj2 (update_job_frame Spec.store0 5 "job-2" (Some COMPLETED)
                           (Some 100) None None None))).
    vm_compute. reflexivity.
  - apply (proj2 (proj2 (update_job_frame Spec.store0 5 "job-1" (Some COMPLETED)
                           (Some 100) None None None))).
    vm_compute. reflexivity.
Defined.

End JobStoreFrame.

Section CleanupJob.

Import Jobs Orchestrator.

(** [shutil.rmtree] creates nothing, and on a directory removes it and
    all that lies below it. *)
Lemma rmtree_effect (d : string) (f : FS.fs) :
  (forall q, f !! q = None -> snd (FS.rmtree d f) !! q = None)
  /\ (f !! d = Some FS.Dir ->
      fst (FS.rmtree d f) = Py.Return tt
      /\ snd (FS.rmtree d f) !! d = None
      /\ forall p, FS.below d p = true -> snd (FS.rmtree d f) !! p = None).
Proof.
  unfold FS.rmtree. split.
  - intros q Hq. destruct (f !! d) as [[n |] |]; cbn [snd]; try exact Hq.
    apply map_lookup_filter_None_2. left.
    destruct (decide (d = q)) as [-> | Hne];
      [apply lookup_delete_eq | rewrite lookup_delete_ne by exact Hne; exact Hq].
  - intros ->. cbn [fst snd]. split; [reflexivity |]. split.
    + apply map_lookup_filter_None_2. left. apply lookup_delete_eq.
    + intros p Hp. apply map_lookup_filter_None_2. right.
      intros x _. cbn [fst]. rewrite Hp. discriminate.
Qed.

(** The removal of the scratch directory in [cleanup_job], failures
    dropped. *)
Lemma remove_scratch_effect (td : option string) (s1 : State) :
  exists f2,
    match td with
    | Some d =>
        if Py.truthy d
        then Py.try_except (lift_fs (FS.rmtree d)) (fun _ => Py.ret tt)
        else Py.ret tt
    | None => Py.ret tt
    end s1 = (Py.Return tt, mkState (jobs s1) f2)
    /\ (forall q, files s1 !! q = None -> f2 !! q = None)
    /\ (forall d, td = Some d -> Py.truthy d = true ->
                  files s1 !! d = Some FS.Dir ->
                  f2 !! d = None
                  /\ forall p, FS.below d p = true -> f2 !! p = None).
Proof.
  destruct s1 as [js f1]. cbn [jobs files].
  destruct td as [d |];
    [| exists f1; split; [reflexivity | split; [auto | discriminate]]].
  destruct (Py.truthy d) eqn:Ht;
    [| exists f1; split; [reflexivity
                         | split; [auto | intros ? [= <-]; congruence]]].
  destruct (rmtree_effect d f1) as [Hnone Hdir].
  unfold Py.try_except, lift_fs. cbn [files jobs].
  destruct (FS.rmtree d f1) as [[[] | e] f2] eqn:E; cbn [fst snd] in *.
  - exists f2. split; [reflexivity |]. split; [exact Hnone |].
    intros d' [= <-] _ Hd. destruct (Hdir Hd) as (_ & H1 & H2). split; assumption.
  - exists f2. split; [reflexivity |]. split; [exact Hnone |].
    intros d' [= <-] _ Hd. destruct (Hdir Hd) as (Habs & _). discriminate Habs.
Qed.

(** X20: for a job in the store [cleanup_job] never raises; afterwards
    the job is no longer in the store while every other job is, every
    recorded regular file is gone, and when the job's scratch directory
    exists it is gone with everything below it. *)
Theorem cleanup_job_removes_job_and_scratch (job_id : string) (s : State) (job : Job) :
  jobs s !! job_id = Some job ->
  fst (cleanup_job job_id s) = Py.Return tt
  /\ jobs (snd (cleanup_job job_id s)) !! job_id = None
  /\ (forall other, other <> job_id ->
        jobs (snd (cleanup_job job_id s)) !! other = jobs s !! other)
  /\ (forall p n, In p (file_paths job) -> Py.truthy p = true ->
                  files s !! p = Some (FS.File n) ->
                  files (snd (cleanup_job job_id s)) !! p = None)
  /\ (forall d, temp_dir job = Some d -> Py.truthy d = true ->
                files s !! d = Some FS.Dir ->
                files (snd (cleanup_job job_id s)) !! d = None
                /\ forall p, FS.below d p = true ->
                             files (snd (cleanup_job job_id s)) !! p = None).
Proof.
  intros Hjob.
  destruct (cleanup_files_spec (map Some (file_paths job)) (files s))
    as (Hfiles & Hdirs & _).
  pose proof (cleanup_files_returns (map Some (file_paths job)) (files s)) as Hret.
  destruct (FS.cleanup_files (map Some (file_paths job)) (files s)) as [o f1] eqn:E1.
  cbn [fst snd] in *. subst o.
  destruct (remove_scratch_effect (temp_dir job) (mkState (jobs s) f1))
    as (f2 & Hstep & Hnone & Hscratch).
  cbn [jobs files] in *.
  assert (cleanup_job job_id s
          = (Py.Return tt, mkState (delete job_id (jobs s)) f2)) as ->.
  { unfold cleanup_job. rewrite Hjob. unfold Py.bind at 1.
    unfold lift_fs at 1. rewrite E1.
    unfold Py.bind at 1. rewrite Hstep. reflexivity. }
  cbn [fst snd jobs files].
  split; [reflexivity |]. split; [apply lookup_delete_eq |].
  split; [intros other Hne; apply lookup_delete_ne; congruence |].
  split.
  - intros p n Hin Ht Hp. apply Hnone. apply (Hfiles p n); [| exact Ht | exact Hp].
    apply in_map. exact Hin.
  - intros d Hd Ht Hdir. apply (Hscratch d Hd Ht). apply Hdirs. exact Hdir.
Qed.

Lemma cleanup_job_removes_job_and_scratch_witness :
  fst (cleanup_job "job-1" Props.downloaded) = Py.Return tt
  /\ jobs (snd (cleanup_job "job-1" Props.downloaded)) !! "job-1" = None
  /\ files (snd (cleanup_job "job-1" Props.downloaded)) !! "/tmp/tmpjob1/source.mp4"
     = None
  /\ files (snd (cleanup_job "job-1" Props.downloaded)) !! "/tmp/tmpjob1" = None.
Proof.
  destruct (cleanup_job_removes_job_and_scratch "job-1" Props.downloaded
              Props.downloaded_job)
    as (Hret & Hgone & _ & Hfiles & Hscratch).
  - vm_compute. reflexivity.
  - split; [exact Hret |]. split; [exact Hgone |]. split.
    + apply (Hfiles "/tmp/tmpjob1/source.mp4" 5000000%N).
      * left. reflexivity.
      * reflexivity.
      * vm_compute. reflexivity.
    + refine (proj1 (Hscratch "/tmp/tmpjob1" eq_refl eq_refl _)).
      vm_compute. reflexivity.
Defined.

End CleanupJob.

Section PathFacts.

Lemma app_nonempty_r (a b : string) : b <> "" -> a +:+ b <> "".
Proof.
  intros Hb. destruct a; [rewrite append_nil; exact Hb |].
  rewrite append_cons. discriminate.
Qed.

Lemma last_char_app (a b : string) :
  b <> "" -> Props.last_char (a +:+ b) = Props.last_char b.
Proof.
  intros Hb. induction a as [| c a IH]; [reflexivity |].
  rewrite append_cons. cbn [Props.last_char].
  destruct (a +:+ b) eqn:E; [| exact IH].
  exfalso. apply (app_nonempty_r a b Hb). exact E.
Qed.

(** The subtitle file of [trim_video_vertical] is not the output file of
    the orchestrator. *)
Lemma subtitle_path_not_output (temp_dir job_id : string) :
  FS.path_join (FS.dirname (temp_dir +:+ "/trimmed_" +:+ job_id +:+ ".mp4"))
               "subtitles.srt"
  <> temp_dir +:+ "/trimmed_" +:+ job_id +:+ ".mp4".
Proof.
  intros H. apply (f_equal Props.last_char) in H.
  rewrite (last_char_app temp_dir) in H
    by (rewrite append_cons; discriminate).
  rewrite (last_char_app "/trimmed_") in H
    by (apply app_nonempty_r; discriminate).
  rewrite (last_char_app job_id) in H by discriminate.
  unfold FS.path_join in H.
  change (String.prefix "/" "subtitles.srt") with false in H. cbv iota in H.
  destruct (negb (Py.truthy _) || FS.ends_with_slash _) in H.
  - rewrite last_char_app in H by discriminate. discriminate H.
  - rewrite last_char_app in H by discriminate. discriminate H.
Qed.

End PathFacts.

Section TransformReturns.

Import Transform.

(** When [trim_video] returns, it returns the output path and the path
    exists. *)
Lemma trim_video_returns_existing
      (W : World) (input output : string) (start_time end_time : Q)
      (f f' : FS.fs) (p : string) :
  trim_video W input output start_time end_time f = (Py.Return p, f') ->
  p = output /\ FS.exists_ f' output = true.
Proof.
  intros H. unfold trim_video in H.
  apply try_except_return_inv in H;
    [| intros e s1; destruct (Py.exn_cls e); reflexivity].
  apply bind_return_inv in H as (cp & f1 & _ & H).
  apply bind_return_inv in H as (f2 & f3 & Hget & H).
  unfold Py.get in Hget. injection Hget as <- <-.
  destruct (FS.exists_ f1 output) eqn:E; [| discriminate H].
  injection H as <- <-. split; [reflexivity | exact E].
Qed.

(** The same for [trim_video_vertical], whose subtitle file is removed
    after the check: the output is still there when it is another path. *)
Lemma trim_video_vertical_returns_existing
      (W : World) (input output : string) (start_time end_time : Q)
      (transcript_data : option Transcript.Data) (add_subtitles : bool)
      (f f' : FS.fs) (p : string) :
  FS.path_join (FS.dirname output) "subtitles.srt" <> output ->
  trim_video_vertical W input output start_time end_time transcript_data
                      add_subtitles f = (Py.Return p, f') ->
  p = output /\ FS.exists_ f' output = true.
Proof.
  intros Hne H. unfold trim_video_vertical in H.
  apply try_except_return_inv in H;
    [| intros e s1; destruct (Py.exn_cls e); reflexivity].
  destruct (usable_dimensions (video_dimensions W input)) as [[width height] |];
    [| discriminate H].
  apply bind_return_inv in H as (sf & f1 & _ & H).
  apply bind_return_inv in H as (cp & f2 & _ & H).
  apply bind_return_inv in H as (f3 & f4 & Hget & H).
  unfold Py.get in Hget. injection Hget as <- <-.
  destruct (FS.exists_ f2 output) eqn:E; [| discriminate H].
  apply bind_return_inv in H as ([] & f5 & Hrm & H).
  injection H as <- <-. split; [reflexivity |].
  destruct (wants_subtitles add_subtitles transcript_data).
  - unfold Py.try_except in Hrm.
    pose proof (os_remove_other (FS.path_join (FS.dirname output) "subtitles.srt")
                  output f2 Hne) as Hother.
    destruct (FS.os_remove _ f2) as [[[] | e] f6]; cbn [snd] in Hother;
      injection Hrm as <-; unfold FS.exists_ in *; rewrite Hother; exact E.
  - injection Hrm as <-. exact E.
Qed.

End TransformReturns.

Section TrimJobOutcome.

Import Jobs Orchestrator.

Ltac keeps_job :=
  repeat first
    [ apply keeps_ret
    | apply keeps_raise
    | apply keeps_update_job
    | apply keeps_modify_job
    | apply keeps_lift_fs
    | apply keeps_bind; [| intros ?]
    | apply keeps_try_except; [| intros ?]
    | match goal with
      | |- Spec.keeps _ (match ?x with _ => _ end) => destruct x
      end ].

Lemma bind_return_keeps {S A B} (P : S -> Prop) (m : Py.M S A)
      (k : A -> Py.M S B) (s s' : S) (b : B) :
  Spec.keeps P m -> P s ->
  Py.bind m k s = (Py.Return b, s') ->
  exists a s1, m s = (Py.Return a, s1) /\ P s1 /\ k a s1 = (Py.Return b, s').
Proof.
  intros Hk Hs H. specialize (Hk s Hs).
  apply bind_return_inv in H as (a & s1 & Hm & H).
  rewrite Hm in Hk. exists a, s1. repeat split; assumption.
Qed.

(** The [try] block of [_process_trim_job], when it runs to its end: the
    last update marks the job completed with its result, and the file of
    the result exists. *)
Lemma trim_job_body_returns (W : World) (job_id : string) (job : Job)
      (s s' : State) :
  Spec.has_job job_id s ->
  trim_job_body W job_id job s = (Py.Return tt, s') ->
  exists j original_duration path,
    jobs s' !! job_id
    = Some (update_fields (now W) (Some COMPLETED) (Some 100)
              (Some "Video ready for download!")
              (Some (TrimResult job_id original_duration
                                (end_time job - start_time job) path))
              None j)
    /\ FS.exists_ (files s') path = true.
Proof.
  intros Hhas H. unfold trim_job_body in H.
  apply (bind_return_keeps (Spec.has_job job_id)) in H
    as ([] & s1 & _ & Hhas1 & H); [| keeps_job | exact Hhas].
  apply (bind_return_keeps (Spec.has_job job_id)) in H
    as (d & s2 & _ & Hhas2 & H); [| keeps_job | exact Hhas1].
  apply (bind_return_keeps (Spec.has_job job_id)) in H
    as ([] & s3 & _ & Hhas3 & H); [| keeps_job | exact Hhas2].
  apply (bind_return_keeps (Spec.has_job job_id)) in H
    as (downloaded_file & s4 & _ & Hhas4 & H); [| keeps_job | exact Hhas3].
  apply (bind_return_keeps (Spec.has_job job_id)) in H
    as ([] & s5 & _ & Hhas5 & H);
    [| unfold append_file_path; keeps_job | exact Hhas4].
  apply (bind_return_keeps (Spec.has_job job_id)) in H
    as ([] & s6 & _ & Hhas6 & H); [| keeps_job | exact Hhas5].
  cbv zeta in H.
  apply (bind_return_keeps (Spec.has_job job_id)) in H
    as ([] & s7 & _ & Hhas7 & H); [| keeps_job | exact Hhas6].
  apply (bind_return_keeps (Spec.has_job job_id)) in H
    as ([] & s8 & _ & Hhas8 & H); [| keeps_job | exact Hhas7].
  apply (bind_return_keeps (Spec.has_job job_id)) in H
    as (transcript_data & s9 & _ & Hhas9 & H);
    [| unfold append_file_path; keeps_job | exact Hhas8].
  apply (bind_return_keeps (Spec.has_job job_id)) in H
    as ([] & s10 & _ & Hhas10 & H); [| keeps_job | exact Hhas9].
  apply (bind_return_keeps (Spec.has_job job_id)) in H
    as (trimmed_file & s11 & Htrim & Hhas11 & H); [| keeps_job | exact Hhas10].
  apply (bind_return_keeps (Spec.has_job job_id)) in H
    as ([] & s12 & Happ & Hhas12 & H);
    [| unfold append_file_path; keeps_job | exact Hhas11].
  unfold update_job, Py.modify in H. injection H as <-.
  unfold append_file_path, modify_job, Py.modify in Happ. injection Happ as Happ.
  destruct Hhas12 as [j Hj].
  exists j, (video_duration W downloaded_file), trimmed_file.
  cbn [jobs files]. split; [apply update_job_lookup; exact Hj |].
  rewrite <- Happ. cbn [files].
  unfold lift_fs in Htrim.
  destruct ((if vertical_format job
             then Transform.trim_video_vertical W downloaded_file
                    (d +:+ "/trimmed_" +:+ job_id +:+ ".mp4")
                    (start_time job) (end_time job) transcript_data
                    (add_subtitles job)
             else Transform.trim_video W downloaded_file
                    (d +:+ "/trimmed_" +:+ job_id +:+ ".mp4")
                    (start_time job) (end_time job)) (files s10))
    as [o f'] eqn:E.
  injection Htrim as -> <-. cbn [files].
  destruct (vertical_format job).
  - apply trim_video_vertical_returns_existing in E as [-> Hex];
      [exact Hex | apply subtitle_path_not_output].
  - apply trim_video_returns_existing in E as [-> Hex]. exact Hex.
Qed.

(** X21: for a job in the store, [_process_trim_job] leaves the job in
    one of two states only. Either it is [COMPLETED] with progress 100 and
    a result whose trimmed duration is the length of the window, and
    [get_file_path] gives the path of the result, which exists; or it is
    [FAILED] with an error that starts with "Processing failed: ", and
    [get_file_path] gives nothing. *)
Theorem trim_job_ends_completed_or_failed
        (W : World) (job_id : string) (s : State) (job : Job) :
  jobs s !! job_id = Some job ->
  exists job',
    jobs (snd (_process_trim_job W job_id s)) !! job_id = Some job'
    /\ ((status job' = COMPLETED
         /\ progress job' = 100
         /\ exists original_duration path,
              result job'
              = Some (TrimResult job_id original_duration
                                 (end_time job - start_time job) path)
              /\ JobViews.get_file_path (jobs (snd (_process_trim_job W job_id s)))
                                        job_id
                 = Some path
              /\ FS.exists_ (files (snd (_process_trim_job W job_id s))) path
                 = true)
        \/ (status job' = FAILED
            /\ (exists m, error job' = Some ("Processing failed: " +:+ m))
            /\ JobViews.get_file_path (jobs (snd (_process_trim_job W job_id s)))
                                      job_id
               = None)).
Proof.
  intros Hjob.
  assert (Spec.has_job job_id s) as Hhas by (exists job; exact Hjob).
  pose proof (trim_job_body_keeps_job W job_id job_id job s Hhas) as Hkeep.
  unfold _process_trim_job. rewrite Hjob. unfold Py.try_except.
  destruct (trim_job_body W job_id job s) as [[[] | e] s1] eqn:Hbody;
    cbn [snd] in *.
  - destruct (trim_job_body_returns W job_id job s s1 Hhas Hbody)
      as (j & od & path & Hlk & Hex).
    eexists. split; [exact Hlk |]. left.
    split; [reflexivity |]. split; [reflexivity |].
    exists od, path. split; [reflexivity |].
    split; [| exact Hex].
    unfold JobViews.get_file_path. rewrite Hlk. reflexivity.
  - destruct (on_failure_records W job_id "Processing failed: " e s1 Hkeep eq_refl)
      as (_ & job' & Hlk & Hst & Herr).
    exists job'. split; [exact Hlk |]. right.
    split; [exact Hst |]. split; [exists (Py.exn_str e); exact Herr |].
    unfold JobViews.get_file_path. rewrite Hlk, Hst. reflexivity.
Qed.

Lemma trim_job_ends_completed_or_failed_witness :
  exists job',
    jobs (snd (_process_trim_job Spec.failing_trim_world "job-1" Spec.queued))
    !! "job-1" = Some job'
    /\ ((status job' = COMPLETED
         /\ progress job' = 100
         /\ exists original_duration path,
              result job'
              = Some (TrimResult "job-1" original_duration (60 - 30) path)
              /\ JobViews.get_file_path
                   (jobs (snd (_process_trim_job Spec.failing_trim_world "job-1"
                                 Spec.queued))) "job-1"
                 = Some path
              /\ FS.exists_
                   (files (snd (_process_trim_job Spec.failing_trim_world "job-1"
                                  Spec.queued))) path
                 = true)
        \/ (status job' = FAILED
            /\ (exists m, error job' = Some ("Processing failed: " +:+ m))
            /\ JobViews.get_file_path
                 (jobs (snd (_process_trim_job Spec.failing_trim_world "job-1"
                               Spec.queued))) "job-1"
               = None)).
Proof.
  apply (trim_job_ends_completed_or_failed Spec.failing_trim_world "job-1"
           Spec.queued
           (mkJob "job-1" QUEUED 0 "Job created, waiting to start..."
                  0 0 None None "trim" "https://youtube.com/watch?v=abc123"
                  30 60 false false "openai" None [])).
  vm_compute. reflexivity.
Defined.

End TrimJobOutcome.

Section EndTimeCheck.

Import Jobs Orchestrator.

(** The [except] block of the two routines on a state that holds the
    job: the update it makes and the clean-up it attempts. *)
Lemma on_failure_effect (W : World) (job_id prefix : string) (e : Py.exn)
      (s : State) (j : Job) :
  jobs s !! job_id = Some j ->
  on_failure W job_id prefix e s
  = (Py.Return tt,
     mkState (Jobs.update_job (jobs s) (now W) job_id None None
                (Some (prefix +:+ Py.exn_str e)) None
                (Some (prefix +:+ Py.exn_str e)))
             (match temp_dir j with
              | Some d => if Py.truthy d
                          then snd (FS.cleanup_files [Some d] (files s))
                          else files s
              | None => files s
              end)).
Proof.
  intros Hj.
  pose proof (update_job_lookup (jobs s) (now W) job_id None None
                (Some (prefix +:+ Py.exn_str e)) None
                (Some (prefix +:+ Py.exn_str e)) j Hj) as Hlk.
  destruct (update_fields_same_request (now W) None None
              (Some (prefix +:+ Py.exn_str e)) None
              (Some (prefix +:+ Py.exn_str e)) j)
    as [(_ & _ & _ & _ & _ & _ & _ & _ & _ & Htd & _) _].
  unfold on_failure, Py.bind, update_job, Py.modify, Py.get. cbv beta iota.
  unfold job_temp_dir. cbn [jobs files]. rewrite Hlk, <- Htd.
  destruct (temp_dir j) as [d |]; [| reflexivity].
  destruct (Py.truthy d); [| reflexivity].
  unfold lift_fs. cbn [files jobs].
  pose proof (cleanup_files_returns [Some d] (files s)) as Hc.
  destruct (FS.cleanup_files [Some d] (files s)) as [o f']. cbn in Hc.
  subst o. reflexivity.
Qed.

(** The [try] block of [_process_trim_job] on a source shorter than the
    requested end: it raises right after the update to progress 30. *)
Lemma trim_job_body_rejects_end_time
      (W : World) (job_id : string) (s : State) (job : Job)
      (d path : string) (f1 : FS.fs) (dur : Q) :
  jobs s !! job_id = Some job ->
  fresh_dir W = Py.Return d ->
  download W (url job) d false (<[d := FS.Dir]> (files s)) = (Py.Return path, f1) ->
  video_duration W path = Some dur ->
  ~ (dur == 0)%Q ->
  (dur < end_time job)%Q ->
  exists e s1 j,
    trim_job_body W job_id job s = (Py.Raise e, s1)
    /\ jobs s1 !! job_id = Some j
    /\ progress j = 30
    /\ temp_dir j = Some d
    /\ files s1 = f1.
Proof.
  intros Hjob Hfresh Hdl Hdur Hnz Hlong.
  unfold trim_job_body.
  unfold Py.bind, update_job, modify_job, append_file_path, modify_job, lift_fs,
    Py.modify, FS.mkdtemp.
  cbn [jobs files fst snd].
  rewrite Hfresh. cbn [jobs files fst snd]. rewrite Hdl.
  cbn [jobs files fst snd]. rewrite Hdur.
  assert (Qeq_bool dur 0 = false) as ->.
  { destruct (Qeq_bool dur 0) eqn:E; [| reflexivity].
    exfalso. apply Hnz. apply Qeq_bool_iff. exact E. }
  rewrite (Qle_bool_false (end_time job) dur Hlong).
  cbn [negb andb]. unfold Py.raise.
  eexists. eexists. eexists.
  split; [reflexivity |]. cbn [jobs files].
  split.
  - apply update_job_lookup.
    rewrite lookup_alter_eq, lookup_alter_eq.
    rewrite (update_job_lookup (jobs s) (now W) job_id _ _ _ _ _ job Hjob).
    reflexivity.
  - split; [reflexivity |]. split; reflexivity.
Qed.

(** X22: when the source is shorter than the requested end time (and its
    duration is known and not zero), [_process_trim_job] stops before any
    processing: the job ends [FAILED] with an error that starts with
    "Processing failed: ", its progress stays at the 30 of the last step
    done, and the downloaded source and the scratch directory are left as
    the download put them. *)
Theorem end_time_beyond_duration_fails_job
        (W : World) (job_id : string) (s : State) (job : Job)
        (d path : string) (f1 : FS.fs) (dur : Q) :
  jobs s !! job_id = Some job ->
  fresh_dir W = Py.Return d ->
  download W (url job) d false (<[d := FS.Dir]> (files s)) = (Py.Return path, f1) ->
  f1 !! d = Some FS.Dir ->
  video_duration W path = Some dur ->
  ~ (dur == 0)%Q ->
  (dur < end_time job)%Q ->
  exists job',
    jobs (snd (_process_trim_job W job_id s)) !! job_id = Some job'
    /\ status job' = FAILED
    /\ progress job' = 30
    /\ (exists m, error job' = Some ("Processing failed: " +:+ m))
    /\ temp_dir job' = Some d
    /\ files (snd (_process_trim_job W job_id s)) = f1.
Proof.
  intros Hjob Hfresh Hdl Hdir Hdur Hnz Hlong.
  destruct (trim_job_body_rejects_end_time W job_id s job d path f1 dur
              Hjob Hfresh Hdl Hdur Hnz Hlong)
    as (e & s1 & j & Hbody & Hj & Hpr & Htd & Hf).
  unfold _process_trim_job. rewrite Hjob. unfold Py.try_except. rewrite Hbody.
  rewrite (on_failure_effect W job_id "Processing failed: " e s1 j Hj).
  cbn [snd jobs files].
  eexists. split; [apply update_job_lookup; exact Hj |].
  destruct (update_fields_same_request (now W) None None
              (Some ("Processing failed: " +:+ Py.exn_str e)) None
              (Some ("Processing failed: " +:+ Py.exn_str e)) j)
    as [(_ & _ & _ & _ & _ & _ & _ & _ & _ & Htd' & _) _].
  split; [reflexivity |]. split; [exact Hpr |].
  split; [exists (Py.exn_str e); reflexivity |].
  split; [rewrite <- Htd'; exact Htd |].
  rewrite Htd, Hf. destruct (Py.truthy d); [| reflexivity].
  rewrite (cleanup_files_keeps_directory d f1 Hdir). reflexivity.
Qed.

Lemma end_time_beyond_duration_fails_job_witness :
  exists job',
    jobs (snd (_process_trim_job Spec.failing_trim_world "job-1"
                 (mkState (create_job ∅ 0 "job-1" "trim"
                             "https://youtube.com/watch?v=abc123" 30 150
                             false false "openai") ∅)))
    !! "job-1" = Some job'
    /\ status job' = FAILED
    /\ progress job' = 30
    /\ (exists m, error job' = Some ("Processing failed: " +:+ m))
    /\ temp_dir job' = Some "/tmp/tmpjob1"
    /\ files (snd (_process_trim_job Spec.failing_trim_world "job-1"
                     (mkState (create_job ∅ 0 "job-1" "trim"
                                 "https://youtube.com/watch?v=abc123" 30 150
                                 false false "openai") ∅)))
       = Spec.scratch_fs.
Proof.
  apply (end_time_beyond_duration_fails_job Spec.failing_trim_world "job-1"
           (mkState (create_job ∅ 0 "job-1" "trim"
                       "https://youtube.com/watch?v=abc123" 30 150
                       false false "openai") ∅)
           (mkJob "job-1" QUEUED 0 "Job created, waiting to start..."
                  0 0 None None "trim" "https://youtube.com/watch?v=abc123"
                  30 150 false false "openai" None [])
           "/tmp/tmpjob1" "/tmp/tmpjob1/source.mp4" Spec.scratch_fs 120).
  - vm_compute. reflexivity.
  - reflexivity.
  - vm_compute. reflexivity.
  - vm_compute. reflexivity.
  - reflexivity.
  - vm_compute. discriminate.
  - vm_compute. reflexivity.
Defined.

End EndTimeCheck.

Section HooksJobOutcome.

Import Jobs Orchestrator.

Ltac keeps_job :=
  repeat first
    [ apply keeps_ret
    | apply keeps_raise
    | apply keeps_update_job
    | apply keeps_modify_job
    | apply keeps_lift_fs
    | apply keeps_bind; [| intros ?]
    | apply keeps_try_except; [| intros ?]
    | match goal with
      | |- Spec.keeps _ (match ?x with _ => _ end) => destruct x
      end ].

Lemma fold_left_max_spec (rest : list Z) :
  forall e : Z,
    e <= fold_left Z.max rest e
    /\ Forall (fun x => x <= fold_left Z.max rest e) rest.
Proof.
  induction rest as [| x rest IH]; intros e; cbn [fold_left].
  - split; [lia | constructor].
  - destruct (IH (Z.max e x)) as [Hle Hall]. split; [lia |].
    constructor; [lia | exact Hall].
Qed.

(** The duration [_process_hooks_job] falls back on is at least the end
    of every hook. *)
Lemma latest_end_bounds (hooks_data : list Hook) :
  Forall (fun h => hook_end h <= latest_end hooks_data) hooks_data.
Proof.
  unfold latest_end. destruct hooks_data as [| h rest]; [constructor |].
  cbn [map]. destruct (fold_left_max_spec (map hook_end rest) (hook_end h))
    as [Hle Hall].
  constructor; [exact Hle |].
  rewrite Forall_map in Hall. exact Hall.
Qed.

(** The [try] block of [_process_hooks_job], when it runs to its end:
    the scratch directory was made, the pipeline returned the hooks, and
    the last update marks the job completed with its result. *)
Lemma hooks_job_body_returns (W : World) (job_id : string) (job : Job)
      (s s' : State) :
  Spec.has_job job_id s ->
  hooks_job_body W job_id job s = (Py.Return tt, s') ->
  exists j hooks_data scratch f,
    fresh_dir W = Py.Return scratch
    /\ hooks_pipeline W (url job) scratch (ai_provider job)
                      (<[scratch := FS.Dir]> (files s))
       = (Py.Return hooks_data, f)
    /\ jobs s' !! job_id
       = Some (update_fields (now W) (Some COMPLETED) (Some 100)
                 (Some "Hook analysis complete!")
                 (Some (HooksResult hooks_data (length hooks_data)
                          (Props.reported_duration W (url job) scratch hooks_data f)))
                 None j).
Proof.
  intros Hhas H. unfold hooks_job_body in H.
  apply (bind_return_keeps (Spec.has_job job_id)) in H
    as ([] & s1 & H1 & Hhas1 & H); [| keeps_job | exact Hhas].
  unfold update_job at 1, Py.modify in H1. injection H1 as <-.
  apply (bind_return_keeps (Spec.has_job job_id)) in H
    as (d & s2 & H2 & Hhas2 & H); [| keeps_job | exact Hhas1].
  unfold lift_fs, FS.mkdtemp in H2. cbn [files jobs] in H2.
  destruct (fresh_dir W) as [d' | e] eqn:Hfresh; [| discriminate H2].
  injection H2 as -> <-.
  apply (bind_return_keeps (Spec.has_job job_id)) in H
    as ([] & s3 & H3 & Hhas3 & H); [| keeps_job | exact Hhas2].
  unfold modify_job, Py.modify in H3. injection H3 as <-.
  apply (bind_return_keeps (Spec.has_job job_id)) in H
    as ([] & s4 & H4 & Hhas4 & H); [| keeps_job | exact Hhas3].
  unfold update_job at 1, Py.modify in H4. injection H4 as <-.
  apply (bind_return_keeps (Spec.has_job job_id)) in H
    as (hooks_data & s5 & H5 & Hhas5 & H); [| keeps_job | exact Hhas4].
  unfold lift_fs in H5. cbn [files jobs] in H5.
  destruct (hooks_pipeline W (url job) d (ai_provider job)
                           (<[d := FS.Dir]> (files s))) as [o f5] eqn:Hpipe.
  injection H5 as -> <-.
  apply (bind_return_keeps (Spec.has_job job_id)) in H
    as (video_duration & s6 & Hvd & Hhas6 & H); [| keeps_job | exact Hhas5].
  unfold update_job, Py.modify in H. injection H as <-.
  destruct Hhas6 as [j Hj].
  exists j, hooks_data, d, f5. cbn [jobs].
  split; [reflexivity |]. split; [exact Hpipe |].
  assert (video_duration = Props.reported_duration W (url job) d hooks_data f5)
    as ->.
  { unfold Py.try_except, Py.bind, lift_fs in Hvd. cbn [files jobs] in Hvd.
    unfold Props.reported_duration.
    destruct (download W (url job) d true f5) as [[video_path | e] f'];
      cbn [fst]; injection Hvd as <- _; reflexivity. }
  apply update_job_lookup. exact Hj.
Qed.

(** X23: for a job in the store, [_process_hooks_job] leaves the job
    [COMPLETED] with progress 100 and a result whose [total_hooks] is the
    number of hooks, or [FAILED] with an error that starts with "Hook
    analysis failed: "; either way [get_file_path] gives nothing for it.
    A completed job reports the hooks the pipeline returned in the fresh
    scratch directory, and as duration that of the source downloaded
    once more, or, when this one download fails, the end of the latest
    hook, which is not before the end of any hook. *)
Theorem hooks_job_ends_completed_or_failed
        (W : World) (job_id : string) (s : State) (job : Job) :
  jobs s !! job_id = Some job ->
  exists job',
    jobs (snd (_process_hooks_job W job_id s)) !! job_id = Some job'
    /\ JobViews.get_file_path (jobs (snd (_process_hooks_job W job_id s))) job_id
       = None
    /\ ((status job' = COMPLETED
         /\ progress job' = 100
         /\ exists hooks_data scratch f,
              fresh_dir W = Py.Return scratch
              /\ hooks_pipeline W (url job) scratch (ai_provider job)
                                (<[scratch := FS.Dir]> (files s))
                 = (Py.Return hooks_data, f)
              /\ result job'
                 = Some (HooksResult hooks_data (length hooks_data)
                           (Props.reported_duration W (url job) scratch
                                                    hooks_data f))
              /\ (Py.is_return (fst (download W (url job) scratch true f)) = false ->
                  Props.reported_duration W (url job) scratch hooks_data f
                  = Some (inject_Z (latest_end hooks_data)))
              /\ Forall (fun h => hook_end h <= latest_end hooks_data) hooks_data)
        \/ (status job' = FAILED
            /\ exists m, error job' = Some ("Hook analysis failed: " +:+ m))).
Proof.
  intros Hjob.
  assert (Spec.has_job job_id s) as Hhas by (exists job; exact Hjob).
  pose proof (hooks_job_body_keeps_job W job_id job_id job s Hhas) as Hkeep.
  unfold _process_hooks_job. rewrite Hjob. unfold Py.try_except.
  destruct (hooks_job_body W job_id job s) as [[[] | e] s1] eqn:Hbody;
    cbn [snd] in *.
  - destruct (hooks_job_body_returns W job_id job s s1 Hhas Hbody)
      as (j & hooks_data & scratch & f & Hfresh & Hpipe & Hlk).
    eexists. split; [exact Hlk |].
    split; [unfold JobViews.get_file_path; rewrite Hlk; reflexivity |].
    left. split; [reflexivity |]. split; [reflexivity |].
    exists hooks_data, scratch, f.
    split; [exact Hfresh |]. split; [exact Hpipe |]. split; [reflexivity |].
    split; [| apply latest_end_bounds].
    unfold Props.reported_duration.
    destruct (fst (download W (url job) scratch true f)); [discriminate |].
    reflexivity.
  - destruct (on_failure_records W job_id "Hook analysis failed: " e s1 Hkeep
                eq_refl) as (_ & job' & Hlk & Hst & Herr).
    exists job'. split; [exact Hlk |].
    split; [unfold JobViews.get_file_path; rewrite Hlk, Hst; reflexivity |].
    right. split; [exact Hst | exists (Py.exn_str e); exact Herr].
Qed.

Lemma hooks_job_ends_completed_or_failed_witness :
  exists job',
    jobs (snd (_process_hooks_job Props.hooks_world "job-1" Spec.queued))
    !! "job-1" = Some job'
    /\ status job' = COMPLETED
    /\ progress job' = 100
    /\ result job' = Some (HooksResult Props.two_hooks 2 (Some 120%Q)).
Proof.
  destruct (hooks_job_ends_completed_or_failed Props.hooks_world "job-1"
              Spec.queued Props.scenario_job)
    as (job' & Hlk & _ & _).
  - vm_compute. reflexivity.
  - exists job'. split; [exact Hlk |].
    vm_compute in Hlk. injection Hlk as <-.
    split; [reflexivity |]. split; reflexivity.
Defined.

End HooksJobOutcome.

(** ** The queue worker's task, further properties *)

Section QueueTaskFacts.

Import AsyncProcessor.

(** The [except] block of the task, with the exception it ends in. *)
Lemma trim_task_failed_outcome (job_id : string) (retries max_retries : nat)
      (e : Py.exn) (q : State) :
  exists q',
    trim_task_failed job_id retries max_retries e q
    = (Py.Raise
         (if (retries <? max_retries)%nat
             && (Str.contains "network" (Str.lower (Py.exn_str e))
                 || Str.contains "timeout" (Str.lower (Py.exn_str e)))
          then Py.Exn Py.Retry "Retry"
          else Py.Exn Py.Exception ("Video processing failed: " +:+ Py.exn_str e)),
       q')
    /\ db q' = db q
    /\ db_closed q' = db_closed q
    /\ (db q = false -> temp_dir q = None -> q' = q).
Proof.
  unfold trim_task_failed.
  unfold Py.bind at 1. unfold Py.get. cbv beta iota.
  unfold Py.bind at 1.
  assert (exists q1,
             (if db q && video_job q
              then set_row job_id
                     (fun r => mkVideoJob FAILED (Some (Py.exn_str e))
                                 (vj_original_duration r) (vj_trimmed_duration r)
                                 (vj_file_path r))
              else Py.ret tt) q = (Py.Return tt, q1)
             /\ db q1 = db q /\ db_closed q1 = db_closed q
             /\ files q1 = files q
             /\ (db q = false -> q1 = q)) as (q1 & -> & Hdb1 & Hcl1 & Hf1 & Hsame1).
  { destruct (db q) eqn:Edb; [destruct (video_job q) |]; cbn [andb].
    - eexists. split; [reflexivity |]. cbn.
      repeat split; try assumption; discriminate.
    - exists q. split; [reflexivity |].
      repeat split; try assumption; discriminate.
    - exists q. split; [reflexivity |]. repeat split; assumption. }
  unfold Py.bind at 1.
  assert (exists q2,
             match temp_dir q with
             | Some d => if Py.truthy d
                         then lift_fs (FS.cleanup_files [Some d])
                         else Py.ret tt
             | None => Py.ret tt
             end q1 = (Py.Return tt, q2)
             /\ db q2 = db q1 /\ db_closed q2 = db_closed q1
             /\ (temp_dir q = None -> q2 = q1)) as (q2 & -> & Hdb2 & Hcl2 & Hsame2).
  { destruct (temp_dir q) as [d |];
      [| exists q1; repeat split; reflexivity].
    destruct (Py.truthy d);
      [| exists q1; split; [reflexivity |];
         repeat split; try reflexivity; discriminate].
    unfold lift_fs.
    pose proof (cleanup_files_returns [Some d] (files q1)) as Hc.
    destruct (FS.cleanup_files [Some d] (files q1)) as [o f']. cbn in Hc.
    subst o. eexists. split; [reflexivity |]. cbn.
    repeat split; discriminate. }
  exists q2. split.
  - destruct ((retries <? max_retries)%nat
              && (Str.contains "network" (Str.lower (Py.exn_str e))
                  || Str.contains "timeout" (Str.lower (Py.exn_str e))));
      reflexivity.
  - split; [congruence |]. split; [congruence |].
    intros Hdb Htd. rewrite (Hsame2 Htd). apply Hsame1. exact Hdb.
Qed.

(** The [finally] block never raises. *)
Lemma try_finally_close_db {A} (body : Py.M State A) (q : State) :
  Py.try_finally body close_db q
  = (fst (body q),
     if db (snd (body q))
     then mkState (rows (snd (body q))) (files (snd (body q)))
                  (task_meta (snd (body q))) (db (snd (body q)))
                  (video_job (snd (body q))) (temp_dir (snd (body q))) true
     else snd (body q)).
Proof.
  unfold Py.try_finally, close_db, Py.modify.
  destruct (body q) as [o q1]. reflexivity.
Qed.

(** X25: the task asks for a retry only while retries remain and only for
    a failure whose message, in lower case, contains "network" or
    "timeout". With the retries used up, and for any other failure, what
    reaches the worker is an [Exception] with the message "Video processing
    failed: " followed by the failure's own. *)
Theorem queue_task_retries_transient_failures_only
        (W : World) (retries max_retries : nat) (job_id url : string)
        (start_time end_time : Q) (vertical_format add_subtitles : bool)
        (q q1 : State) (e : Py.exn) :
  trim_task_body W job_id url start_time end_time vertical_format add_subtitles q
  = (Py.Raise e, q1) ->
  let transient :=
    Str.contains "network" (Str.lower (Py.exn_str e))
    || Str.contains "timeout" (Str.lower (Py.exn_str e)) in
  let outcome :=
    fst (process_video_trim_async W retries max_retries job_id url start_time
           end_time vertical_format add_subtitles q) in
  ((retries < max_retries)%nat -> transient = true ->
   Py.raised_class outcome = Some Py.Retry)
  /\ ((max_retries <= retries)%nat \/ transient = false ->
      outcome = Py.Raise (Py.Exn Py.Exception
                            ("Video processing failed: " +:+ Py.exn_str e))).
Proof.
  intros Hbody transient outcome.
  assert (outcome
          = Py.Raise
              (if (retries <? max_retries)%nat && transient
               then Py.Exn Py.Retry "Retry"
               else Py.Exn Py.Exception
                      ("Video processing failed: " +:+ Py.exn_str e))) as ->.
  { unfold outcome, process_video_trim_async.
    rewrite try_finally_close_db. cbn [fst].
    unfold Py.try_except. rewrite Hbody.
    destruct (trim_task_failed_outcome job_id retries max_retries e q1)
      as (q2 & -> & _). reflexivity. }
  split.
  - intros Hlt ->. apply Nat.ltb_lt in Hlt. rewrite Hlt. reflexivity.
  - intros [Hge | ->].
    + apply Nat.ltb_ge in Hge. rewrite Hge. reflexivity.
    + rewrite andb_false_r. reflexivity.
Qed.

Lemma queue_task_retries_transient_failures_only_witness :
  fst (process_video_trim_async Spec.queue_world 3 3 "job-1"
         "https://youtube.com/watch?v=abc123" 30 60 false false Spec.pending)
  = Py.Raise (Py.Exn Py.Exception
                ("Video processing failed: "
                 +:+ "Failed to download video: Network is unreachable")).
Proof.
  refine (proj2 (queue_task_retries_transient_failures_only
                   Spec.queue_world 3 3 "job-1"
                   "https://youtube.com/watch?v=abc123" 30 60 false false
                   Spec.pending _
                   (Py.Exn Py.Exception
                           "Failed to download video: Network is unreachable")
                   _) _).
  - vm_compute. reflexivity.
  - left. lia.
Defined.

(** X26: when the database session cannot be obtained, the task changes
    nothing: the job's row keeps the status it had, no scratch directory
    is made, no session is closed, and the failure goes to the worker. *)
Theorem queue_task_without_session_changes_nothing
        (W : World) (retries max_retries : nat) (job_id url : string)
        (start_time end_time : Q) (vertical_format add_subtitles : bool)
        (q : State) (e : Py.exn) :
  db_session W = Py.Raise e ->
  db q = false ->
  temp_dir q = None ->
  snd (process_video_trim_async W retries max_retries job_id url start_time
         end_time vertical_format add_subtitles q) = q
  /\ Py.is_return
       (fst (process_video_trim_async W retries max_retries job_id url start_time
               end_time vertical_format add_subtitles q)) = false.
Proof.
  intros Hsession Hdb Htd. unfold process_video_trim_async.
  rewrite try_finally_close_db.
  assert (trim_task_body W job_id url start_time end_time vertical_format
                         add_subtitles q = (Py.Raise e, q)) as Hbody.
  { unfold trim_task_body. unfold Py.bind at 1. unfold Py.lift.
    rewrite Hsession. reflexivity. }
  unfold Py.try_except. rewrite Hbody.
  destruct (trim_task_failed_outcome job_id retries max_retries e q)
    as (q2 & -> & _ & _ & Hsame).
  rewrite (Hsame Hdb Htd). cbn [fst snd]. rewrite Hdb.
  split; reflexivity.
Qed.

Lemma queue_task_without_session_changes_nothing_witness :
  snd (process_video_trim_async Spec.nothing_works 0 3 "job-1"
         "https://youtube.com/watch?v=abc123" 30 60 false false Spec.pending)
  = Spec.pending
  /\ Py.is_return
       (fst (process_video_trim_async Spec.nothing_works 0 3 "job-1"
               "https://youtube.com/watch?v=abc123" 30 60 false false
               Spec.pending)) = false.
Proof.
  apply (queue_task_without_session_changes_nothing Spec.nothing_works 0 3 "job-1"
           "https://youtube.com/watch?v=abc123" 30 60 false false Spec.pending
           (Py.Exn Py.TypeError
                   "'_GeneratorContextManager' object is not an iterator")).
  - reflexivity.
  - reflexivity.
  - reflexivity.
Defined.

End QueueTaskFacts.


(** ** The quick path *)

Section RetryLoop.

Import Transcript Quick.

Variable request : nat -> string -> Py.outcome Whisper.

(** One attempt touches no file and sends one request at most. *)
Lemma attempt_body_state (attempt : nat) (audio_path : string) (chunk_size : N)
      (s : State) :
  exists k : nat,
    (k <= 1)%nat
    /\ snd (attempt_body request attempt audio_path chunk_size s)
       = mkState (files_to_cleanup s) (slept s) (k + requests s) (files s).
Proof.
  destruct s as [ftc sl rq f].
  unfold attempt_body, Py.bind, lift_fs, FS.getsize, open_and_request.
  cbn [files files_to_cleanup slept requests].
  destruct (f !! audio_path) as [[n |] |] eqn:E; cbn [snd fst].
  - destruct (chunk_size <? n)%N; [exists 0%nat; split; [lia | reflexivity] |].
    cbn [files files_to_cleanup slept requests]. rewrite E.
    destruct (request attempt audio_path);
      exists 1%nat; split; try lia; reflexivity.
  - destruct (chunk_size <? 4096)%N; [exists 0%nat; split; [lia | reflexivity] |].
    cbn [files files_to_cleanup slept requests]. rewrite E.
    exists 0%nat; split; [lia | reflexivity].
  - exists 0%nat; split; [lia | reflexivity].
Qed.

(** An audio file above the limit fails the attempt before the request. *)
Lemma attempt_body_oversize (attempt : nat) (audio_path : string) (chunk_size n : N)
      (s : State) :
  files s !! audio_path = Some (FS.File n) ->
  (chunk_size < n)%N ->
  attempt_body request attempt audio_path chunk_size s
  = (Py.Raise (Py.Exn Py.Exception
                 (too_large n)), s).
Proof.
  intros Hf Hbig. destruct s as [ftc sl rq f]. cbn [files] in Hf.
  unfold attempt_body, Py.bind, lift_fs, FS.getsize.
  cbn [files files_to_cleanup slept requests]. rewrite Hf.
  apply N.ltb_lt in Hbig. rewrite Hbig. reflexivity.
Qed.

Lemma attempts_step (max_retries : nat) (audio_path : string) (chunk_size : N)
      (attempt remaining : nat) (s : State) :
  attempts request max_retries audio_path chunk_size attempt (S remaining) s
  = match attempt_body request attempt audio_path chunk_size s with
    | (Py.Return result, s') => (Py.Return (Some result), s')
    | (Py.Raise e, s') =>
        if (Z.of_nat attempt <? Z.of_nat max_retries - 1)%Z
        then attempts request max_retries audio_path chunk_size (S attempt) remaining
               (mkState (files_to_cleanup s') (slept s' + 2 ^ Z.of_nat attempt)
                        (requests s') (files s'))
        else (Py.Raise (Py.Exn Py.Exception
                          ("Transcription failed after "
                           +:+ Str.of_Z (Z.of_nat max_retries)
                           +:+ " attempts: " +:+ Py.exn_str e)), s')
    end.
Proof.
  cbn [attempts].
  destruct (attempt_body request attempt audio_path chunk_size s) as [[r | e] s'];
    [reflexivity |].
  destruct (Z.of_nat attempt <? Z.of_nat max_retries - 1)%Z; reflexivity.
Qed.

(** The loop from [attempt] on: the file system and the clean-up list
    are untouched, at most one request is sent for each turn that is
    left, the sleeps add up to at most
    [2 ^ (max_retries - 1) - 2 ^ attempt] seconds, and the loop ends with
    a transcript or with the exception of the last attempt. *)
Lemma attempts_spec (max_retries : nat) (audio_path : string) (chunk_size : N) :
  forall (remaining attempt : nat) (s : State),
    (attempt + S remaining = max_retries)%nat ->
    let r := attempts request max_retries audio_path chunk_size attempt
               (S remaining) s in
    files (snd r) = files s
    /\ files_to_cleanup (snd r) = files_to_cleanup s
    /\ (requests s <= requests (snd r) <= requests s + S remaining)%nat
    /\ slept s <= slept (snd r)
       <= slept s + 2 ^ (Z.of_nat max_retries - 1) - 2 ^ Z.of_nat attempt
    /\ match fst r with
       | Py.Return (Some _) => True
       | Py.Return None => False
       | Py.Raise e =>
           Py.exn_cls e = Py.Exception
           /\ exists msg,
                Py.exn_str e
                = "Transcription failed after " +:+ Str.of_Z (Z.of_nat max_retries)
                  +:+ " attempts: " +:+ msg
       end.
Proof.
  induction remaining as [| remaining IH]; intros attempt s Hsum r; subst r;
    rewrite attempts_step;
    destruct (attempt_body_state attempt audio_path chunk_size s) as (k & Hk & Hs).
  - assert (Z.of_nat attempt = Z.of_nat max_retries - 1) as Ha by lia.
    destruct (attempt_body request attempt audio_path chunk_size s)
      as [[result | e] s']; cbn [fst snd] in *; subst s'.
    + cbn [files files_to_cleanup slept requests].
      rewrite <- Ha. repeat split; lia.
    + assert ((Z.of_nat attempt <? Z.of_nat max_retries - 1)%Z = false) as ->
        by (apply Z.ltb_ge; lia).
      cbn [fst snd files files_to_cleanup slept requests]. rewrite <- Ha.
      repeat split; try lia. eexists. reflexivity.
  - assert (Z.of_nat attempt < Z.of_nat max_retries - 1) as Ha by lia.
    assert (2 ^ Z.of_nat attempt * 2 <= 2 ^ (Z.of_nat max_retries - 1)) as Hpow.
    { replace (2 ^ Z.of_nat attempt * 2) with (2 ^ (Z.of_nat attempt + 1))
        by (rewrite Z.pow_add_r by lia; reflexivity).
      apply Z.pow_le_mono_r; lia. }
    assert (0 < 2 ^ Z.of_nat attempt) as Hpos by (apply Z.pow_pos_nonneg; lia).
    destruct (attempt_body request attempt audio_path chunk_size s)
      as [[result | e] s']; cbn [fst snd] in *; subst s'.
    + cbn [files files_to_cleanup slept requests]. repeat split; lia.
    + apply Z.ltb_lt in Ha as Hb. rewrite Hb.
      cbn [files files_to_cleanup slept requests].
      destruct (IH (S attempt)
                  (mkState (files_to_cleanup s) (slept s + 2 ^ Z.of_nat attempt)
                           (k + requests s) (files s)))
        as (Hf & Hc & Hr & Hsl & Ho); [lia |].
      cbn [files files_to_cleanup slept requests] in *.
      replace (2 ^ Z.of_nat (S attempt)) with (2 ^ Z.of_nat attempt * 2) in Hsl
        by (rewrite Nat2Z.inj_succ, Z.pow_succ_r by lia; lia).
      repeat split; try assumption; lia.
Qed.

(** X28: [transcribe_segment_optimized] makes at most [max_retries]
    attempts: it sends at most [max_retries] requests to the speech
    service, and sleeps between the attempts for at most
    [2 ^ (max_retries - 1) - 1] seconds in all; it touches no file; with
    one attempt or more it returns a transcript or raises an [Exception]
    whose message starts with "Transcription failed after N attempts: ".
    With [max_retries = 0] it makes no attempt and returns [None]. *)
Theorem transcription_retries_are_bounded
        (audio_path : string) (max_retries : nat) (chunk_size : N) (s : State) :
  (max_retries = 0%nat ->
   transcribe_segment_optimized request audio_path max_retries chunk_size s
   = (Py.Return None, s))
  /\ ((0 < max_retries)%nat ->
      let r := transcribe_segment_optimized request audio_path max_retries
                 chunk_size s in
      files (snd r) = files s
      /\ (requests s <= requests (snd r) <= requests s + max_retries)%nat
      /\ slept s <= slept (snd r) <= slept s + 2 ^ (Z.of_nat max_retries - 1) - 1
      /\ match fst r with
         | Py.Return (Some _) => True
         | Py.Return None => False
         | Py.Raise e =>
             Py.exn_cls e = Py.Exception
             /\ exists msg,
                  Py.exn_str e
                  = "Transcription failed after "
                    +:+ Str.of_Z (Z.of_nat max_retries)
                    +:+ " attempts: " +:+ msg
         end).
Proof.
  split.
  - intros ->. reflexivity.
  - intros Hpos. unfold transcribe_segment_optimized.
    destruct max_retries as [| remaining]; [lia |].
    destruct (attempts_spec (S remaining) audio_path chunk_size remaining 0 s
                eq_refl) as (Hf & _ & Hr & Hs & Ho).
    cbv zeta. change (2 ^ Z.of_nat 0) with 1 in Hs.
    split; [exact Hf |]. split; [exact Hr |]. split; [exact Hs | exact Ho].
Qed.

Lemma oversize_attempts (max_retries : nat) (audio_path : string)
      (chunk_size n : N) :
  forall (remaining attempt : nat) (s : State),
    (attempt + S remaining = max_retries)%nat ->
    files s !! audio_path = Some (FS.File n) ->
    (chunk_size < n)%N ->
    attempts request max_retries audio_path chunk_size attempt (S remaining) s
    = (Py.Raise (Py.Exn Py.Exception
                   ("Transcription failed after "
                    +:+ Str.of_Z (Z.of_nat max_retries) +:+ " attempts: "
                    +:+ (too_large n))),
       mkState (files_to_cleanup s)
               (slept s + 2 ^ (Z.of_nat max_retries - 1) - 2 ^ Z.of_nat attempt)
               (requests s) (files s)).
Proof.
  induction remaining as [| remaining IH]; intros attempt s Hsum Hf Hbig;
    rewrite attempts_step, (attempt_body_oversize attempt audio_path chunk_size n s
                              Hf Hbig); cbn [fst Py.exn_str].
  - assert (Z.of_nat attempt = Z.of_nat max_retries - 1) as Ha by lia.
    assert ((Z.of_nat attempt <? Z.of_nat max_retries - 1)%Z = false) as ->
      by (apply Z.ltb_ge; lia).
    rewrite <- Ha. destruct s as [ftc sl rq f].
    cbn [files files_to_cleanup slept requests].
    do 2 f_equal. lia.
  - assert (Z.of_nat attempt < Z.of_nat max_retries - 1) as Ha by lia.
    apply Z.ltb_lt in Ha as Hb. rewrite Hb.
    rewrite IH; [| lia | exact Hf | exact Hbig].
    cbn [files files_to_cleanup slept requests]. do 2 f_equal.
    rewrite Nat2Z.inj_succ, Z.pow_succ_r by lia. lia.
Qed.

(** X29: an audio file above the size limit is never sent to the speech
    service (the count of requests stays as it was), yet
    [transcribe_segment_optimized] goes through all its attempts before
    it gives up: it sleeps [2 ^ (max_retries - 1) - 1] seconds (3 with
    the default of three attempts) and then raises. *)
Theorem oversize_audio_is_retried_in_vain
        (audio_path : string) (max_retries : nat) (chunk_size n : N) (s : State) :
  (0 < max_retries)%nat ->
  files s !! audio_path = Some (FS.File n) ->
  (chunk_size < n)%N ->
  exists msg,
    transcribe_segment_optimized request audio_path max_retries chunk_size s
    = (Py.Raise (Py.Exn Py.Exception
                   ("Transcription failed after "
                    +:+ Str.of_Z (Z.of_nat max_retries) +:+ " attempts: " +:+ msg)),
       mkState (files_to_cleanup s)
               (slept s + 2 ^ (Z.of_nat max_retries - 1) - 1)
               (requests s) (files s)).
Proof.
  intros Hpos Hf Hbig. unfold transcribe_segment_optimized.
  destruct max_retries as [| remaining]; [lia |].
  eexists.
  rewrite (oversize_attempts (S remaining) audio_path chunk_size n remaining 0 s
             eq_refl Hf Hbig).
  reflexivity.
Qed.

End RetryLoop.

Lemma transcription_retries_are_bounded_witness :
  let r := Quick.transcribe_segment_optimized
             (fun _ _ => Py.Raise (Py.Exn Py.Exception "Connection error."))
             "/tmp/tmpjob1/segment_audio.wav" 3 (23 * 1024 * 1024)
             (Quick.mkState [] 0 0 Props.small_audio_fs) in
  Quick.files (snd r) = Props.small_audio_fs
  /\ (0 <= Quick.requests (snd r) <= 0 + 3)%nat
  /\ 0 <= Quick.slept (snd r) <= 0 + 2 ^ (Z.of_nat 3 - 1) - 1
  /\ match fst r with
     | Py.Return (Some _) => True
     | Py.Return None => False
     | Py.Raise e =>
         Py.exn_cls e = Py.Exception
         /\ exists msg,
              Py.exn_str e
              = "Transcription failed after " +:+ Str.of_Z (Z.of_nat 3)
                +:+ " attempts: " +:+ msg
     end.
Proof.
  apply (proj2 (transcription_retries_are_bounded
                  (fun _ _ => Py.Raise (Py.Exn Py.Exception "Connection error."))
                  "/tmp/tmpjob1/segment_audio.wav" 3 (23 * 1024 * 1024)
                  (Quick.mkState [] 0 0 Props.small_audio_fs))).
  lia.
Defined.

Lemma oversize_audio_is_retried_in_vain_witness :
  exists msg,
    Quick.transcribe_segment_optimized
      (fun _ _ => Py.Raise (Py.Exn Py.Exception "Connection error."))
      "/tmp/tmpjob1/audio.wav" 3 (23 * 1024 * 1024)
      (Quick.mkState [] 0 0 Spec.large_audio_fs)
    = (Py.Raise (Py.Exn Py.Exception
                   ("Transcription failed after " +:+ Str.of_Z (Z.of_nat 3)
                    +:+ " attempts: " +:+ msg)),
       Quick.mkState [] (0 + 2 ^ (Z.of_nat 3 - 1) - 1) 0 Spec.large_audio_fs).
Proof.
  apply (oversize_audio_is_retried_in_vain
           (fun _ _ => Py.Raise (Py.Exn Py.Exception "Connection error."))
           "/tmp/tmpjob1/audio.wav" 3 (23 * 1024 * 1024) 31457280
           (Quick.mkState [] 0 0 Spec.large_audio_fs)).
  - lia.
  - vm_compute. reflexivity.
  - vm_compute. reflexivity.
Defined.

Section ScratchManager.

Import Quick.

Variable request : nat -> string -> Py.outcome Transcript.Whisper.
Variable download_optimized : string -> string -> string -> Py.M FS.fs string.
Variable client : Py.outcome unit.

Lemma prefix_app (a b : string) : String.prefix a (a +:+ b) = true.
Proof.
  induction a as [| c a IH]; [rewrite append_nil; destruct b; reflexivity |].
  rewrite append_cons. cbn [String.prefix].
  destruct (ascii_dec c c) as [_ | Hne]; [exact IH | congruence].
Qed.

(** A path made with [get_temp_path] lies below the directory. *)
Lemma temp_path_below (d filename : string) :
  Py.truthy d = true ->
  FS.ends_with_slash d = false ->
  String.prefix "/" filename = false ->
  get_temp_path d filename = d +:+ "/" +:+ filename
  /\ FS.below d (get_temp_path d filename) = true.
Proof.
  intros Ht Hs Hf. unfold get_temp_path, FS.path_join. rewrite Hf, Ht, Hs.
  cbn [negb orb]. split; [reflexivity |].
  unfold FS.below. rewrite <- string_app_assoc. apply prefix_app.
Qed.

Lemma remove_listed_cons (p : string) (rest : list string) (f : FS.fs) :
  remove_listed (p :: rest) f
  = remove_listed rest (match f !! p with
                        | Some (FS.File _) => delete p f
                        | _ => f
                        end).
Proof.
  cbn [remove_listed]. unfold Py.bind, Py.try_except, FS.exists_, FS.os_remove, Py.ret.
  destruct (f !! p) as [[n |] |]; reflexivity.
Qed.

(** The first loop of [cleanup] never raises, keeps every directory and
    creates nothing. *)
Lemma remove_listed_spec (file_paths : list string) :
  forall f : FS.fs,
    fst (remove_listed file_paths f) = Py.Return tt
    /\ (forall q, f !! q = Some FS.Dir ->
                  snd (remove_listed file_paths f) !! q = Some FS.Dir)
    /\ (forall q, f !! q = None -> snd (remove_listed file_paths f) !! q = None).
Proof.
  induction file_paths as [| p rest IH]; intros f.
  { repeat split; auto. }
  rewrite remove_listed_cons.
  destruct (f !! p) as [[n |] |] eqn:E; [| apply IH | apply IH].
  destruct (IH (delete p f)) as (Hret & Hdir & Hnone).
  split; [exact Hret |]. split.
  - intros q Hq. apply Hdir. rewrite lookup_delete_ne; [exact Hq |].
    intros ->. congruence.
  - intros q Hq. apply Hnone.
    destruct (decide (p = q)) as [-> | Hne];
      [apply lookup_delete_eq | rewrite lookup_delete_ne by exact Hne; exact Hq].
Qed.

(** [cleanup] on a state whose scratch directory is in place: it
    returns, and the directory is gone with all that was below it. *)
Lemma cleanup_removes_scratch (d : string) (s : State) :
  Py.truthy d = true ->
  files s !! d = Some FS.Dir ->
  fst (cleanup d s) = Py.Return tt
  /\ files (snd (cleanup d s)) !! d = None
  /\ (forall p, FS.below d p = true -> files (snd (cleanup d s)) !! p = None)
  /\ slept (snd (cleanup d s)) = slept s.
Proof.
  intros Ht Hd. destruct s as [ftc sl rq f]. cbn [files] in Hd.
  destruct (remove_listed_spec ftc f) as (Hret & Hdir & _).
  specialize (Hdir d Hd).
  unfold cleanup, Py.bind, Py.get, lift_fs, Py.try_except.
  cbn [files files_to_cleanup slept requests].
  destruct (remove_listed ftc f) as [o f1]. cbn [fst snd] in Hret, Hdir. subst o.
  cbn [files files_to_cleanup slept requests]. unfold FS.exists_. rewrite Ht, Hdir.
  cbn [andb].
  destruct (rmtree_effect d f1) as [_ Hrm].
  destruct (Hrm Hdir) as (Hok & Hgone & Hbelow).
  destruct (FS.rmtree d f1) as [o f2] eqn:E. cbn [fst snd] in Hok, Hgone, Hbelow.
  subst o. cbn [files files_to_cleanup slept requests]. rewrite E.
  cbn [fst snd files slept].
  split; [reflexivity |]. split; [exact Hgone |].
  split; [exact Hbelow | reflexivity].
Qed.

(** Whatever the body of the [with] block raises is an [Exception], and
    what it returns names the output below the scratch directory. *)
Lemma quick_body_outcome (W : World) (url : string) (start_time end_time : Z)
      (vertical_format add_subtitles : bool) (remaining_time : N) (d : string)
      (s : State) :
  match fst (quick_body request download_optimized client W url start_time
               end_time vertical_format add_subtitles remaining_time d s) with
  | Py.Return res =>
      output_path res = get_temp_path d "output.mp4" /\ result_temp_dir res = d
  | Py.Raise e =>
      e = Py.Exn Py.Exception
            "Video processing timed out. Please try with a shorter video segment or disable subtitles."
      \/ exists msg, e = Py.Exn Py.Exception ("Video processing failed: " +:+ msg)
  end.
Proof.
  unfold quick_body. unfold Py.try_except.
  match goal with
  | |- match fst (let (o, s') := ?m s in _) with _ => _ end =>
      destruct (m s) as [[res | e] s1] eqn:Hbody
  end; cbn [fst].
  - apply bind_return_inv in Hbody as (video_path & sa & _ & Hbody).
    apply bind_return_inv in Hbody as ([] & sb & _ & Hbody).
    apply bind_return_inv in Hbody as (transcript_data & sc & _ & Hbody).
    cbv zeta in Hbody.
    apply bind_return_inv in Hbody as (processed_path & sd & Htrim & Hbody).
    apply bind_return_inv in Hbody as (s' & se & Hget & Hbody).
    unfold Py.get in Hget. injection Hget as <- <-.
    destruct (FS.exists_ (files sd) processed_path); [| discriminate Hbody].
    apply bind_return_inv in Hbody as (size & sf & _ & Hbody).
    destruct (size <? 1024)%N; [discriminate Hbody |].
    injection Hbody as <- _. cbn [output_path result_temp_dir].
    split; [| reflexivity].
    unfold lift_fs in Htrim.
    destruct ((if vertical_format
               then Transform.trim_video_vertical_optimized W video_path
                      (get_temp_path d "output.mp4") (inject_Z start_time)
                      (inject_Z end_time) transcript_data add_subtitles
                      remaining_time
               else Transform.trim_video W video_path
                      (get_temp_path d "output.mp4") (inject_Z start_time)
                      (inject_Z end_time)) (files sc)) as [o f'] eqn:E.
    injection Htrim as -> _.
    destruct vertical_format.
    + apply optimized_returns_output_path in E. exact E.
    + apply trim_video_returns_existing in E as [-> _]. reflexivity.
  - destruct e as [cls msg]. destruct cls; cbn [Py.exn_cls Py.exn_str Py.raise fst];
      try (right; eexists; reflexivity).
    left. reflexivity.
Qed.

(** X30: [process_video_with_timeout_handling] leaves nothing behind.
    When the body of its [with] block ends with the scratch directory in
    place, the directory and all below it are removed, whether the body
    returned or raised. So the [output_path] it returns, which lies in
    that directory, names a file that no longer exists; and what it
    raises is an [Exception], never [ProcessingTimeoutError]. *)
Theorem quick_processing_removes_its_output
        (W : World) (url : string) (start_time end_time : Z)
        (vertical_format add_subtitles : bool) (remaining_time : N)
        (d : string) (s s2 : State) (o : Py.outcome Result) :
  fresh_dir W = Py.Return d ->
  Py.truthy d = true ->
  FS.ends_with_slash d = false ->
  quick_body request download_optimized client W url start_time end_time
    vertical_format add_subtitles remaining_time d
    (mkState [] (slept s) (requests s) (<[d := FS.Dir]> (files s))) = (o, s2) ->
  files s2 !! d = Some FS.Dir ->
  let r := process_video_with_timeout_handling request download_optimized client
             W url start_time end_time vertical_format add_subtitles
             remaining_time s in
  fst r = o
  /\ files (snd r) !! d = None
  /\ (forall p, FS.below d p = true -> files (snd r) !! p = None)
  /\ match o with
     | Py.Return res =>
         output_path res = d +:+ "/" +:+ "output.mp4"
         /\ result_temp_dir res = d
         /\ files (snd r) !! output_path res = None
     | Py.Raise e => Py.exn_cls e = Py.Exception
     end.
Proof.
  intros Hfresh Ht Hslash Hbody Hdir r.
  destruct (cleanup_removes_scratch d s2 Ht Hdir) as (Hret & Hgone & Hbelow & _).
  assert (r = (o, snd (cleanup d s2))) as ->.
  { unfold r, process_video_with_timeout_handling, with_temp_file_manager.
    unfold Py.bind at 1. unfold Py.modify at 1.
    unfold Py.bind at 1. unfold lift_fs at 1, FS.mkdtemp.
    cbn [files files_to_cleanup slept requests]. rewrite Hfresh.
    unfold Py.try_finally. rewrite Hbody.
    destruct (cleanup d s2) as [oc s3]. cbn [fst snd] in *. subst oc.
    reflexivity. }
  cbn [fst snd]. split; [reflexivity |]. split; [exact Hgone |].
  split; [exact Hbelow |].
  pose proof (quick_body_outcome W url start_time end_time vertical_format
                add_subtitles remaining_time d
                (mkState [] (slept s) (requests s) (<[d := FS.Dir]> (files s))))
    as Hout.
  rewrite Hbody in Hout. cbn [fst] in Hout.
  destruct o as [res | e].
  - destruct Hout as [Hpath Htd].
    destruct (temp_path_below d "output.mp4" Ht Hslash eq_refl) as [Heq Hb].
    rewrite Hpath. split; [exact Heq |]. split; [exact Htd |].
    apply Hbelow. exact Hb.
  - destruct Hout as [-> | [msg ->]]; reflexivity.
Qed.

End ScratchManager.

Lemma quick_processing_removes_its_output_witness :
  fst Props.quick_run
  = Py.Return (Quick.mkResult true "/tmp/tmpjob1/output.mp4" "/tmp/tmpjob1")
  /\ Quick.files (snd Props.quick_run) !! "/tmp/tmpjob1" = None
  /\ (forall p, FS.below "/tmp/tmpjob1" p = true ->
                Quick.files (snd Props.quick_run) !! p = None)
  /\ ("/tmp/tmpjob1/output.mp4" = "/tmp/tmpjob1" +:+ "/" +:+ "output.mp4"
      /\ "/tmp/tmpjob1" = "/tmp/tmpjob1"
      /\ Quick.files (snd Props.quick_run) !! "/tmp/tmpjob1/output.mp4" = None).
Proof.
  apply (quick_processing_removes_its_output
           (fun _ _ => Py.Raise (Py.Exn Py.Exception "Connection error."))
           Props.quick_download (Py.Return tt)
           (Spec.encoder_world 2 ["/tmp/tmpjob1/output.mp4"] 2000000 1280 720)
           "https://youtube.com/watch?v=abc123" 30 60 false false 540
           "/tmp/tmpjob1" (Quick.mkState [] 0 0 ∅)
           (Quick.mkState ["/tmp/tmpjob1/source.mp4"] 0 0
              (<["/tmp/tmpjob1/output.mp4" := FS.File 2000000]>
                 (<["/tmp/tmpjob1/source.mp4" := FS.File 5000000]>
                    (<["/tmp/tmpjob1" := FS.Dir]> ∅))))
           (Py.Return (Quick.mkResult true "/tmp/tmpjob1/output.mp4"
                                      "/tmp/tmpjob1"))).
  - reflexivity.
  - reflexivity.
  - reflexivity.
  - vm_compute. reflexivity.
  - vm_compute. reflexivity.
Defined.
